(** * CrewInsight: job store, collection fan-out, trend ranking, summary
      rendering and the background orchestrator

    A shallow embedding of [storage.py], [data_collectors.py]
    ([DataCollectorManager.collect_all_data]), [trend_analyzer.py],
    [summarizer.py] and [main.py] ([perform_analysis]), followed by the
    properties the specification states about them.

    Conventions of the embedding.
    - A Python [str] is the list of its Unicode code points.
    - A [datetime] is a point of the (naive, local) time line counted in
      microseconds, a [timedelta] a number of microseconds.
    - A Python [float] is read as the exact rational it denotes ([Q]);
      rounding, infinities and NaN are not part of the model.
    - What the interpreter supplies (Unicode case mapping, number
      formatting and parsing, the iteration order of a [set]) is collected
      in the class [PyRuntime]; every statement holds for every instance. *)

From Stdlib Require Import List Bool Arith ZArith NArith QArith Qabs Lia Lqa.
From Stdlib Require Import Permutation Sorted.
From Stdlib Require Strings.String Strings.Ascii.
Import ListNotations.
Import String.StringSyntax.
Delimit Scope string_scope with string.


(* ================================================================== *)
(** * Part I: the program                                              *)
(* ================================================================== *)

(** ** Python strings *)

Module PyStr.

Definition pystr : Type := list N.

(** An ASCII literal of the source. *)
Definition lit (s : String.string) : pystr :=
  map Ascii.N_of_ascii (String.list_ascii_of_string s).

Arguments lit s%_string.

Fixpoint eqb (a b : pystr) : bool :=
  match a, b with
  | [], [] => true
  | x :: a', y :: b' => N.eqb x y && eqb a' b'
  | _, _ => false
  end.

(** [str.isspace] on one code point: the characters [str.split()]
    cuts at. *)
Definition is_space (c : N) : bool :=
  ((9 <=? c) && (c <=? 13) || (28 <=? c) && (c <=? 32)
   || (c =? 133) || (c =? 160) || (c =? 5760)
   || (8192 <=? c) && (c <=? 8202)
   || (c =? 8232) || (c =? 8233) || (c =? 8239) || (c =? 8287)
   || (c =? 12288))%N.

Fixpoint startswith (p s : pystr) : bool :=
  match p, s with
  | [], _ => true
  | x :: p', y :: s' => N.eqb x y && startswith p' s'
  | _ :: _, [] => false
  end.

(** [sub in s] *)
Fixpoint contains (sub s : pystr) : bool :=
  startswith sub s ||
  match s with
  | [] => false
  | _ :: s' => contains sub s'
  end.

Definition newline : pystr := [10%N].

(** [sep.join(parts)] *)
Fixpoint join (sep : pystr) (parts : list pystr) : pystr :=
  match parts with
  | [] => []
  | p :: rest =>
      match rest with
      | [] => p
      | _ :: _ => p ++ sep ++ join sep rest
      end
  end.

Definition flush (cur : pystr) : list pystr :=
  match cur with
  | [] => []
  | _ :: _ => [cur]
  end.

(** [s.split()]: the maximal runs of non-space characters, in order;
    [cur] is the run being read. *)
Fixpoint split_from (cur s : pystr) : list pystr :=
  match s with
  | [] => flush cur
  | c :: s' =>
      if is_space c then flush cur ++ split_from [] s'
      else split_from (cur ++ [c]) s'
  end.

Definition split (s : pystr) : list pystr := split_from [] s.

(** No character of [w] is a space, and [w] is a word: not empty and
    without spaces. *)
Definition nospace (w : pystr) : bool := forallb (fun c => negb (is_space c)) w.

Definition word (w : pystr) : Prop := w <> [] /\ nospace w = true.

(** [tail] appended to the last element. *)
Fixpoint glue_last (tail : pystr) (ws : list pystr) : list pystr :=
  match ws with
  | [] => []
  | w :: rest =>
      match rest with
      | [] => [w ++ tail]
      | _ :: _ => w :: glue_last tail rest
      end
  end.

(** [s.split("\n")]: the lines of [s]; always at least one. *)
Fixpoint lines_from (cur s : pystr) : list pystr :=
  match s with
  | [] => [cur]
  | c :: s' =>
      if N.eqb c 10 then cur :: lines_from [] s'
      else lines_from (cur ++ [c]) s'
  end.

Definition lines (s : pystr) : list pystr := lines_from [] s.

(** [str(n)] for an [int]. *)
Fixpoint digits_of (fuel : nat) (n : N) (acc : pystr) : pystr :=
  match fuel with
  | O => acc
  | S fuel' =>
      let acc' := (48 + n mod 10)%N :: acc in
      if (n <? 10)%N then acc' else digits_of fuel' (n / 10)%N acc'
  end.

Definition str_of_N (n : N) : pystr := digits_of (S (N.to_nat (N.log2 n))) n [].

Definition str_of_Z (z : Z) : pystr :=
  match z with
  | Zneg p => 45%N :: str_of_N (Npos p)
  | _ => str_of_N (Z.to_N z)
  end.

End PyStr.

Import PyStr.

(** ** Time *)

Module PyTime.

Definition datetime : Type := Z.
Definition timedelta : Type := Z.

(** [timedelta(hours=h)] *)
Definition timedelta_hours (h : Z) : timedelta := (h * 3600 * 1000000)%Z.

Definition digit (n : Z) : N := (48 + Z.to_N (n mod 10))%N.
Definition pad2 (n : Z) : pystr := [digit (n / 10); digit n].
Definition pad4 (n : Z) : pystr :=
  [digit (n / 1000); digit (n / 100); digit (n / 10); digit n].

(** Civil date of a day number counted from 1970-01-01 (proleptic
    Gregorian calendar): year, month, day. *)
Definition civil_from_days (days : Z) : Z * Z * Z :=
  let z := (days + 719468)%Z in
  let era := (z / 146097)%Z in
  let doe := (z - era * 146097)%Z in
  let yoe := ((doe - doe / 1460 + doe / 36524 - doe / 146096) / 365)%Z in
  let doy := (doe - (365 * yoe + yoe / 4 - yoe / 100))%Z in
  let mp := ((5 * doy + 2) / 153)%Z in
  let d := (doy - (153 * mp + 2) / 5 + 1)%Z in
  let m := (if mp <? 10 then mp + 3 else mp - 9)%Z in
  let y := (yoe + era * 400 + (if m <=? 2 then 1 else 0))%Z in
  (y, m, d).

(** [t.strftime('%Y-%m-%d %H:%M:%S')] *)
Definition strftime_ymd_hms (t : datetime) : pystr :=
  let secs := (t / 1000000)%Z in
  let '(y, m, d) := civil_from_days (secs / 86400) in
  let sod := (secs mod 86400)%Z in
  pad4 y ++ lit "-" ++ pad2 m ++ lit "-" ++ pad2 d ++ lit " "
    ++ pad2 (sod / 3600) ++ lit ":" ++ pad2 (sod mod 3600 / 60)
    ++ lit ":" ++ pad2 (sod mod 60).

End PyTime.

Import PyTime.

(** ** The interpreter's library, as far as the program relies on it *)

Class PyRuntime : Type := {
  (** [s.lower()] and [s.title()] (Unicode case mapping) *)
  str_lower : pystr -> pystr;
  str_title : pystr -> pystr;
  (** [float(s)] on a string; [None] stands for [ValueError] *)
  float_of_str : pystr -> option Q;
  (** [f"{x:.<d>f}"] *)
  format_float : nat -> Q -> pystr;
  (** [str(x)] on a float *)
  repr_float : Q -> pystr;
  (** the order in which [set(xs)] is iterated *)
  set_iter : list pystr -> list pystr
}.

(** ** models.py *)

Module Models.

Inductive MarketRegion : Type := US | EU | ASIA | GLOBAL.

Definition region_value (r : MarketRegion) : pystr :=
  match r with
  | US => lit "US"
  | EU => lit "EU"
  | ASIA => lit "ASIA"
  | GLOBAL => lit "GLOBAL"
  end.

Inductive TimeFrame : Type := DAILY | WEEKLY | MONTHLY | QUARTERLY | YEARLY.

Definition timeframe_value (t : TimeFrame) : pystr :=
  match t with
  | DAILY => lit "1d"
  | WEEKLY => lit "1w"
  | MONTHLY => lit "1m"
  | QUARTERLY => lit "3m"
  | YEARLY => lit "1y"
  end.

Record AnalysisRequest : Type := {
  market : pystr;
  region : MarketRegion;
  timeframe : TimeFrame;
  api_key : pystr
}.

(** The validator of [confidence] ([ge=0.0, le=1.0]) is not part of the
    record: the rules only build trends it accepts (their confidences
    lie between 0 and 0.9). *)
Record TrendData : Type := {
  trend_name : pystr;
  description : pystr;
  confidence : Q;
  supporting_data : list pystr;
  impact : pystr
}.

(** A value of [processed_data] whose type the collectors do not fix
    (it is copied from a JSON reply). *)
Inductive pyval : Type :=
| VNone
| VStr (s : pystr)
| VInt (z : Z)
| VFloat (q : Q).

(** [processed_data: Dict[str, Any]].  The program reads it through a
    fixed set of keys and the collectors give each key one type, so the
    dictionary is a record with one optional field per key: [None] is
    an absent key. *)
Record ProcessedData : Type := {
  price_trend : option pystr;
  price_change_percent : option Q;
  volatility : option Q;
  data_points : option Z;
  sentiment_trend : option pystr;
  avg_sentiment : option Q;
  news_volume : option Z;
  top_themes : option (list pystr);
  economic_health : option pystr;
  growth_trend : option pystr;
  market_conditions : option pystr;
  inflation_pressure : option pystr;
  key_risks : option (list pystr);
  sector : option pyval;
  pe_ratio : option pyval;
  market_cap : option pyval
}.

(** [raw_data] is stored and never read by the modelled code. *)
Record MarketData : Type := {
  source : pystr;
  data_type : pystr;
  timestamp : datetime;
  processed_data : ProcessedData
}.

Record AnalysisResult : Type := {
  id : pystr;
  request : AnalysisRequest;
  status : pystr;
  created_at : datetime;
  completed_at : option datetime;
  market_data : list MarketData;
  trends : list TrendData;
  summary : option pystr;
  processing_time : option Q;
  error_message : option pystr
}.

(** [d.get(key, default)] *)
Definition get {A : Type} (field : option A) (default : A) : A :=
  match field with
  | Some v => v
  | None => default
  end.

(** [key in d] *)
Definition has {A : Type} (field : option A) : bool :=
  match field with
  | Some _ => true
  | None => false
  end.

(** [d.get(key) == s] for a string-valued key *)
Definition is_str (field : option pystr) (s : pystr) : bool :=
  match field with
  | Some v => PyStr.eqb v s
  | None => false
  end.

End Models.

Import Models.

(** ** storage.py *)

Module Storage.

(** A [dict] keyed by strings: the bindings in insertion order, one per
    key. *)
Definition dict (V : Type) : Type := list (pystr * V).

Section Dict.
Context {V : Type}.

Fixpoint dict_get (k : pystr) (d : dict V) : option V :=
  match d with
  | [] => None
  | (k', v) :: d' => if PyStr.eqb k k' then Some v else dict_get k d'
  end.

Definition dict_contains (k : pystr) (d : dict V) : bool :=
  match dict_get k d with
  | Some _ => true
  | None => false
  end.

(** [d[k] = v]: a known key keeps its place, a new one goes last. *)
Fixpoint dict_set (k : pystr) (v : V) (d : dict V) : dict V :=
  match d with
  | [] => [(k, v)]
  | (k', v') :: d' =>
      if PyStr.eqb k k' then (k', v) :: d'
      else (k', v') :: dict_set k v d'
  end.

(** [del d[k]] *)
Fixpoint dict_del (k : pystr) (d : dict V) : dict V :=
  match d with
  | [] => []
  | (k', v') :: d' =>
      if PyStr.eqb k k' then d' else (k', v') :: dict_del k d'
  end.

Definition dict_values (d : dict V) : list V := map snd d.
End Dict.

(** [sorted(l, key=..., reverse=True)]: the stable descending sort,
    the one list that holds the elements of [l] in descending order of
    key with the elements of equal key in their order in [l].
    [leb a b] compares the keys, [key a <= key b]. *)
Section Sorted.
Context {A : Type} (leb : A -> A -> bool).

Fixpoint insert_desc (x : A) (l : list A) : list A :=
  match l with
  | [] => [x]
  | y :: l' => if leb y x then x :: l else y :: insert_desc x l'
  end.

Definition sorted_reverse (l : list A) : list A :=
  fold_right insert_desc [] l.

(** Equal keys. *)
Definition same_key (x y : A) : bool := leb x y && leb y x.
End Sorted.

(** [l[:n]] for an [int] [n]: a negative [n] counts from the end. *)
Definition slice_to {A : Type} (n : Z) (l : list A) : list A :=
  if (n <? 0)%Z then firstn (Z.to_nat (Z.of_nat (length l) + n)) l
  else firstn (Z.to_nat n) l.

Record InMemoryStorage : Type := {
  max_results : Z;
  ttl_hours : Z;
  _results : dict AnalysisResult
}.

(** [InMemoryStorage(max_results, ttl_hours)]; the defaults are 1000
    and 24. *)
Definition init (max_results ttl_hours : Z) : InMemoryStorage :=
  {| max_results := max_results; ttl_hours := ttl_hours; _results := [] |}.

Definition with_results (s : InMemoryStorage) (d : dict AnalysisResult)
  : InMemoryStorage :=
  {| max_results := max_results s; ttl_hours := ttl_hours s; _results := d |}.

(** The keyword arguments of [update_analysis]: one optional entry per
    attribute of [AnalysisResult] (a keyword occurs at most once), and
    the keywords that name no attribute, which [hasattr] skips. *)
Record Updates : Type := {
  u_id : option pystr;
  u_request : option AnalysisRequest;
  u_status : option pystr;
  u_created_at : option datetime;
  u_completed_at : option (option datetime);
  u_market_data : option (list MarketData);
  u_trends : option (list TrendData);
  u_summary : option (option pystr);
  u_processing_time : option (option Q);
  u_error_message : option (option pystr);
  u_other : list pystr
}.

Definition no_updates : Updates :=
  {| u_id := None; u_request := None; u_status := None; u_created_at := None;
     u_completed_at := None; u_market_data := None;
     u_trends := None; u_summary := None; u_processing_time := None;
     u_error_message := None; u_other := [] |}.

(** [now] is the reading of [datetime.now()] during the call. *)
Definition _is_expired (s : InMemoryStorage) (now : datetime)
           (result : AnalysisResult) : bool :=
  let expiry_time := (created_at result + timedelta_hours (ttl_hours s))%Z in
  (now >? expiry_time)%Z.

Definition _cleanup_old_results (s : InMemoryStorage) (now : datetime)
  : InMemoryStorage :=
  let expired_ids :=
    map fst (filter (fun kv => _is_expired s now (snd kv)) (_results s)) in
  with_results s (fold_left (fun d k => dict_del k d) expired_ids (_results s)).

(** [AnalysisResult(id=..., request=..., status="processing",
    created_at=datetime.now())] *)
Definition new_result (now : datetime) (analysis_id : pystr)
           (request : AnalysisRequest) : AnalysisResult :=
  {| id := analysis_id; request := request; status := lit "processing";
     created_at := now; completed_at := None; market_data := [];
     trends := []; summary := None; processing_time := None;
     error_message := None |}.

(** [analysis_id] is the value [uuid.uuid4()] produced; [now] is the
    clock of the call, for the new record and for the eviction alike. *)
Definition create_analysis (s : InMemoryStorage) (now : datetime)
           (analysis_id : pystr) (request : AnalysisRequest)
  : pystr * InMemoryStorage :=
  let result := new_result now analysis_id request in
  let s1 :=
    if (Z.of_nat (length (_results s)) >=? max_results s)%Z
    then _cleanup_old_results s now
    else s in
  (analysis_id, with_results s1 (dict_set analysis_id result (_results s1))).

Definition get_analysis (s : InMemoryStorage) (now : datetime)
           (analysis_id : pystr)
  : option AnalysisResult * InMemoryStorage :=
  match dict_get analysis_id (_results s) with
  | Some result =>
      if _is_expired s now result
      then (None, with_results s (dict_del analysis_id (_results s)))
      else (Some result, s)
  | None => (None, s)
  end.

(** The [setattr] loop of [update_analysis]. *)
Definition set_fields (updates : Updates) (r : AnalysisResult)
  : AnalysisResult :=
  {| id := get (u_id updates) (id r);
     request := get (u_request updates) (request r);
     status := get (u_status updates) (status r);
     created_at := get (u_created_at updates) (created_at r);
     completed_at := get (u_completed_at updates) (completed_at r);
     market_data := get (u_market_data updates) (market_data r);
     trends := get (u_trends updates) (trends r);
     summary := get (u_summary updates) (summary r);
     processing_time := get (u_processing_time updates) (processing_time r);
     error_message := get (u_error_message updates) (error_message r) |}.

Definition stamp_completed (now : datetime) (r : AnalysisResult)
  : AnalysisResult :=
  {| id := id r; request := request r; status := status r;
     created_at := created_at r; completed_at := Some now;
     market_data := market_data r; trends := trends r;
     summary := summary r; processing_time := processing_time r;
     error_message := error_message r |}.

Definition update_analysis (s : InMemoryStorage) (now : datetime)
           (analysis_id : pystr) (updates : Updates)
  : bool * InMemoryStorage :=
  match dict_get analysis_id (_results s) with
  | None => (false, s)
  | Some result =>
      let result1 := set_fields updates result in
      let result2 :=
        if is_str (u_status updates) (lit "completed")
        then stamp_completed now result1
        else result1 in
      (true, with_results s (dict_set analysis_id result2 (_results s)))
  end.

Definition delete_analysis (s : InMemoryStorage) (analysis_id : pystr)
  : bool * InMemoryStorage :=
  if dict_contains analysis_id (_results s)
  then (true, with_results s (dict_del analysis_id (_results s)))
  else (false, s).

Definition list_analyses (s : InMemoryStorage) (now : datetime) (limit : Z)
  : list AnalysisResult * InMemoryStorage :=
  let s1 := _cleanup_old_results s now in
  let sorted_results :=
    sorted_reverse (fun a b => (created_at a <=? created_at b)%Z)
                   (dict_values (_results s1)) in
  (slice_to limit sorted_results, s1).

(** A run of [create_analysis] calls: clock reading, generated id and
    request of each. *)
Fixpoint create_many (s : InMemoryStorage)
         (calls : list (datetime * pystr * AnalysisRequest))
  : InMemoryStorage :=
  match calls with
  | [] => s
  | (now, analysis_id, request) :: rest =>
      create_many (snd (create_analysis s now analysis_id request)) rest
  end.

(** One binding per key, as in every [dict]. *)
Fixpoint keys_distinct {V : Type} (d : dict V) : bool :=
  match d with
  | [] => true
  | (k, _) :: d' => negb (dict_contains k d') && keys_distinct d'
  end.

(** In a run of creates: every generated id is new to the table and no
    stored record is expired when the call is made. *)
Fixpoint fresh_and_unexpired (s : InMemoryStorage)
         (calls : list (datetime * pystr * AnalysisRequest)) : bool :=
  match calls with
  | [] => true
  | (now, analysis_id, request) :: rest =>
      negb (dict_contains analysis_id (_results s))
      && forallb (fun kv => negb (_is_expired s now (snd kv))) (_results s)
      && fresh_and_unexpired (snd (create_analysis s now analysis_id request))
                             rest
  end.

(** Reading of "every access treats an expired record as absent". *)
Definition treated_as_absent (s : InMemoryStorage) (now : datetime)
           (analysis_id : pystr) (result : AnalysisResult)
           (updates : Updates) (limit : Z) : Prop :=
  fst (get_analysis s now analysis_id) = None
  /\ fst (update_analysis s now analysis_id updates) = false
  /\ fst (delete_analysis s analysis_id) = false
  /\ ~ In result (fst (list_analyses s now limit)).

End Storage.

Import Storage.

(** ** Exceptions *)

(** An instance of [Exception] (or of a subclass); [str(e)] is all the
    program reads from it. *)
Inductive pyexn : Type := Exception (message : pystr).

Definition exn_str (e : pyexn) : pystr :=
  match e with
  | Exception message => message
  end.

(** A computation that returns or raises. *)
Inductive result (A : Type) : Type :=
| Return (a : A)
| Raise (e : pyexn).

Arguments Return {A} a.
Arguments Raise {A} e.

Definition bind {A B : Type} (m : result A) (k : A -> result B) : result B :=
  match m with
  | Return a => k a
  | Raise e => Raise e
  end.

Notation "x <- m ;; k" := (bind m (fun x => k))
  (at level 61, m at next level, right associativity).

(** ** data_collectors.py: [DataCollectorManager] *)

Module Collectors.

(** What [asyncio.gather(..., return_exceptions=True)] holds for one
    collector once it has finished: the exception it raised, or the
    list it returned. *)
Inductive gathered : Type :=
| Raised (e : pyexn)
| Returned (data : list MarketData).

(** A collector is its [collect_data], with the outcome of its network
    calls fixed. *)
Definition Collector : Type :=
  pystr -> MarketRegion -> TimeFrame -> gathered.

Record DataCollectorManager : Type := {
  collectors : list Collector
}.

(** [gather] keeps the order of the tasks it is given. *)
Definition gather (self : DataCollectorManager) (market : pystr)
           (region : MarketRegion) (timeframe : TimeFrame) : list gathered :=
  map (fun collector => collector market region timeframe) (collectors self).

(** The loop that flattens the results. *)
Definition flatten (results : list gathered) : list MarketData :=
  fold_left
    (fun all_data r =>
       match r with
       | Raised _ => all_data
       | Returned data => all_data ++ data
       end)
    results [].

Definition collect_all_data (self : DataCollectorManager) (market : pystr)
           (region : MarketRegion) (timeframe : TimeFrame) : list MarketData :=
  flatten (gather self market region timeframe).

(** The outputs of the collectors that succeeded, in order. *)
Fixpoint successes (results : list gathered) : list (list MarketData) :=
  match results with
  | [] => []
  | Raised _ :: rest => successes rest
  | Returned data :: rest => data :: successes rest
  end.

Definition failed (r : gathered) : Prop :=
  match r with
  | Raised _ => True
  | Returned _ => False
  end.

End Collectors.

Import Collectors.

(** ** trend_analyzer.py *)

Module TrendAnalyzer.

Definition Qltb (x y : Q) : bool := negb (Qle_bool y x).

(** [min(a, b)]: the first argument unless the second is smaller. *)
Definition py_min (a b : Q) : Q := if Qltb b a then b else a.

Definition min_confidence_threshold : Q := 3 # 10.
Definition max_trends : nat := 5.

(** Truth value of a [pyval]. *)
Definition truthy (v : pyval) : bool :=
  match v with
  | VNone => false
  | VStr s => negb (PyStr.eqb s [])
  | VInt z => negb (z =? 0)%Z
  | VFloat q => negb (Qeq_bool q 0)
  end.

(** What [float(v)] does: it returns a number, raises [ValueError] or
    [TypeError] (which the caller catches together), or raises
    [OverflowError]. *)
Inductive float_outcome : Type :=
| FloatOf (q : Q)
| FloatRejected
| FloatOverflow.

(** The least magnitude of an [int] that [float] refuses: halfway
    between the largest double, [2^1024 - 2^971], and [2^1024]. *)
Definition float_int_bound : Z := (2 ^ 1024 - 2 ^ 970)%Z.

Definition int_overflows (z : Z) : bool := (float_int_bound <=? Z.abs z)%Z.

(** The [OverflowError] of [float]. *)
Definition overflow_error : pyexn :=
  Exception (lit "int too large to convert to float").

Section WithRuntime.
Context {rt : PyRuntime}.

(** [str(v)], as an f-string applies it. *)
Definition py_str (v : pyval) : pystr :=
  match v with
  | VNone => lit "None"
  | VStr s => s
  | VInt z => str_of_Z z
  | VFloat q => repr_float q
  end.

(** [float(v)].  [float(None)] raises [TypeError]; a string that is no
    number raises [ValueError] (one that is too large gives infinity,
    not an exception); an [int] that rounds beyond the largest double
    raises [OverflowError], and the others convert. *)
Definition py_float (v : pyval) : float_outcome :=
  match v with
  | VNone => FloatRejected
  | VStr s =>
      match float_of_str s with
      | Some q => FloatOf q
      | None => FloatRejected
      end
  | VInt z => if int_overflows z then FloatOverflow else FloatOf (inject_Z z)
  | VFloat q => FloatOf q
  end.

(** Body of the loop of [_analyze_price_trends] for one data point. *)
Definition price_rules (data : MarketData) : list TrendData :=
  let price_data := processed_data data in
  if PyStr.eqb (source data) (lit "Alpha Vantage")
     && has (price_trend price_data)
  then
    let change := get (price_change_percent price_data) 0 in
    let momentum_facts :=
      [ lit "Price change: " ++ format_float 2 change ++ lit "%";
        lit "Volatility: "
          ++ format_float 2 (get (volatility price_data) 0) ++ lit "%" ] in
    (if is_str (price_trend price_data) (lit "up") then
       [ {| trend_name := lit "Positive Price Momentum";
            description :=
              lit "Market showing upward price movement with "
                ++ format_float 2 change ++ lit "% change";
            confidence := py_min (9 # 10) (Qabs change / 10);
            supporting_data := momentum_facts;
            impact := lit "positive" |} ]
     else if is_str (price_trend price_data) (lit "down") then
       [ {| trend_name := lit "Negative Price Momentum";
            description :=
              lit "Market showing downward price movement with "
                ++ format_float 2 change ++ lit "% change";
            confidence := py_min (9 # 10) (Qabs change / 10);
            supporting_data := momentum_facts;
            impact := lit "negative" |} ]
     else [])
    ++
    (let vol := get (volatility price_data) 0 in
     if Qltb 20 vol then
       [ {| trend_name := lit "High Market Volatility";
            description :=
              lit "Market experiencing high volatility at "
                ++ format_float 2 vol ++ lit "%";
            confidence := py_min (8 # 10) (vol / 30);
            supporting_data :=
              [ lit "Volatility level: " ++ format_float 2 vol ++ lit "%";
                lit "Data points analyzed: "
                  ++ str_of_Z (get (data_points price_data) 0%Z) ];
            impact := lit "neutral" |} ]
     else [])
  else [].

Definition _analyze_price_trends (market_data : list MarketData)
  : list TrendData :=
  flat_map price_rules market_data.

(** Body of the loop of [_analyze_sentiment_trends]. *)
Definition sentiment_rules (data : MarketData) : list TrendData :=
  let sentiment_data := processed_data data in
  if PyStr.eqb (source data) (lit "Financial News")
     && has (sentiment_trend sentiment_data)
  then
    let sentiment := get (sentiment_trend sentiment_data) (lit "neutral") in
    let avg := get (avg_sentiment sentiment_data) 0 in
    let volume := get (news_volume sentiment_data) 0%Z in
    let sentiment_facts :=
      [ lit "Average sentiment score: " ++ format_float 3 avg;
        lit "News volume: " ++ str_of_Z volume ++ lit " articles";
        lit "Top themes: "
          ++ join (lit ", ")
                  (firstn 3 (get (top_themes sentiment_data) [])) ] in
    (if PyStr.eqb sentiment (lit "positive") && Qltb (2 # 10) avg then
       [ {| trend_name := lit "Positive Market Sentiment";
            description :=
              lit "Strong positive sentiment in news coverage with "
                ++ str_of_Z volume ++ lit " articles analyzed";
            confidence := py_min (9 # 10) (avg * 2);
            supporting_data := sentiment_facts;
            impact := lit "positive" |} ]
     else if PyStr.eqb sentiment (lit "negative")
             && Qltb avg (- (2 # 10)) then
       [ {| trend_name := lit "Negative Market Sentiment";
            description :=
              lit "Negative sentiment in news coverage with "
                ++ str_of_Z volume ++ lit " articles analyzed";
            confidence := py_min (9 # 10) (Qabs avg * 2);
            supporting_data := sentiment_facts;
            impact := lit "negative" |} ]
     else [])
    ++
    (if (volume >? 50)%Z then
       [ {| trend_name := lit "High News Volume";
            description :=
              lit "Significant media attention with "
                ++ str_of_Z volume ++ lit " articles in the timeframe";
            confidence := py_min (7 # 10) (inject_Z volume / 100);
            supporting_data :=
              [ lit "Article count: " ++ str_of_Z volume;
                lit "Sentiment trend: " ++ sentiment ];
            impact := lit "neutral" |} ]
     else [])
  else [].

Definition _analyze_sentiment_trends (market_data : list MarketData)
  : list TrendData :=
  flat_map sentiment_rules market_data.

(** Body of the loop of [_analyze_economic_trends]. *)
Definition economic_rules (data : MarketData) : list TrendData :=
  if PyStr.eqb (source data) (lit "Economic Indicators") then
    let economic_data := processed_data data in
    let health := get (economic_health economic_data) (lit "unknown") in
    let growth := get (growth_trend economic_data) (lit "unknown") in
    let risks :=
      lit "Key risks: "
        ++ join (lit ", ") (get (key_risks economic_data) []) in
    (if PyStr.eqb health (lit "good") then
       [ {| trend_name := lit "Strong Economic Fundamentals";
            description :=
              lit "Economic indicators show positive fundamentals supporting market growth";
            confidence := 8 # 10;
            supporting_data :=
              [ lit "Economic health: " ++ health;
                lit "Growth trend: " ++ growth;
                risks ];
            impact := lit "positive" |} ]
     else if PyStr.eqb health (lit "moderate") then
       [ {| trend_name := lit "Mixed Economic Signals";
            description :=
              lit "Economic indicators show mixed signals with moderate growth prospects";
            confidence := 6 # 10;
            supporting_data :=
              [ lit "Economic health: " ++ health;
                lit "Growth trend: " ++ growth;
                lit "Market conditions: "
                  ++ get (market_conditions economic_data) (lit "unknown") ];
            impact := lit "neutral" |} ]
     else [])
    ++
    (let conditions :=
       get (market_conditions economic_data) (lit "unknown") in
     if PyStr.eqb conditions (lit "volatile") then
       [ {| trend_name := lit "Volatile Market Conditions";
            description :=
              lit "Economic indicators suggest increased market volatility";
            confidence := 7 # 10;
            supporting_data :=
              [ lit "Market conditions: " ++ conditions;
                lit "Inflation pressure: "
                  ++ get (inflation_pressure economic_data) (lit "unknown");
                risks ];
            impact := lit "negative" |} ]
     else [])
  else [].

Definition _analyze_economic_trends (market_data : list MarketData)
  : list TrendData :=
  flat_map economic_rules market_data.

Definition _get_market_specific_trend (market : pystr)
           (market_data : list MarketData) : TrendData :=
  let market_lower := str_lower market in
  if contains (lit "tech") market_lower
     || contains (lit "technology") market_lower then
    {| trend_name := lit "Technology Innovation Drive";
       description :=
         lit "Technology sector continues to drive innovation with strong growth potential";
       confidence := 8 # 10;
       supporting_data :=
         [ lit "High R&D investment";
           lit "Digital transformation acceleration";
           lit "AI and automation adoption" ];
       impact := lit "positive" |}
  else if contains (lit "finance") market_lower
          || contains (lit "financial") market_lower then
    {| trend_name := lit "Financial Services Evolution";
       description :=
         lit "Financial services sector adapting to digital transformation and regulatory changes";
       confidence := 7 # 10;
       supporting_data :=
         [ lit "Fintech disruption";
           lit "Regulatory compliance focus";
           lit "Interest rate sensitivity" ];
       impact := lit "neutral" |}
  else if contains (lit "health") market_lower
          || contains (lit "healthcare") market_lower then
    {| trend_name := lit "Healthcare Innovation Growth";
       description :=
         lit "Healthcare sector benefiting from innovation and demographic trends";
       confidence := 8 # 10;
       supporting_data :=
         [ lit "Aging population";
           lit "Medical technology advances";
           lit "Regulatory approval pipeline" ];
       impact := lit "positive" |}
  else if contains (lit "energy") market_lower then
    {| trend_name := lit "Energy Transition Impact";
       description :=
         lit "Energy sector navigating transition to renewable sources";
       confidence := 7 # 10;
       supporting_data :=
         [ lit "Renewable energy growth";
           lit "Fossil fuel transition";
           lit "Geopolitical factors" ];
       impact := lit "neutral" |}
  else
    {| trend_name := lit "Sector-Specific Opportunities";
       description :=
         str_title market
           ++ lit " sector showing sector-specific growth opportunities";
       confidence := 6 # 10;
       supporting_data :=
         [ lit "Market-specific factors";
           lit "Regional economic conditions";
           lit "Industry dynamics" ];
       impact := lit "positive" |}.

(** The valuation rule of [_analyze_sector_trends], on the first data
    point that has a ["sector"] key.  A dictionary with that key is
    not empty, so [if sector_data:] holds.  The handler of the [try]
    catches [ValueError] and [TypeError] and emits nothing then; the
    [OverflowError] of [float] is not caught there and leaves the
    function. *)
Definition valuation_rule (market : pystr) (sector_data : ProcessedData)
  : result (list TrendData) :=
  let sector_name :=
    py_str (get (sector sector_data) (VStr (str_title market))) in
  let ratio := get (pe_ratio sector_data) VNone in
  if truthy ratio then
    match py_float ratio with
    | FloatOf pe_value =>
        let facts :=
          [ lit "P/E ratio: " ++ repr_float pe_value;
            lit "Sector: " ++ sector_name;
            lit "Market cap: "
              ++ py_str (get (market_cap sector_data) (VStr (lit "N/A"))) ] in
        if Qltb 30 pe_value then
          Return
            [ {| trend_name := lit "High Valuation Sector";
                 description :=
                   sector_name
                     ++ lit " sector showing high valuations with P/E ratio of "
                     ++ repr_float pe_value;
                 confidence := 7 # 10;
                 supporting_data := facts;
                 impact := lit "neutral" |} ]
        else if Qltb pe_value 15 then
          Return
            [ {| trend_name := lit "Undervalued Sector Opportunity";
                 description :=
                   sector_name
                     ++ lit " sector appears undervalued with P/E ratio of "
                     ++ repr_float pe_value;
                 confidence := 6 # 10;
                 supporting_data := facts;
                 impact := lit "positive" |} ]
        else Return []
    | FloatRejected => Return []
    | FloatOverflow => Raise overflow_error
    end
  else Return [].

(** [if market_trend:] holds for every [TrendData] object.  The
    keyword trend is appended after the valuation rule, so an exception
    of that rule leaves the function before it. *)
Definition _analyze_sector_trends (market_data : list MarketData)
           (market : pystr) : result (list TrendData) :=
  trends <-
    (match find (fun data => has (sector (processed_data data)))
                market_data with
     | Some data => valuation_rule market (processed_data data)
     | None => Return []
     end) ;;
  Return (trends ++ [_get_market_specific_trend market market_data]).

(** Everything the rules emit, in emission order; the three analyses
    that run before the sector analysis raise nothing. *)
Definition all_trends (market_data : list MarketData) (market : pystr)
  : result (list TrendData) :=
  let price_trends := _analyze_price_trends market_data in
  let sentiment_trends := _analyze_sentiment_trends market_data in
  let economic_trends := _analyze_economic_trends market_data in
  sector_trends <- _analyze_sector_trends market_data market ;;
  Return (price_trends ++ sentiment_trends ++ economic_trends
            ++ sector_trends).

Definition confidence_leb (a b : TrendData) : bool :=
  Qle_bool (confidence a) (confidence b).

(** The filter, the sort and the cut of [analyze_trends]. *)
Definition rank (trends : list TrendData) : list TrendData :=
  let filtered_trends :=
    filter (fun trend => Qle_bool min_confidence_threshold (confidence trend))
           trends in
  let sorted_trends := sorted_reverse confidence_leb filtered_trends in
  firstn max_trends sorted_trends.

Definition analyze_trends (market_data : list MarketData) (market : pystr)
           (region : MarketRegion) (timeframe : TimeFrame)
  : result (list TrendData) :=
  trends <- all_trends market_data market ;;
  Return (rank trends).

End WithRuntime.

End TrendAnalyzer.

Import TrendAnalyzer.

(** ** The rules of the battery

    The eight rule evaluators that [trend_analyzer.py] writes inline,
    told apart by the name of the trend they emit, with the ceiling the
    code gives each of them. *)

Module Rules.

Inductive rule : Type :=
| PriceMomentum
| Volatility
| Sentiment
| NewsVolume
| EconomicHealth
| MarketConditions
| Valuation
| SubjectKeyword.

Fixpoint assoc (name : pystr) (table : list (pystr * rule)) : option rule :=
  match table with
  | [] => None
  | (n, r) :: table' => if PyStr.eqb name n then Some r else assoc name table'
  end.

Definition rule_of_name (name : pystr) : option rule :=
  assoc name
    [ (lit "Positive Price Momentum", PriceMomentum);
      (lit "Negative Price Momentum", PriceMomentum);
      (lit "High Market Volatility", Volatility);
      (lit "Positive Market Sentiment", Sentiment);
      (lit "Negative Market Sentiment", Sentiment);
      (lit "High News Volume", NewsVolume);
      (lit "Strong Economic Fundamentals", EconomicHealth);
      (lit "Mixed Economic Signals", EconomicHealth);
      (lit "Volatile Market Conditions", MarketConditions);
      (lit "High Valuation Sector", Valuation);
      (lit "Undervalued Sector Opportunity", Valuation);
      (lit "Technology Innovation Drive", SubjectKeyword);
      (lit "Financial Services Evolution", SubjectKeyword);
      (lit "Healthcare Innovation Growth", SubjectKeyword);
      (lit "Energy Transition Impact", SubjectKeyword);
      (lit "Sector-Specific Opportunities", SubjectKeyword) ].

(** The largest confidence the code lets the rule emit. *)
Definition own_ceiling (r : rule) : Q :=
  match r with
  | PriceMomentum => 9 # 10
  | Volatility => 8 # 10
  | Sentiment => 9 # 10
  | NewsVolume => 7 # 10
  | EconomicHealth => 8 # 10
  | MarketConditions => 7 # 10
  | Valuation => 7 # 10
  | SubjectKeyword => 8 # 10
  end.

(** The interval of the specification the rule falls in: [0, 0.9] for
    the two rules capped at 0.9, [0, 0.8] for the others. *)
Definition clamp_ceiling (r : rule) : Q :=
  match r with
  | PriceMomentum | Sentiment => 9 # 10
  | _ => 8 # 10
  end.

(** The four rules that compute their confidence from a measured
    magnitude: the magnitude each reads, and the closed form it applies
    to it. *)
Definition magnitude (r : rule) (d : ProcessedData) : Q :=
  match r with
  | PriceMomentum => get (price_change_percent d) 0
  | Volatility => get (volatility d) 0
  | Sentiment => get (avg_sentiment d) 0
  | NewsVolume => inject_Z (get (news_volume d) 0%Z)
  | _ => 0
  end.

Definition closed_form (r : rule) : option (Q -> Q) :=
  match r with
  | PriceMomentum => Some (fun x => py_min (9 # 10) (Qabs x / 10))
  | Volatility => Some (fun x => py_min (8 # 10) (x / 30))
  | Sentiment => Some (fun x => py_min (9 # 10) (Qabs x * 2))
  | NewsVolume => Some (fun x => py_min (7 # 10) (x / 100))
  | _ => None
  end.

(** The confidence of [t] lies in the interval of the rule that
    emitted it. *)
Definition within_clamp (t : TrendData) : Prop :=
  exists r,
    rule_of_name (trend_name t) = Some r
    /\ 0 <= confidence t
    /\ confidence t <= own_ceiling r
    /\ own_ceiling r <= clamp_ceiling r
    /\ (clamp_ceiling r = 9 # 10 \/ clamp_ceiling r = 8 # 10).

(** The confidence of [t] is the closed form of its rule at the
    magnitude the data point carries. *)
Definition follows_closed_form (data : MarketData) (t : TrendData) : Prop :=
  exists r f,
    rule_of_name (trend_name t) = Some r
    /\ closed_form r = Some f
    /\ confidence t == f (magnitude r (processed_data data)).

(** The trends of one confidence value, to speak of ties. *)
Definition has_confidence (c : Q) (t : TrendData) : bool :=
  Qeq_bool (confidence t) c.

End Rules.

Import Rules.

(** ** summarizer.py *)

Module Summarizer.

(** Non-ASCII literals of the source, by code point. *)
Definition bullet : pystr := [8226%N].
Definition chart_up : pystr := [128200%N].
Definition chart_down : pystr := [128201%N].
Definition arrow_right : pystr := [10145%N; 65039%N].

Definition word_limit : nat := 300.

Definition _truncate_summary (summary : pystr) : pystr :=
  let words := split summary in
  if (length words <=? word_limit)%nat then summary
  else
    let truncated_words := firstn word_limit words in
    join (lit " ") truncated_words ++ lit "...".

Definition nonempty {A : Type} (l : list A) : bool :=
  match l with
  | [] => false
  | _ :: _ => true
  end.

Definition has_impact (i : pystr) (t : TrendData) : bool :=
  PyStr.eqb (impact t) i.

Definition trend_line (trend : TrendData) : pystr :=
  bullet ++ lit " " ++ trend_name trend ++ lit ": " ++ description trend.

(** The footer line that carries the clock reading. *)
Definition footer_prefix : pystr := lit "Analysis completed on ".

Section WithRuntime.
Context {rt : PyRuntime}.

(** Body of the "Data insights" loop for one data point. *)
Definition insight_lines (data : MarketData) : list pystr :=
  let d := processed_data data in
  if PyStr.eqb (source data) (lit "Alpha Vantage") && has (price_trend d) then
    [ bullet ++ lit " Price movement: "
        ++ get (price_trend d) (lit "unknown") ++ lit " ("
        ++ format_float 2 (get (price_change_percent d) 0) ++ lit "%)" ]
  else if PyStr.eqb (source data) (lit "Financial News")
          && has (sentiment_trend d) then
    [ bullet ++ lit " Market sentiment: "
        ++ get (sentiment_trend d) (lit "neutral") ++ lit " based on "
        ++ str_of_Z (get (news_volume d) 0%Z) ++ lit " articles" ]
  else if PyStr.eqb (source data) (lit "Economic Indicators") then
    [ bullet ++ lit " Economic health: "
        ++ get (economic_health d) (lit "unknown") ++ lit " with "
        ++ get (growth_trend d) (lit "unknown") ++ lit " growth trend" ]
  else [].

(** The lines appended before the footer. *)
Definition body_parts (market_data : list MarketData)
           (trends : list TrendData) (market : pystr)
           (region : MarketRegion) (timeframe : TimeFrame) : list pystr :=
  let positive_trends := filter (has_impact (lit "positive")) trends in
  let negative_trends := filter (has_impact (lit "negative")) trends in
  let neutral_trends := filter (has_impact (lit "neutral")) trends in
  (* Header *)
  [ lit "Market Analysis Summary: " ++ str_title market ++ lit " Sector";
    lit "Region: " ++ region_value region ++ lit " | Timeframe: "
      ++ timeframe_value timeframe;
    [];
    (* Key findings *)
    lit "Key Findings:" ]
  ++ (if nonempty trends then
        (if nonempty positive_trends then
           (chart_up ++ lit " Positive Trends:")
             :: map trend_line (firstn 2 positive_trends)
         else [])
        ++ (if nonempty negative_trends then
              (chart_down ++ lit " Areas of Concern:")
                :: map trend_line (firstn 2 negative_trends)
            else [])
        ++ (if nonempty neutral_trends then
              (arrow_right ++ lit " Neutral Observations:")
                :: map trend_line (firstn 1 neutral_trends)
            else [])
      else [])
  (* Data insights *)
  ++ [ []; lit "Data Insights:" ]
  ++ flat_map insight_lines market_data
  (* Recommendations *)
  ++ [ []; lit "Recommendations:" ]
  ++ (if nonempty trends then
        (if nonempty (filter (fun t => Qltb (7 # 10) (confidence t)) trends)
         then [ bullet ++ lit " Monitor high-confidence trends closely for strategic planning" ]
         else [])
        ++ (if nonempty positive_trends
            then [ bullet ++ lit " Consider capitalizing on positive market momentum" ]
            else [])
        ++ (if nonempty negative_trends
            then [ bullet ++ lit " Develop risk mitigation strategies for identified concerns" ]
            else [])
      else [])
  ++ [ bullet ++ lit " Continue monitoring market conditions for emerging opportunities" ].

(** The footer: an empty line, the time stamp, the sources. *)
Definition footer_parts (now : datetime) (market_data : list MarketData)
  : list pystr :=
  [ [];
    footer_prefix ++ strftime_ymd_hms now;
    lit "Data sources: "
      ++ join (lit ", ") (set_iter (map source market_data)) ].

Definition summary_parts (now : datetime) (market_data : list MarketData)
           (trends : list TrendData) (market : pystr)
           (region : MarketRegion) (timeframe : TimeFrame) : list pystr :=
  body_parts market_data trends market region timeframe
    ++ footer_parts now market_data.

(** The number of words of the rendering that stand before the time
    stamp: those of the body and the three of the footer's fixed
    text. *)
Definition words_before_stamp (market_data : list MarketData)
           (trends : list TrendData) (market : pystr)
           (region : MarketRegion) (timeframe : TimeFrame) : nat :=
  length (flat_map split
                   (body_parts market_data trends market region timeframe))
  + 3.

(** [full_summary], before the truncation. *)
Definition full_summary (now : datetime) (market_data : list MarketData)
           (trends : list TrendData) (market : pystr)
           (region : MarketRegion) (timeframe : TimeFrame) : pystr :=
  join newline
       (summary_parts now market_data trends market region timeframe).

(** [now] is the reading of [datetime.now()] in the footer. *)
Definition _generate_fallback_summary (now : datetime)
           (market_data : list MarketData) (trends : list TrendData)
           (market : pystr) (region : MarketRegion) (timeframe : TimeFrame)
  : pystr :=
  _truncate_summary
    (full_summary now market_data trends market region timeframe).

(** [reply] is the outcome of [_prepare_context] followed by
    [_call_openai]: the stripped text of the reply, or the exception
    that ended the attempt. *)
Definition generate_summary (reply : result pystr) (now : datetime)
           (market_data : list MarketData) (trends : list TrendData)
           (market : pystr) (region : MarketRegion) (timeframe : TimeFrame)
  : pystr :=
  match reply with
  | Return summary => _truncate_summary summary
  | Raise _ =>
      _generate_fallback_summary now market_data trends market region
                                 timeframe
  end.

End WithRuntime.

(** A comparison of two outputs that leaves the time-stamp footer line
    out: the lines that do not begin with the footer's fixed text. *)
Definition without_timestamp_line (output : pystr) : list pystr :=
  filter (fun line => negb (startswith footer_prefix line)) (lines output).

End Summarizer.

Import Summarizer.

(** ** main.py: [perform_analysis] *)

Module Main.

(** What one background run reads from its environment. *)
Record Run : Type := {
  (** [time.time()] on entry and when the processing time is taken *)
  start_time : Q;
  end_time : Q;
  (** [datetime.now()] inside the first and the last [update_analysis] *)
  first_update_now : datetime;
  last_update_now : datetime;
  (** what the requests served while the run awaits its collectors and
      the text generator do to the table *)
  meanwhile : InMemoryStorage -> InMemoryStorage;
  (** the reply of the text generator, and [datetime.now()] in the
      fallback footer *)
  reply : result pystr;
  summary_now : datetime
}.

(** The keyword arguments of the three [update_analysis] calls. *)
Definition processing_update : Updates :=
  {| u_id := None; u_request := None; u_status := Some (lit "processing");
     u_created_at := None; u_completed_at := None; u_market_data := None;
     u_trends := None; u_summary := None; u_processing_time := None;
     u_error_message := None; u_other := [] |}.

Definition completed_update (market_data : list MarketData)
           (trends : list TrendData) (summary : pystr) (processing_time : Q)
  : Updates :=
  {| u_id := None; u_request := None; u_status := Some (lit "completed");
     u_created_at := None; u_completed_at := None;
     u_market_data := Some market_data; u_trends := Some trends;
     u_summary := Some (Some summary);
     u_processing_time := Some (Some processing_time);
     u_error_message := None; u_other := [] |}.

Definition failed_update (e : pyexn) (processing_time : Q) : Updates :=
  {| u_id := None; u_request := None; u_status := Some (lit "failed");
     u_created_at := None; u_completed_at := None; u_market_data := None;
     u_trends := None; u_summary := None;
     u_processing_time := Some (Some processing_time);
     u_error_message := Some (Some (exn_str e)); u_other := [] |}.

(** The table when the run comes to its last update: after its own
    first update and what happened meanwhile. *)
Definition before_last_update (run : Run) (storage : InMemoryStorage)
           (analysis_id : pystr) : InMemoryStorage :=
  meanwhile run
    (snd (update_analysis storage (first_update_now run) analysis_id
                          processing_update)).

Section WithRuntime.
Context {rt : PyRuntime}.

(** The [try] block between the first update and the last one: the two
    exceptions it raises itself, and the one [analyze_trends] can
    raise. *)
Definition pipeline (manager : DataCollectorManager) (run : Run)
           (market : pystr) (region : MarketRegion) (timeframe : TimeFrame)
  : result (list MarketData * list TrendData * pystr) :=
  market_data <-
    (let market_data := collect_all_data manager market region timeframe in
     if nonempty market_data then Return market_data
     else Raise (Exception (lit "No market data collected"))) ;;
  trends <-
    (trends <- analyze_trends market_data market region timeframe ;;
     if nonempty trends then Return trends
     else Raise (Exception (lit "No trends identified"))) ;;
  Return (market_data, trends,
          generate_summary (reply run) (summary_now run) market_data trends
                           market region timeframe).

Definition perform_analysis (manager : DataCollectorManager) (run : Run)
           (storage : InMemoryStorage) (analysis_id market : pystr)
           (region : MarketRegion) (timeframe : TimeFrame)
  : InMemoryStorage :=
  let storage1 := before_last_update run storage analysis_id in
  let processing_time := end_time run - start_time run in
  match pipeline manager run market region timeframe with
  | Return (market_data, trends, summary) =>
      snd (update_analysis storage1 (last_update_now run) analysis_id
             (completed_update market_data trends summary processing_time))
  | Raise e =>
      snd (update_analysis storage1 (last_update_now run) analysis_id
             (failed_update e processing_time))
  end.

End WithRuntime.

End Main.

Import Main.

(** ** data_collectors.py: the placeholder data

    What the three collectors return when their upstream is not
    configured ([_get_mock_data], [_get_mock_news_data]) and the fixed
    indicators of [EconomicDataCollector._get_economic_indicators]. *)

Module MockData.

Section WithRuntime.
Context {rt : PyRuntime}.

Definition _create_market_data (name : pystr) (now : datetime)
           (processed : ProcessedData) : MarketData :=
  {| source := name; data_type := lit "market_data"; timestamp := now;
     processed_data := processed |}.

Definition processed_overview (market : pystr) : ProcessedData :=
  {| price_trend := None; price_change_percent := None;
     volatility := None; data_points := None; sentiment_trend := None;
     avg_sentiment := None; news_volume := None; top_themes := None;
     economic_health := None; growth_trend := None;
     market_conditions := None; inflation_pressure := None;
     key_risks := None;
     sector := Some (VStr (str_title market));
     pe_ratio := Some (VStr (lit "25.5"));
     market_cap := Some (VStr (lit "1B")) |}.

Definition processed_timeseries : ProcessedData :=
  {| price_trend := Some (lit "up");
     price_change_percent := Some (83 # 100);
     volatility := Some (12 # 10);
     data_points := Some 3%Z;
     sentiment_trend := None; avg_sentiment := None; news_volume := None;
     top_themes := None; economic_health := None; growth_trend := None;
     market_conditions := None; inflation_pressure := None;
     key_risks := None; sector := None; pe_ratio := None;
     market_cap := None |}.

Definition processed_news : ProcessedData :=
  {| price_trend := None; price_change_percent := None;
     volatility := None; data_points := None;
     sentiment_trend := Some (lit "positive");
     avg_sentiment := Some (3 # 10);
     news_volume := Some 15%Z;
     top_themes := Some [lit "earnings"; lit "innovation"; lit "growth"];
     economic_health := None; growth_trend := None;
     market_conditions := None; inflation_pressure := None;
     key_risks := None; sector := None; pe_ratio := None;
     market_cap := None |}.

Definition processed_economic : ProcessedData :=
  {| price_trend := None; price_change_percent := None;
     volatility := None; data_points := None; sentiment_trend := None;
     avg_sentiment := None; news_volume := None; top_themes := None;
     economic_health := Some (lit "moderate");
     growth_trend := Some (lit "stable");
     market_conditions := Some (lit "volatile");
     inflation_pressure := Some (lit "moderate");
     key_risks := Some [lit "inflation"; lit "interest_rates"];
     sector := None; pe_ratio := None; market_cap := None |}.

Definition alpha_vantage_mock (now : datetime) : Collector :=
  fun market _ _ =>
    Returned
      [ _create_market_data (lit "Alpha Vantage") now
                            (processed_overview market);
        _create_market_data (lit "Alpha Vantage") now processed_timeseries ].

Definition news_mock (now : datetime) : Collector :=
  fun _ _ _ =>
    Returned [ _create_market_data (lit "Financial News") now processed_news ].

Definition economic_indicators (now : datetime) : Collector :=
  fun _ _ _ =>
    Returned
      [ _create_market_data (lit "Economic Indicators") now
                            processed_economic ].

(** The manager of [DataCollectorManager.__init__] with every
    upstream unavailable. *)
Definition offline_manager (now : datetime) : DataCollectorManager :=
  {| collectors :=
       [ alpha_vantage_mock now; news_mock now; economic_indicators now ] |}.

End WithRuntime.

(** A collector whose [collect_data] raises. *)
Definition raising (message : pystr) : Collector :=
  fun _ _ _ => Raised (Exception message).

End MockData.

Import MockData.

(** ** An interpreter to run the model on

    [ascii_runtime] fills [PyRuntime] with functions that agree with
    CPython on ASCII text and on short decimal numbers; it is used to
    evaluate the program on concrete inputs. *)

Module AsciiRuntime.

Definition is_upper (c : N) : bool := ((65 <=? c) && (c <=? 90))%N.
Definition is_lower (c : N) : bool := ((97 <=? c) && (c <=? 122))%N.

Definition lower (s : pystr) : pystr :=
  map (fun c => if is_upper c then (c + 32)%N else c) s.

(** [title]: a letter that follows a letter is lowered, any other
    letter is raised. *)
Fixpoint title_from (after_letter : bool) (s : pystr) : pystr :=
  match s with
  | [] => []
  | c :: s' =>
      let c' :=
        if is_upper c then (if after_letter then (c + 32)%N else c)
        else if is_lower c then (if after_letter then c else (c - 32)%N)
        else c in
      c' :: title_from (is_upper c || is_lower c) s'
  end.

Definition title (s : pystr) : pystr := title_from false s.

Definition is_digit (c : N) : bool := ((48 <=? c) && (c <=? 57))%N.

(** Decimal digits read from the left: value and number of digits. *)
Fixpoint read_digits (s : pystr) (acc : Z) (n : nat) : Z * nat * pystr :=
  match s with
  | c :: s' =>
      if is_digit c
      then read_digits s' (acc * 10 + Z.of_N (c - 48)) (S n)
      else (acc, n, s)
  | [] => (acc, n, s)
  end.

(** [float] on [d+], [d+.d*] with an optional sign; anything else is
    refused. *)
Definition parse_float (s : pystr) : option Q :=
  let '(neg, body) :=
    match s with
    | 45%N :: s' => (true, s')
    | 43%N :: s' => (false, s')
    | _ => (false, s)
    end in
  let '(int_part, n, rest) := read_digits body 0 0 in
  match n with
  | O => None
  | S _ =>
      let sign := if neg then (-1)%Z else 1%Z in
      match rest with
      | [] => Some (inject_Z (sign * int_part))
      | 46%N :: frac =>
          let '(frac_part, k, rest') := read_digits frac 0 0 in
          match rest' with
          | [] =>
              Some (Qmake (sign * (int_part * 10 ^ Z.of_nat k + frac_part))
                          (Z.to_pos (10 ^ Z.of_nat k)))
          | _ :: _ => None
          end
      | _ :: _ => None
      end
  end.

(** Nearest integer, ties to even. *)
Definition round_half_even (q : Q) : Z :=
  let n := Qnum q in
  let d := Zpos (Qden q) in
  let fl := (n / d)%Z in
  let twice_rem := (2 * (n mod d))%Z in
  if (twice_rem <? d)%Z then fl
  else if (d <? twice_rem)%Z then (fl + 1)%Z
  else if Z.even fl then fl else (fl + 1)%Z.

Fixpoint zero_pad (width : nat) (s : pystr) : pystr :=
  match width with
  | O => s
  | S w => if (length s <? width)%nat then zero_pad w (48%N :: s) else s
  end.

(** Fixed-point notation with [d] digits after the point. *)
Definition fixed (d : nat) (q : Q) : pystr :=
  let scale := (10 ^ Z.of_nat d)%Z in
  let n := round_half_even (Qabs q * inject_Z scale) in
  (if Qltb q 0 then [45%N] else [])
    ++ str_of_Z (n / scale)
    ++ match d with
       | O => []
       | S _ => 46%N :: zero_pad d (str_of_Z (n mod scale))
       end.

Fixpoint strip_zeros (rev_digits : pystr) : pystr :=
  match rev_digits with
  | 48%N :: ((c :: _) as rest) => if N.eqb c 46 then rev_digits else strip_zeros rest
  | _ => rev_digits
  end.

(** [str] of a float with at most six decimals. *)
Definition repr (q : Q) : pystr := rev (strip_zeros (rev (fixed 6 q))).

Fixpoint mem (x : pystr) (l : list pystr) : bool :=
  match l with
  | [] => false
  | y :: l' => PyStr.eqb x y || mem x l'
  end.

(** The distinct elements, by first occurrence. *)
Fixpoint distinct (seen l : list pystr) : list pystr :=
  match l with
  | [] => []
  | x :: l' => if mem x seen then distinct seen l' else x :: distinct (x :: seen) l'
  end.

#[export] Instance ascii_runtime : PyRuntime := {
  str_lower := lower;
  str_title := title;
  float_of_str := parse_float;
  format_float := fixed;
  repr_float := repr;
  set_iter := distinct []
}.

End AsciiRuntime.

Import AsciiRuntime.

(** ** Python strings: [strip] *)

Module PyStrip.

(** [s.lstrip()], [s.rstrip()] and [s.strip()] without argument: the
    white space at the ends goes. *)
Fixpoint lstrip (s : pystr) : pystr :=
  match s with
  | [] => []
  | c :: s' => if is_space c then lstrip s' else s
  end.

Definition rstrip (s : pystr) : pystr := rev (lstrip (rev s)).

Definition strip (s : pystr) : pystr := rstrip (lstrip s).

End PyStrip.

Import PyStrip.

(** ** config.py *)

Module Config.

(** The fields of [Settings] the modelled code reads. *)
Record Settings : Type := {
  api_key : pystr;
  alpha_vantage_api_key : option pystr;
  news_api_key : option pystr
}.

(** The defaults of the class. *)
Definition defaults : Settings :=
  {| api_key := lit "crewinsight-mvp-2024";
     alpha_vantage_api_key := None;
     news_api_key := None |}.

End Config.

(** ** data_collectors.py: the three collectors *)

Module DataCollectors.

(** An article of the news reply: its ["title"] and ["description"]. *)
Record Article : Type := {
  art_title : pystr;
  art_description : pystr
}.

(** What the [try] block of [NewsCollector.collect_data] met: an
    exception (transport, HTTP status, JSON, or the processing of a
    reply whose titles or descriptions are not strings), or a reply with
    its ["status"] being ["ok"] or not and its articles. *)
Inductive NewsReply : Type :=
| NewsRaised
| NewsReplied (status_ok : bool) (articles : list Article).

(** What one run of the collectors gets from outside. *)
Record Upstream : Type := {
  (** the [async with httpx.AsyncClient] block of the Alpha Vantage
      collector raises *)
  client_raises : bool;
  (** MarketCapitalization, PERatio and Sector of the overview reply;
      [None] when [_get_market_overview] returns [None] *)
  overview_reply : option (pyval * pyval * pyval);
  (** the closing prices of the time series in the order of the reply;
      [None] when the request or the parsing failed *)
  closes_reply : option (list Q);
  (** [pd.Series(returns).std()]; what pandas gives for fewer than two
      returns is no number, and nothing below depends on the value *)
  series_std : list Q -> Q;
  news_reply : NewsReply
}.

(** [not self.api_key] *)
Definition no_key (key : option pystr) : bool :=
  match key with
  | None => true
  | Some k => PyStr.eqb k []
  end.

Definition option_list {A : Type} (x : option A) : list A :=
  match x with
  | Some a => [a]
  | None => []
  end.

(** The processed overview; the keys the analysis never reads
    ([industry], [description]) are left out. *)
Definition overview_processed (reply : pyval * pyval * pyval) : ProcessedData :=
  let '(cap, pe, sec) := reply in
  {| price_trend := None; price_change_percent := None; volatility := None;
     data_points := None; sentiment_trend := None; avg_sentiment := None;
     news_volume := None; top_themes := None; economic_health := None;
     growth_trend := None; market_conditions := None;
     inflation_pressure := None; key_risks := None;
     sector := Some sec; pe_ratio := Some pe; market_cap := Some cap |}.

(** [(prices[i] - prices[i-1]) / prices[i-1]] for [i] from 1 on;
    [None] stands for [ZeroDivisionError]. *)
Fixpoint returns_from (previous : Q) (rest : list Q) : option (list Q) :=
  match rest with
  | [] => Some []
  | p :: rest' =>
      if Qeq_bool previous 0 then None
      else
        match returns_from p rest' with
        | Some returns => Some ((p - previous) / previous :: returns)
        | None => None
        end
  end.

Definition _calculate_volatility (std : list Q -> Q) (prices : list Q)
  : option Q :=
  if (length prices <? 2)%nat then Some 0
  else
    match prices with
    | [] => Some 0
    | first :: rest =>
        match returns_from first rest with
        | Some returns => Some (std returns * 100)
        | None => None
        end
    end.

(** The statistics of [_get_timeseries_data] on the closing prices;
    [None] stands for the exception ([IndexError] on no price,
    [ZeroDivisionError]) that makes the function return [None]. *)
Definition timeseries_processed (std : list Q -> Q) (prices : list Q)
  : option ProcessedData :=
  match prices with
  | [] => None
  | first :: _ =>
      let final := last prices first in
      if Qeq_bool final 0 then None
      else
        match _calculate_volatility std prices with
        | None => None
        | Some vol =>
            Some
              {| price_trend :=
                   Some (if Qltb final first then lit "up" else lit "down");
                 price_change_percent := Some ((first - final) / final * 100);
                 volatility := Some vol;
                 data_points := Some (Z.of_nat (length prices));
                 sentiment_trend := None; avg_sentiment := None;
                 news_volume := None; top_themes := None;
                 economic_health := None; growth_trend := None;
                 market_conditions := None; inflation_pressure := None;
                 key_risks := None; sector := None; pe_ratio := None;
                 market_cap := None |}
        end
  end.

Definition positive_words : list pystr :=
  [ lit "growth"; lit "profit"; lit "gain"; lit "rise"; lit "increase";
    lit "positive"; lit "strong"; lit "up"; lit "bullish" ].

Definition negative_words : list pystr :=
  [ lit "decline"; lit "loss"; lit "fall"; lit "drop"; lit "decrease";
    lit "negative"; lit "weak"; lit "down"; lit "bearish" ].

Definition theme_keywords : list (pystr * list pystr) :=
  [ (lit "earnings",
     [lit "earnings"; lit "revenue"; lit "profit"; lit "quarterly"]);
    (lit "regulation",
     [lit "regulation"; lit "policy"; lit "government"; lit "compliance"]);
    (lit "innovation",
     [lit "innovation"; lit "technology"; lit "digital"; lit "ai";
      lit "automation"]);
    (lit "competition",
     [lit "competition"; lit "market share"; lit "rival"; lit "competitor"]);
    (lit "mergers",
     [lit "merger"; lit "acquisition"; lit "deal"; lit "buyout"]) ].

(** [sum(scores)] *)
Definition py_sum (scores : list Q) : Q := fold_left Qplus scores 0.

Section WithRuntime.
Context {rt : PyRuntime}.

Definition _analyze_sentiment (text : pystr) : Q :=
  let text_lower := str_lower text in
  let positive_count :=
    length (filter (fun w => contains w text_lower) positive_words) in
  let negative_count :=
    length (filter (fun w => contains w text_lower) negative_words) in
  let total_words := length (split text) in
  if (total_words =? 0)%nat then 0
  else
    inject_Z (Z.of_nat positive_count - Z.of_nat negative_count)
    / inject_Z (Z.of_nat total_words).

Definition _extract_themes (text : pystr) : list pystr :=
  let text_lower := str_lower text in
  map fst
      (filter (fun entry =>
                 existsb (fun keyword => contains keyword text_lower)
                         (snd entry))
              theme_keywords).

(** [theme_counts[theme] = theme_counts.get(theme, 0) + 1] over the
    themes. *)
Definition count_themes (key_themes : list pystr) : dict Z :=
  fold_left
    (fun theme_counts theme =>
       dict_set theme (get (dict_get theme theme_counts) 0 + 1)%Z theme_counts)
    key_themes [].

Definition article_text (article : Article) : pystr :=
  art_title article ++ lit " " ++ art_description article.

(** The processed news; the key the analysis never reads
    ([article_count]) is left out. *)
Definition news_processed (articles : list Article) : ProcessedData :=
  let sentiment_scores :=
    map (fun article => _analyze_sentiment (article_text article)) articles in
  let key_themes :=
    flat_map (fun article => _extract_themes (article_text article)) articles in
  let average :=
    if nonempty sentiment_scores
    then py_sum sentiment_scores
         / inject_Z (Z.of_nat (length sentiment_scores))
    else 0 in
  let theme_counts := count_themes key_themes in
  let top :=
    firstn 5 (sorted_reverse (fun a b => (snd a <=? snd b)%Z) theme_counts) in
  {| price_trend := None; price_change_percent := None; volatility := None;
     data_points := None;
     sentiment_trend :=
       Some (if Qltb (1 # 10) average then lit "positive"
             else if Qltb average (- (1 # 10)) then lit "negative"
                  else lit "neutral");
     avg_sentiment := Some average;
     news_volume := Some (Z.of_nat (length articles));
     top_themes := Some (map fst top);
     economic_health := None; growth_trend := None;
     market_conditions := None; inflation_pressure := None;
     key_risks := None; sector := None; pe_ratio := None;
     market_cap := None |}.

Definition _process_news_data (now : datetime) (articles : list Article)
           (market : pystr) : list MarketData :=
  [ _create_market_data (lit "Financial News") now (news_processed articles) ].

(** [AlphaVantageCollector.collect_data] *)
Definition alpha_vantage_collect_data (key : option pystr) (up : Upstream)
           (now : datetime) : Collector :=
  fun market region timeframe =>
    if no_key key then alpha_vantage_mock now market region timeframe
    else if client_raises up then alpha_vantage_mock now market region timeframe
    else
      let overview_data :=
        option_map
          (fun reply =>
             _create_market_data (lit "Alpha Vantage") now
                                 (overview_processed reply))
          (overview_reply up) in
      let timeseries_data :=
        match closes_reply up with
        | Some prices =>
            option_map (_create_market_data (lit "Alpha Vantage") now)
                       (timeseries_processed (series_std up) prices)
        | None => None
        end in
      Returned (option_list overview_data ++ option_list timeseries_data).

(** [NewsCollector.collect_data] *)
Definition news_collect_data (key : option pystr) (up : Upstream)
           (now : datetime) : Collector :=
  fun market region timeframe =>
    if no_key key then news_mock now market region timeframe
    else
      match news_reply up with
      | NewsRaised => news_mock now market region timeframe
      | NewsReplied false _ => news_mock now market region timeframe
      | NewsReplied true articles =>
          Returned (_process_news_data now articles market)
      end.

(** [EconomicDataCollector.collect_data]: [_get_economic_indicators]
    builds fixed data and raises nothing, so the handler of the [try]
    is never entered. *)
Definition economic_collect_data (now : datetime) : Collector :=
  economic_indicators now.

(** [DataCollectorManager()] *)
Definition registered_manager (settings : Config.Settings) (up : Upstream)
           (now : datetime) : DataCollectorManager :=
  {| collectors :=
       [ alpha_vantage_collect_data (Config.alpha_vantage_api_key settings)
                                    up now;
         news_collect_data (Config.news_api_key settings) up now;
         economic_collect_data now ] |}.

End WithRuntime.

(** [NewsCollector._get_start_date] *)
Definition timeframe_days (timeframe : TimeFrame) : Z :=
  match timeframe with
  | DAILY => 1
  | WEEKLY => 7
  | MONTHLY => 30
  | QUARTERLY => 90
  | YEARLY => 365
  end%Z.

Definition _get_start_date (end_date : datetime) (timeframe : TimeFrame)
  : datetime :=
  (end_date - timeframe_days timeframe * 86400 * 1000000)%Z.

End DataCollectors.

Import DataCollectors.

(** ** trend_analyzer.py: the two scoring helpers *)

Module TrendScoring.

Definition _calculate_trend_confidence (supporting_data : list pystr)
           (data_quality : Q) : Q :=
  let base_confidence :=
    py_min (9 # 10)
           (inject_Z (Z.of_nat (length supporting_data)) * (2 # 10)) in
  base_confidence * data_quality.

Definition member (x : pystr) (l : list pystr) : bool :=
  existsb (PyStr.eqb x) l.

Definition _get_trend_impact (trend_type : pystr) (magnitude : Q) : pystr :=
  if member trend_type
            [lit "price_momentum"; lit "sentiment"; lit "economic_health"]
  then (if Qltb 0 magnitude then lit "positive" else lit "negative")
  else if member trend_type [lit "volatility"; lit "uncertainty"]
       then lit "negative"
       else lit "neutral".

(** The three values [impact] takes. *)
Definition is_impact (i : pystr) : bool :=
  member i [lit "positive"; lit "negative"; lit "neutral"].

End TrendScoring.

Import TrendScoring.

(** ** main.py: the request handlers *)

Module Api.

(** What a handler gives back: the body of the reply, or the
    [HTTPException] it raises. *)
Inductive response (A : Type) : Type :=
| Ok (body : A)
| HTTPException (status_code : Z) (detail : pystr).

Arguments Ok {A} body.
Arguments HTTPException {A} status_code detail.

Definition verify_api_key (settings : Config.Settings) (key : pystr) : bool :=
  PyStr.eqb key (Config.api_key settings).

Definition authenticate_request (settings : Config.Settings) (key : pystr)
  : response bool :=
  if verify_api_key settings key then Ok true
  else HTTPException 401 (lit "Invalid API key").

(** The body of the reply of [analyze_market]. *)
Record Started : Type := {
  started_analysis_id : pystr;
  started_status : pystr;
  started_message : pystr;
  started_estimated_completion : pystr
}.

(** [background_tasks.add_task(perform_analysis, analysis_id, market,
    region, timeframe)] *)
Record Task : Type := {
  task_analysis_id : pystr;
  task_market : pystr;
  task_region : MarketRegion;
  task_timeframe : TimeFrame
}.

(** The store operations raise nothing, so the [except Exception]
    clauses of the handlers (status 500) are never entered. *)
Definition analyze_market (settings : Config.Settings)
           (storage : InMemoryStorage) (now : datetime) (uuid : pystr)
           (request : AnalysisRequest)
  : response Started * InMemoryStorage * option Task :=
  match authenticate_request settings (Models.api_key request) with
  | HTTPException code detail => (HTTPException code detail, storage, None)
  | Ok _ =>
      if PyStr.eqb (strip (market request)) [] then
        (HTTPException 400 (lit "Market parameter cannot be empty"),
         storage, None)
      else
        let '(analysis_id, storage') :=
          create_analysis storage now uuid request in
        (Ok {| started_analysis_id := analysis_id;
               started_status := lit "processing";
               started_message := lit "Analysis started successfully";
               started_estimated_completion := lit "30-60 seconds" |},
         storage',
         Some {| task_analysis_id := analysis_id;
                 task_market := market request;
                 task_region := region request;
                 task_timeframe := timeframe request |})
  end.

Definition get_results (settings : Config.Settings)
           (storage : InMemoryStorage) (now : datetime)
           (analysis_id key : pystr)
  : response AnalysisResult * InMemoryStorage :=
  match authenticate_request settings key with
  | HTTPException code detail => (HTTPException code detail, storage)
  | Ok _ =>
      match get_analysis storage now analysis_id with
      | (Some result, storage') => (Ok result, storage')
      | (None, storage') =>
          (HTTPException 404 (lit "Analysis not found or expired"), storage')
      end
  end.

(** [limit] defaults to 10. *)
Definition list_recent_analyses (settings : Config.Settings)
           (storage : InMemoryStorage) (now : datetime) (key : pystr)
           (limit : Z)
  : response (list AnalysisResult) * InMemoryStorage :=
  match authenticate_request settings key with
  | HTTPException code detail => (HTTPException code detail, storage)
  | Ok _ =>
      let '(analyses, storage') := list_analyses storage now limit in
      (Ok analyses, storage')
  end.

Definition delete_analysis (settings : Config.Settings)
           (storage : InMemoryStorage) (analysis_id key : pystr)
  : response pystr * InMemoryStorage :=
  match authenticate_request settings key with
  | HTTPException code detail => (HTTPException code detail, storage)
  | Ok _ =>
      match Storage.delete_analysis storage analysis_id with
      | (true, storage') => (Ok (lit "Analysis deleted successfully"), storage')
      | (false, storage') =>
          (HTTPException 404 (lit "Analysis not found"), storage')
      end
  end.

Section WithRuntime.
Context {rt : PyRuntime}.

(** The background task, when it is run. *)
Definition run_task (manager : DataCollectorManager) (run : Run)
           (storage : InMemoryStorage) (task : Task) : InMemoryStorage :=
  perform_analysis manager run storage (task_analysis_id task)
                   (task_market task) (task_region task) (task_timeframe task).

End WithRuntime.

End Api.

(** ** Predicates of the store used below *)

Module StoreSpec.

(** Every record is stored under its own [id]. *)
Definition ids_match_keys (s : InMemoryStorage) : bool :=
  forallb (fun kv => PyStr.eqb (fst kv) (id (snd kv))) (_results s).

Definition unexpired (s : InMemoryStorage) (now : datetime)
           (kv : pystr * AnalysisResult) : bool :=
  negb (_is_expired s now (snd kv)).

End StoreSpec.

Import StoreSpec.

(** ** Predicates of the collectors used below *)

Module CollectorSpec.

(** A price equal to zero. *)
Definition is_zero (p : Q) : bool := Qeq_bool p 0.

End CollectorSpec.

Import CollectorSpec.

(** ** Predicates of the trends used below *)

Module TrendSpec.

(** What every [TrendData] the rules build has in common: one of the
    three impact values, and two or three supporting facts. *)
Definition well_formed (t : TrendData) : Prop :=
  is_impact (impact t) = true
  /\ (2 <= length (supporting_data t) <= 3)%nat.

(** The first data point with a ["sector"] key carries a P/E ratio that
    [float] refuses as too large. *)
Definition pe_overflows (market_data : list MarketData) : bool :=
  match find (fun data => has (sector (processed_data data))) market_data with
  | Some data =>
      match get (pe_ratio (processed_data data)) VNone with
      | VInt z => int_overflows z
      | _ => false
      end
  | None => false
  end.

(** The Alpha Vantage collector has a key, its client works, and the
    overview it receives carries such a P/E ratio. *)
Definition live_pe_overflows (settings : Config.Settings) (up : Upstream)
  : bool :=
  negb (no_key (Config.alpha_vantage_api_key settings))
  && negb (client_raises up)
  && match overview_reply up with
     | Some (_, VInt z, _) => int_overflows z
     | _ => false
     end.

End TrendSpec.

Import TrendSpec.

(* ================================================================== *)
(** * Part II: properties                                              *)
(* ================================================================== *)

(** ** Strings *)

Lemma pystr_eqb_eq (a b : pystr) : PyStr.eqb a b = true <-> a = b.
Proof.
  revert b; induction a as [|x a IH]; intros [|y b]; simpl;
    try (split; [discriminate | discriminate]); try tauto.
  rewrite andb_true_iff, N.eqb_eq, IH.
  split; [intros [-> ->]; reflexivity | intros H; inversion H; auto].
Qed.

Lemma pystr_eqb_refl (a : pystr) : PyStr.eqb a a = true.
Proof. apply pystr_eqb_eq; reflexivity. Qed.

Lemma pystr_eqb_neq (a b : pystr) : PyStr.eqb a b = false <-> a <> b.
Proof.
  rewrite <- pystr_eqb_eq. destruct (PyStr.eqb a b); split; congruence.
Qed.

(** ** The dictionary of the store *)

Section DictFacts.
Context {V : Type}.
Implicit Types (d : dict V) (k : pystr) (v : V).

Lemma dict_get_set_same k v d : dict_get k (dict_set k v d) = Some v.
Proof.
  induction d as [|[k' v'] d IH]; simpl.
  - now rewrite pystr_eqb_refl.
  - destruct (PyStr.eqb k k') eqn:E; simpl; rewrite E; auto.
Qed.

Lemma dict_get_set_other k k' v d :
  k' <> k -> dict_get k' (dict_set k v d) = dict_get k' d.
Proof.
  intros Hne. induction d as [|[k0 v0] d IH]; simpl.
  - apply pystr_eqb_neq in Hne. now rewrite Hne.
  - destruct (PyStr.eqb k k0) eqn:E; simpl.
    + apply pystr_eqb_eq in E; subst k0.
      apply pystr_eqb_neq in Hne. now rewrite Hne.
    + destruct (PyStr.eqb k' k0); auto.
Qed.

Lemma dict_set_fresh k v d :
  dict_get k d = None -> dict_set k v d = d ++ [(k, v)].
Proof.
  induction d as [|[k0 v0] d IH]; simpl; auto.
  destruct (PyStr.eqb k k0); [discriminate|].
  intros H. now rewrite IH.
Qed.

Lemma dict_contains_false_get k d :
  dict_contains k d = false <-> dict_get k d = None.
Proof.
  unfold dict_contains. destruct (dict_get k d); split; congruence.
Qed.

Lemma dict_get_none_notin k d :
  dict_get k d = None -> forall v, ~ In (k, v) d.
Proof.
  induction d as [|[k0 v0] d IH]; simpl; auto.
  destruct (PyStr.eqb k k0) eqn:E; [discriminate|].
  intros H v [H1|H1].
  - inversion H1; subst. now rewrite pystr_eqb_refl in E.
  - now apply (IH H v).
Qed.

Lemma dict_get_del_same k d :
  keys_distinct d = true -> dict_get k (dict_del k d) = None.
Proof.
  induction d as [|[k0 v0] d IH]; simpl; auto.
  rewrite andb_true_iff, negb_true_iff, dict_contains_false_get.
  intros [Hfresh Hd].
  destruct (PyStr.eqb k k0) eqn:E.
  - apply pystr_eqb_eq in E. now subst.
  - simpl. rewrite E. auto.
Qed.

(** Deleting keys that do not occur at the head leaves the head. *)
Lemma fold_del_head k v d (ks : list pystr) :
  ~ In k ks ->
  fold_left (fun d0 k0 => dict_del k0 d0) ks ((k, v) :: d)
  = (k, v) :: fold_left (fun d0 k0 => dict_del k0 d0) ks d.
Proof.
  revert d. induction ks as [|k1 ks IH]; intros d Hnin; simpl; auto.
  destruct (PyStr.eqb k1 k) eqn:E.
  - apply pystr_eqb_eq in E. subst. exfalso. apply Hnin. now left.
  - apply IH. intros H. apply Hnin. now right.
Qed.

(** Deleting the keys selected by [p] is filtering by [p]. *)
Lemma fold_del_filter (p : pystr * V -> bool) d :
  keys_distinct d = true ->
  fold_left (fun d0 k0 => dict_del k0 d0) (map fst (filter p d)) d
  = filter (fun kv => negb (p kv)) d.
Proof.
  induction d as [|[k v] d IH]; simpl; auto.
  rewrite andb_true_iff, negb_true_iff, dict_contains_false_get.
  intros [Hfresh Hd].
  destruct (p (k, v)) eqn:Hp; simpl.
  - rewrite pystr_eqb_refl. auto.
  - rewrite fold_del_head; [now rewrite IH|].
    rewrite in_map_iff. intros [[k1 v1] [Hk Hin]]. simpl in Hk. subst k1.
    apply filter_In in Hin. destruct Hin as [Hin _].
    exact (dict_get_none_notin _ _ Hfresh _ Hin).
Qed.
Lemma dict_get_del_none k k' d :
  dict_get k' d = None -> dict_get k' (dict_del k d) = None.
Proof.
  induction d as [|[k0 v0] d IH]; simpl; auto.
  destruct (PyStr.eqb k' k0) eqn:E; [discriminate|].
  intros H. destruct (PyStr.eqb k k0); auto.
  simpl. rewrite E. auto.
Qed.

(** Assignment and deletion keep the keys distinct. *)
Lemma dict_set_distinct k v d :
  keys_distinct d = true -> keys_distinct (dict_set k v d) = true.
Proof.
  induction d as [|[k0 v0] d IH]; simpl; auto.
  rewrite !andb_true_iff, !negb_true_iff, !dict_contains_false_get.
  intros [Hfresh Hd].
  destruct (PyStr.eqb k k0) eqn:E; simpl;
    rewrite andb_true_iff, negb_true_iff, dict_contains_false_get.
  - auto.
  - split; auto.
    rewrite dict_get_set_other; auto.
    intros ->. now rewrite pystr_eqb_refl in E.
Qed.

Lemma dict_del_distinct k d :
  keys_distinct d = true -> keys_distinct (dict_del k d) = true.
Proof.
  induction d as [|[k0 v0] d IH]; simpl; auto.
  rewrite andb_true_iff, negb_true_iff, dict_contains_false_get.
  intros [Hfresh Hd].
  destruct (PyStr.eqb k k0); simpl; auto.
  rewrite andb_true_iff, negb_true_iff, dict_contains_false_get.
  split; auto. now apply dict_get_del_none.
Qed.

Lemma fold_del_distinct (ks : list pystr) :
  forall d,
    keys_distinct d = true ->
    keys_distinct (fold_left (fun d0 k0 => dict_del k0 d0) ks d) = true.
Proof.
  induction ks as [|k ks IH]; intros d H; simpl; auto.
  apply IH. now apply dict_del_distinct.
Qed.
End DictFacts.

(** ** The stable descending sort *)

Section SortedFacts.
Context {A : Type} (leb : A -> A -> bool).

Lemma insert_desc_perm x l : Permutation (insert_desc leb x l) (x :: l).
Proof.
  induction l as [|y l IH]; simpl; auto.
  destruct (leb y x); auto.
  rewrite IH. apply perm_swap.
Qed.

Lemma sorted_reverse_perm l : Permutation (sorted_reverse leb l) l.
Proof.
  induction l as [|x l IH]; simpl; auto.
  rewrite insert_desc_perm. now constructor.
Qed.

Lemma sorted_reverse_In x l : In x (sorted_reverse leb l) <-> In x l.
Proof.
  split; apply Permutation_in;
    [|apply Permutation_sym]; apply sorted_reverse_perm.
Qed.

Hypothesis leb_total : forall a b, leb a b = true \/ leb b a = true.
Hypothesis leb_trans :
  forall a b c, leb a b = true -> leb b c = true -> leb a c = true.

Definition descending : list A -> Prop :=
  StronglySorted (fun a b => leb b a = true).

Lemma insert_desc_sorted x l :
  descending l -> descending (insert_desc leb x l).
Proof.
  induction 1 as [|y l Hs IH Hy]; simpl.
  - repeat constructor.
  - destruct (leb y x) eqn:E.
    + constructor; [now constructor|].
      constructor; auto.
      rewrite Forall_forall in *. intros z Hz. eauto.
    + constructor; auto.
      rewrite Forall_forall in *. intros z Hz.
      apply (Permutation_in _ (insert_desc_perm x l)) in Hz.
      destruct Hz as [Hz|Hz]; auto.
      subst z. destruct (leb_total y x); congruence.
Qed.

Lemma sorted_reverse_sorted l : descending (sorted_reverse leb l).
Proof.
  induction l as [|x l IH]; simpl; [constructor|].
  now apply insert_desc_sorted.
Qed.

(** Stability: a class of elements that no strictly larger element
    belongs to keeps its order. *)
Lemma insert_desc_filter (p : A -> bool) x l :
  (p x = true -> forall y, leb y x = false -> p y = false) ->
  filter p (insert_desc leb x l) = filter p (x :: l).
Proof.
  intros Hp. induction l as [|y l IH]; simpl; auto.
  destruct (leb y x) eqn:E; simpl; auto.
  rewrite IH. simpl.
  destruct (p x) eqn:Hx; auto.
  now rewrite (Hp eq_refl y E).
Qed.

Lemma sorted_reverse_filter (p : A -> bool) l :
  (forall x y, p x = true -> leb y x = false -> p y = false) ->
  filter p (sorted_reverse leb l) = filter p l.
Proof.
  intros Hp. induction l as [|x l IH]; simpl; auto.
  rewrite insert_desc_filter by (intros; eauto).
  simpl. now rewrite IH.
Qed.
Lemma sorted_reverse_stable x l :
  filter (same_key leb x) (sorted_reverse leb l) = filter (same_key leb x) l.
Proof.
  apply sorted_reverse_filter. unfold same_key.
  intros a y Ha Hy. apply andb_true_iff in Ha. destruct Ha as [Hxa Hax].
  destruct (leb x y) eqn:Hxy; auto. simpl.
  destruct (leb y x) eqn:Hyx; auto.
  rewrite (leb_trans _ _ _ Hyx Hxa) in Hy. discriminate.
Qed.

(** A descending list is determined by its elements and the order of
    the elements of equal key: whatever stable algorithm [sorted] runs,
    its result is [sorted_reverse]. *)
Lemma stable_descending_unique l1 :
  forall l2,
    Permutation l1 l2 -> descending l1 -> descending l2 ->
    (forall x, filter (same_key leb x) l1 = filter (same_key leb x) l2) ->
    l1 = l2.
Proof.
  induction l1 as [|a t1 IH]; intros l2 Hperm H1 H2 Hst.
  - apply Permutation_nil in Hperm. now subst.
  - destruct l2 as [|b t2]; [apply Permutation_sym, Permutation_nil in Hperm;
                             discriminate|].
    assert (Haa : leb a a = true) by (destruct (leb_total a a); auto).
    assert (Hba : leb b a = true).
    { assert (Hin : In b (a :: t1))
        by (eapply Permutation_in; [apply Permutation_sym; eassumption
                                   | now left]).
      destruct Hin as [->|Hin]; auto.
      inversion H1; subst. rewrite Forall_forall in *. auto. }
    assert (Hab : leb a b = true).
    { assert (Hin : In a (b :: t2))
        by (eapply Permutation_in; [eassumption | now left]).
      destruct Hin as [->|Hin]; auto.
      inversion H2; subst. rewrite Forall_forall in *. auto. }
    assert (Kaa : same_key leb a a = true)
      by (unfold same_key; now rewrite Haa).
    assert (Kab : same_key leb a b = true)
      by (unfold same_key; now rewrite Hab, Hba).
    pose proof (Hst a) as Ha. simpl in Ha.
    rewrite Kaa, Kab in Ha. inversion Ha; subst b.
    f_equal. apply IH.
    + eapply Permutation_cons_inv; eassumption.
    + now inversion H1.
    + now inversion H2.
    + intros x. pose proof (Hst x) as Hx. simpl in Hx.
      destruct (same_key leb x a); [now inversion Hx | assumption].
Qed.

Lemma sorted_reverse_characterised l l' :
  Permutation l' l -> descending l' ->
  (forall x, filter (same_key leb x) l' = filter (same_key leb x) l) ->
  l' = sorted_reverse leb l.
Proof.
  intros Hperm Hdesc Hst. apply stable_descending_unique; auto.
  - rewrite Hperm. apply Permutation_sym, sorted_reverse_perm.
  - apply sorted_reverse_sorted.
  - intros x. now rewrite sorted_reverse_stable.
Qed.
End SortedFacts.

Lemma slice_to_length {A : Type} (n : Z) (l : list A) :
  (0 <= n)%Z -> (Z.of_nat (length (slice_to n l)) <= n)%Z.
Proof.
  intros Hn. unfold slice_to.
  destruct (n <? 0)%Z eqn:E; [apply Z.ltb_lt in E; lia|].
  pose proof (firstn_le_length (Z.to_nat n) l). lia.
Qed.

Lemma firstn_incl {A : Type} (n : nat) (l : list A) x :
  In x (firstn n l) -> In x l.
Proof.
  intros H. rewrite <- (firstn_skipn n l). apply in_or_app. now left.
Qed.

Lemma slice_to_incl {A : Type} (n : Z) (l : list A) x :
  In x (slice_to n l) -> In x l.
Proof.
  unfold slice_to. destruct (n <? 0)%Z; apply firstn_incl.
Qed.

(** ** The job store *)

Section StoreFacts.
Implicit Types (s : InMemoryStorage) (now : datetime) (r : AnalysisResult).

Lemma cleanup_results s now :
  keys_distinct (_results s) = true ->
  _results (_cleanup_old_results s now)
  = filter (fun kv => negb (_is_expired s now (snd kv))) (_results s).
Proof.
  intros Hd. unfold _cleanup_old_results. simpl.
  now apply fold_del_filter.
Qed.

Lemma cleanup_nothing_expired s now :
  forallb (fun kv => negb (_is_expired s now (snd kv))) (_results s) = true ->
  _cleanup_old_results s now = with_results s (_results s).
Proof.
  intros H. unfold _cleanup_old_results. f_equal.
  assert (E : filter (fun kv => _is_expired s now (snd kv)) (_results s) = []).
  { induction (_results s) as [|kv d IH]; simpl in *; auto.
    apply andb_true_iff in H. destruct H as [H1 H2].
    apply negb_true_iff in H1. rewrite H1. auto. }
  now rewrite E.
Qed.

(** Every listed record is unexpired at the time of the call. *)
Lemma list_analyses_unexpired s now limit r :
  keys_distinct (_results s) = true ->
  In r (fst (list_analyses s now limit)) -> _is_expired s now r = false.
Proof.
  intros Hd Hin. unfold list_analyses in Hin. cbn [fst] in Hin.
  apply slice_to_incl in Hin. apply sorted_reverse_In in Hin.
  unfold dict_values in Hin. rewrite cleanup_results in Hin by assumption.
  apply in_map_iff in Hin. destruct Hin as [[k v] [<- Hin]].
  apply filter_In in Hin. simpl in *.
  now apply negb_true_iff.
Qed.
(** The table of a store built from [init] by the five operations has
    distinct keys. *)
Lemma operations_keep_keys_distinct s now (k : pystr) :
  keys_distinct (_results s) = true ->
  (forall req, keys_distinct (_results (snd (create_analysis s now k req))) = true)
  /\ keys_distinct (_results (snd (get_analysis s now k))) = true
  /\ (forall u, keys_distinct (_results (snd (update_analysis s now k u))) = true)
  /\ keys_distinct (_results (snd (delete_analysis s k))) = true
  /\ (forall limit,
         keys_distinct (_results (snd (list_analyses s now limit))) = true).
Proof.
  intros H.
  assert (Hc : keys_distinct (_results (_cleanup_old_results s now)) = true)
    by (unfold _cleanup_old_results; simpl; now apply fold_del_distinct).
  repeat split.
  - intros req. unfold create_analysis. simpl.
    destruct (_ >=? _)%Z; now apply dict_set_distinct.
  - unfold get_analysis. destruct (dict_get k (_results s)); auto.
    destruct (_is_expired s now a); auto. simpl.
    now apply dict_del_distinct.
  - intros u. unfold update_analysis.
    destruct (dict_get k (_results s)); auto. simpl.
    now apply dict_set_distinct.
  - unfold delete_analysis. destruct (dict_contains k (_results s)); auto.
    simpl. now apply dict_del_distinct.
  - intros limit. exact Hc.
Qed.
End StoreFacts.

(** C1.  Round trip through the store: after [create_analysis] has
    stored a request under the generated id, [update_analysis] with
    [status="completed"] and [summary=X] returns [True], and a
    [get_analysis] made no later than [ttl_hours] after the creation
    returns the record with status ["completed"], [completed_at] set to
    the clock reading of that update, and summary [X]. *)
Theorem C1_round_trip :
  forall (s : InMemoryStorage) (req : AnalysisRequest)
         (uuid X : pystr) (t_create t_update t_get : datetime),
    let created := create_analysis s t_create uuid req in
    let updated :=
      update_analysis (snd created) t_update (fst created)
        {| u_id := None; u_request := None;
           u_status := Some (lit "completed"); u_created_at := None;
           u_completed_at := None; u_market_data := None; u_trends := None;
           u_summary := Some (Some X); u_processing_time := None;
           u_error_message := None; u_other := [] |} in
    (t_get <= t_create + timedelta_hours (ttl_hours s))%Z ->
    fst updated = true
    /\ exists r,
        fst (get_analysis (snd updated) t_get (fst created)) = Some r
        /\ status r = lit "completed"
        /\ completed_at r = Some t_update
        /\ summary r = Some X
        /\ request r = req
        /\ created_at r = t_create.
Proof.
  intros s req uuid X t0 t1 t2 created updated Hlive.
  subst updated created. unfold create_analysis. simpl.
  set (s1 := if (_ >=? _)%Z then _ else _).
  assert (Httl : ttl_hours s1 = ttl_hours s)
    by (subst s1; destruct (_ >=? _)%Z; reflexivity).
  unfold update_analysis. simpl. rewrite dict_get_set_same. simpl.
  split; [reflexivity|].
  unfold get_analysis. simpl. rewrite dict_get_set_same.
  unfold _is_expired. simpl. rewrite Httl.
  destruct (t2 >? t0 + timedelta_hours (ttl_hours s))%Z eqn:E.
  - apply Z.gtb_lt in E. lia.
  - eexists. split; [reflexivity|]. simpl. auto.
Qed.

(** The round trip on a store that already holds its full capacity. *)
Lemma C1_round_trip_witness :
  let s := snd (create_analysis (init 1 24) 0%Z (lit "job-0")
                  {| market := lit "energy"; region := EU;
                     timeframe := DAILY; api_key := lit "k" |}) in
  let req := {| market := lit "technology"; region := US;
                    timeframe := MONTHLY; api_key := lit "k" |} in
  let created := create_analysis s 1000%Z (lit "job-1") req in
  let updated :=
    update_analysis (snd created) 2000%Z (fst created)
      {| u_id := None; u_request := None;
         u_status := Some (lit "completed"); u_created_at := None;
         u_completed_at := None; u_market_data := None; u_trends := None;
         u_summary := Some (Some (lit "X")); u_processing_time := None;
         u_error_message := None; u_other := [] |} in
  (3000 <= 1000 + timedelta_hours (ttl_hours s))%Z
  /\ fst updated = true
  /\ exists r,
      fst (get_analysis (snd updated) 3000%Z (fst created)) = Some r
      /\ status r = lit "completed"
      /\ completed_at r = Some 2000%Z
      /\ summary r = Some (lit "X")
      /\ request r = req
      /\ created_at r = 1000%Z.
Proof.
  intros s req created updated.
  assert (H : (3000 <= 1000 + timedelta_hours (ttl_hours s))%Z)
    by (vm_compute; discriminate).
  split; [exact H|].
  exact (C1_round_trip s req (lit "job-1") (lit "X") 1000%Z 2000%Z 3000%Z H).
Defined.

(** A record created at time 0 with a 24-hour TTL, looked at 25 hours
    later: it is expired, yet [update_analysis] returns [True] for it. *)
Lemma C2_update_ignores_expiry :
  let req := {| market := lit "energy"; region := EU;
                timeframe := DAILY; api_key := lit "k" |} in
  let s := snd (create_analysis (init 1000 24) 0%Z (lit "job-0") req) in
  let old := new_result 0%Z (lit "job-0") req in
  dict_get (lit "job-0") (_results s) = Some old
  /\ _is_expired s (timedelta_hours 25) old = true
  /\ fst (update_analysis s (timedelta_hours 25) (lit "job-0") no_updates) = true
  /\ fst (delete_analysis s (lit "job-0")) = true
  /\ ~ treated_as_absent s (timedelta_hours 25) (lit "job-0") old no_updates 50%Z.
Proof.
  intros req s old.
  split; [reflexivity|]. split; [reflexivity|].
  split; [reflexivity|]. split; [reflexivity|].
  intros (_ & H & _). vm_compute in H. discriminate.
Qed.

(** C2 (amended).  A stored record whose age exceeds [ttl_hours] at the
    time of the call, whatever its status: [get_analysis] returns [None]
    and removes it, and [list_analyses] leaves it out (every record it
    returns is unexpired).  [update_analysis] and [delete_analysis] do
    not look at the age: they find the record and return [True]. *)
Theorem C2_expiry_on_get_and_list :
  forall (s : InMemoryStorage) (now : datetime) (analysis_id : pystr)
         (result : AnalysisResult) (updates : Updates) (limit : Z),
    keys_distinct (_results s) = true ->
    dict_get analysis_id (_results s) = Some result ->
    _is_expired s now result = true ->
    fst (get_analysis s now analysis_id) = None
    /\ dict_get analysis_id (_results (snd (get_analysis s now analysis_id))) = None
    /\ ~ In result (fst (list_analyses s now limit))
    /\ (forall r, In r (fst (list_analyses s now limit)) ->
                  _is_expired s now r = false)
    /\ fst (update_analysis s now analysis_id updates) = true
    /\ fst (delete_analysis s analysis_id) = true.
Proof.
  intros s now analysis_id result updates limit Hd Hget Hexp.
  unfold get_analysis, update_analysis, delete_analysis, dict_contains.
  rewrite Hget, Hexp. simpl.
  repeat split.
  - now apply dict_get_del_same.
  - intros Hin. apply list_analyses_unexpired in Hin; congruence.
  - intros r. now apply list_analyses_unexpired.
Qed.

Lemma C2_expiry_on_get_and_list_witness :
  let req := {| market := lit "energy"; region := EU;
                timeframe := DAILY; api_key := lit "k" |} in
  let s := snd (create_analysis (init 1000 24) 0%Z (lit "job-0") req) in
  let old := new_result 0%Z (lit "job-0") req in
  let now := timedelta_hours 25 in
  (keys_distinct (_results s) = true
   /\ dict_get (lit "job-0") (_results s) = Some old
   /\ _is_expired s now old = true)
  /\ fst (get_analysis s now (lit "job-0")) = None
  /\ dict_get (lit "job-0")
              (_results (snd (get_analysis s now (lit "job-0")))) = None
  /\ ~ In old (fst (list_analyses s now 50%Z))
  /\ (forall r, In r (fst (list_analyses s now 50%Z)) ->
                _is_expired s now r = false)
  /\ fst (update_analysis s now (lit "job-0") no_updates) = true
  /\ fst (delete_analysis s (lit "job-0")) = true.
Proof.
  intros req s old now.
  split; [repeat split; reflexivity|].
  apply (C2_expiry_on_get_and_list s now (lit "job-0") old no_updates 50%Z);
    reflexivity.
Defined.

Lemma create_fresh_unexpired (s : InMemoryStorage) (now : datetime)
      (uuid : pystr) (req : AnalysisRequest) :
  dict_contains uuid (_results s) = false ->
  forallb (fun kv => negb (_is_expired s now (snd kv))) (_results s) = true ->
  snd (create_analysis s now uuid req)
  = with_results s (_results s ++ [(uuid, new_result now uuid req)]).
Proof.
  intros Hfresh Hlive. unfold create_analysis. cbn [snd].
  apply dict_contains_false_get in Hfresh.
  destruct (_ >=? _)%Z.
  - rewrite cleanup_nothing_expired by assumption. simpl.
    now rewrite dict_set_fresh.
  - now rewrite dict_set_fresh.
Qed.

Lemma dict_get_app_some {V : Type} (k : pystr) (v : V) (d d' : dict V) :
  dict_get k d = Some v -> dict_get k (d ++ d') = Some v.
Proof.
  induction d as [|[k0 v0] d IH]; simpl; [discriminate|].
  destruct (PyStr.eqb k k0); auto.
Qed.

Lemma create_many_keeps (calls : list (datetime * pystr * AnalysisRequest)) :
  forall s : InMemoryStorage,
    fresh_and_unexpired s calls = true ->
    (forall k r, dict_get k (_results s) = Some r ->
                 dict_get k (_results (create_many s calls)) = Some r)
    /\ length (_results (create_many s calls))
       = (length (_results s) + length calls)%nat.
Proof.
  induction calls as [|[[now uuid] req] calls IH]; intros s H;
    cbn [create_many fresh_and_unexpired] in *.
  - split; [auto | simpl; lia].
  - apply andb_true_iff in H. destruct H as [H H3].
    apply andb_true_iff in H. destruct H as [H1 H2].
    apply negb_true_iff in H1.
    destruct (IH _ H3) as [Hkeep Hlen].
    rewrite create_fresh_unexpired in Hkeep, Hlen |- * by assumption.
    split.
    + intros k r Hk. apply Hkeep. simpl. now apply dict_get_app_some.
    + rewrite Hlen. simpl. rewrite length_app. simpl. lia.
Qed.

(** With [limit = -1] three stored records give a list of two. *)
Lemma C3_negative_limit :
  let req := {| market := lit "energy"; region := EU;
                timeframe := DAILY; api_key := lit "k" |} in
  let s := create_many (init 1000 24)
             [ (0%Z, lit "job-0", req); (1%Z, lit "job-1", req);
               (2%Z, lit "job-2", req) ] in
  length (fst (list_analyses s 3%Z (-1)%Z)) = 2%nat
  /\ ~ (Z.of_nat (length (fst (list_analyses s 3%Z (-1)%Z))) <= -1)%Z.
Proof.
  intros req s. split; [reflexivity|].
  intros H. vm_compute in H. apply H. reflexivity.
Qed.

(** C3 (amended).  Capacity control is best effort.  [create_analysis]
    evicts nothing while the table holds fewer than [max_results]
    records; from [max_results] on it evicts exactly the expired ones.
    In a run of creates that meets no expired record nothing is ever
    evicted and the table grows by one record per call, so that its size
    can exceed [max_results].  [list_analyses] with a limit that is not
    negative returns at most [limit] records. *)
Theorem C3_capacity_best_effort :
  forall (s : InMemoryStorage) (now : datetime) (uuid : pystr)
         (req : AnalysisRequest),
    let after := snd (create_analysis s now uuid req) in
    let unexpired :=
      fun kv : pystr * AnalysisResult => negb (_is_expired s now (snd kv)) in
    ((Z.of_nat (length (_results s)) < max_results s)%Z ->
     _results after = dict_set uuid (new_result now uuid req) (_results s))
    /\ (keys_distinct (_results s) = true ->
        (max_results s <= Z.of_nat (length (_results s)))%Z ->
        _results after
        = dict_set uuid (new_result now uuid req)
                   (filter unexpired (_results s)))
    /\ (forall calls,
           fresh_and_unexpired s calls = true ->
           (forall k r, dict_get k (_results s) = Some r ->
                        dict_get k (_results (create_many s calls)) = Some r)
           /\ length (_results (create_many s calls))
              = (length (_results s) + length calls)%nat)
    /\ (exists s0 calls,
           fresh_and_unexpired s0 calls = true
           /\ (max_results s0
               < Z.of_nat (length (_results (create_many s0 calls))))%Z)
    /\ (forall limit,
           (0 <= limit)%Z ->
           (Z.of_nat (length (fst (list_analyses s now limit))) <= limit)%Z).
Proof.
  intros s now uuid req after unexpired. subst after.
  unfold create_analysis. cbn [snd].
  split; [|split; [|split; [|split]]].
  - intros Hlt.
    destruct (_ >=? _)%Z eqn:E; [|reflexivity].
    apply Z.geb_le in E. lia.
  - intros Hd Hge.
    destruct (_ >=? _)%Z eqn:E.
    + simpl. now rewrite fold_del_filter.
    + rewrite Z.geb_leb in E. apply Z.leb_gt in E. lia.
  - intros calls. apply create_many_keeps.
  - exists (init 1 24),
      [ (0%Z, lit "a", req); (1%Z, lit "b", req) ].
    split; [reflexivity|]. vm_compute. reflexivity.
  - intros limit Hl. unfold list_analyses. cbn [fst].
    now apply slice_to_length.
Qed.

Lemma C3_capacity_best_effort_witness :
  let req := {| market := lit "energy"; region := EU;
                timeframe := DAILY; api_key := lit "k" |} in
  let roomy := snd (create_analysis (init 2 24) 0%Z (lit "job-0") req) in
  let full := snd (create_analysis (init 1 24) 0%Z (lit "job-0") req) in
  let late := timedelta_hours 25 in
  let calls := [ (1%Z, lit "job-1", req); (2%Z, lit "job-2", req) ] in
  (* below capacity *)
  ((Z.of_nat (length (_results roomy)) < max_results roomy)%Z
   /\ _results (snd (create_analysis roomy 1%Z (lit "job-1") req))
      = dict_set (lit "job-1") (new_result 1%Z (lit "job-1") req)
                 (_results roomy))
  (* at capacity, with an expired record *)
  /\ (keys_distinct (_results full) = true
      /\ (max_results full <= Z.of_nat (length (_results full)))%Z
      /\ _results (snd (create_analysis full late (lit "job-1") req))
         = [ (lit "job-1", new_result late (lit "job-1") req) ])
  (* a run that meets no expired record *)
  /\ (fresh_and_unexpired roomy calls = true
      /\ dict_get (lit "job-0") (_results (create_many roomy calls))
         = Some (new_result 0%Z (lit "job-0") req)
      /\ length (_results (create_many roomy calls)) = 3%nat
      /\ (max_results roomy
          < Z.of_nat (length (_results (create_many roomy calls))))%Z)
  (* a limit that is not negative *)
  /\ ((0 <= 1)%Z
      /\ (Z.of_nat (length (fst (list_analyses (create_many roomy calls)
                                               3%Z 1%Z))) <= 1)%Z).
Proof.
  intros req roomy full late calls.
  destruct (C3_capacity_best_effort roomy 1%Z (lit "job-1") req)
    as (Hbelow & _ & Hrun & _ & _).
  destruct (C3_capacity_best_effort full late (lit "job-1") req)
    as (_ & Hfull & _ & _ & _).
  destruct (C3_capacity_best_effort (create_many roomy calls) 3%Z
                                    (lit "job-1") req)
    as (_ & _ & _ & _ & Hlimit).
  assert (Hlt : (Z.of_nat (length (_results roomy)) < max_results roomy)%Z)
    by reflexivity.
  assert (Hd : keys_distinct (_results full) = true) by reflexivity.
  assert (Hge : (max_results full <= Z.of_nat (length (_results full)))%Z)
    by (vm_compute; discriminate).
  assert (Hfresh : fresh_and_unexpired roomy calls = true) by reflexivity.
  assert (H01 : (0 <= 1)%Z) by (vm_compute; discriminate).
  split; [split; [exact Hlt | exact (Hbelow Hlt)]|].
  split; [split; [exact Hd | split; [exact Hge | exact (Hfull Hd Hge)]]|].
  split.
  - destruct (Hrun calls Hfresh) as [Hkeep Hlen].
    split; [exact Hfresh|].
    split; [apply Hkeep; reflexivity|].
    split; [exact Hlen|].
    rewrite Hlen. reflexivity.
  - split; [exact H01 | exact (Hlimit 1%Z H01)].
Defined.

(** ** The collection fan-out *)

Lemma flatten_from (results : list gathered) :
  forall acc : list MarketData,
    fold_left
      (fun all_data r =>
         match r with
         | Raised _ => all_data
         | Returned data => all_data ++ data
         end) results acc
    = acc ++ concat (successes results).
Proof.
  induction results as [|[e|data] results IH]; intros acc; simpl.
  - now rewrite app_nil_r.
  - apply IH.
  - rewrite IH. now rewrite app_assoc.
Qed.

Lemma successes_all_failed (results : list gathered) :
  Forall failed results -> successes results = [].
Proof.
  induction 1 as [|[e|data] results Hf _ IH]; simpl; auto.
  destruct Hf.
Qed.

Lemma successes_app (r1 r2 : list gathered) :
  successes (r1 ++ r2) = successes r1 ++ successes r2.
Proof.
  induction r1 as [|[e|data] r1 IH]; simpl; auto.
  now rewrite IH.
Qed.

(** C4.  Fan-out aggregation: [collect_all_data] returns the
    concatenation, in registration order, of the lists of the collectors
    that returned, each list in its own order; a collector that raised
    contributes nothing (wherever it stands among the others), and when
    every collector raised the result is empty. *)
Theorem C4_fan_out_aggregation :
  forall (self : DataCollectorManager) (market : pystr)
         (region : MarketRegion) (timeframe : TimeFrame),
    let results := gather self market region timeframe in
    results
    = map (fun collector => collector market region timeframe)
          (collectors self)
    /\ collect_all_data self market region timeframe
       = concat (successes results)
    /\ (forall before after e,
           results = before ++ Raised e :: after ->
           collect_all_data self market region timeframe
           = concat (successes before) ++ concat (successes after))
    /\ (forall before after data,
           results = before ++ Returned data :: after ->
           collect_all_data self market region timeframe
           = concat (successes before) ++ data ++ concat (successes after))
    /\ (Forall failed results ->
        collect_all_data self market region timeframe = []).
Proof.
  intros self market region timeframe results.
  assert (E : collect_all_data self market region timeframe
              = concat (successes results)).
  { unfold collect_all_data, flatten. fold results.
    now rewrite flatten_from. }
  split; [reflexivity|]. split; [exact E|].
  split; [|split].
  - intros before after e H. rewrite E, H, successes_app, concat_app.
    reflexivity.
  - intros before after data H. rewrite E, H, successes_app, concat_app.
    reflexivity.
  - intros Hall. rewrite E, successes_all_failed by assumption.
    reflexivity.
Qed.

(** Two of three collectors raise, and all three raise. *)
Lemma C4_fan_out_aggregation_witness :
  let news := @news_mock 0%Z in
  let two_fail :=
    {| collectors := [ raising (lit "timeout"); news; raising (lit "refused") ] |} in
  let all_fail :=
    {| collectors := [ raising (lit "a"); raising (lit "b"); raising (lit "c") ] |} in
  let item :=
    @_create_market_data (lit "Financial News") 0%Z processed_news in
  (gather two_fail (lit "technology") US MONTHLY
   = [Raised (Exception (lit "timeout"))]
       ++ Returned [item] :: [Raised (Exception (lit "refused"))]
   /\ collect_all_data two_fail (lit "technology") US MONTHLY = [item])
  /\ (gather two_fail (lit "technology") US MONTHLY
      = [] ++ Raised (Exception (lit "timeout"))
           :: [Returned [item]; Raised (Exception (lit "refused"))]
      /\ collect_all_data two_fail (lit "technology") US MONTHLY = [item])
  /\ (Forall failed (gather all_fail (lit "technology") US MONTHLY)
      /\ collect_all_data all_fail (lit "technology") US MONTHLY = []).
Proof.
  intros news two_fail all_fail item.
  destruct (C4_fan_out_aggregation two_fail (lit "technology") US MONTHLY)
    as (_ & _ & Hraised & Hreturned & _).
  destruct (C4_fan_out_aggregation all_fail (lit "technology") US MONTHLY)
    as (_ & _ & _ & _ & Hall).
  assert (Hall_failed :
            Forall failed (gather all_fail (lit "technology") US MONTHLY))
    by (repeat constructor).
  split; [split; [reflexivity|]|split; [split; [reflexivity|]|split]].
  - exact (Hreturned [Raised (Exception (lit "timeout"))]
                     [Raised (Exception (lit "refused"))] [item] eq_refl).
  - exact (Hraised []
                   [Returned [item]; Raised (Exception (lit "refused"))]
                   (Exception (lit "timeout")) eq_refl).
  - exact Hall_failed.
  - exact (Hall Hall_failed).
Defined.

(** ** The orchestrator *)

Lemma nonempty_of_not_nil {A : Type} {l : list A} :
  l <> [] -> nonempty l = true.
Proof. destruct l; [congruence | reflexivity]. Qed.

Section OrchestratorFacts.
Context {rt : PyRuntime}.

(** An update of a stored record is visible under its id. *)
Lemma update_analysis_get s now k u r0 :
  dict_get k (_results s) = Some r0 ->
  dict_get k (_results (snd (update_analysis s now k u)))
  = Some (if is_str (u_status u) (lit "completed")
          then stamp_completed now (set_fields u r0)
          else set_fields u r0).
Proof.
  intros H. unfold update_analysis. rewrite H. simpl.
  apply dict_get_set_same.
Qed.

Lemma float_int_bound_pos : (0 < float_int_bound)%Z.
Proof. vm_compute. reflexivity. Qed.

Lemma int_overflows_truthy z :
  int_overflows z = true -> truthy (VInt z) = true.
Proof.
  unfold int_overflows. intros H. apply Z.leb_le in H.
  pose proof float_int_bound_pos as Hb.
  cbn [truthy]. apply negb_true_iff. apply Z.eqb_neq. lia.
Qed.

(** When the valuation rule raises. *)
Lemma valuation_rule_outcome market sector_data :
  match get (pe_ratio sector_data) VNone with
  | VInt z =>
      if int_overflows z
      then valuation_rule market sector_data = Raise overflow_error
      else exists l, valuation_rule market sector_data = Return l
  | _ => exists l, valuation_rule market sector_data = Return l
  end.
Proof.
  unfold valuation_rule. cbv zeta.
  destruct (get (pe_ratio sector_data) VNone) as [|s|z|q]; cbn [py_float].
  - destruct (truthy VNone); eauto.
  - destruct (truthy (VStr s)); eauto.
    destruct (float_of_str s) as [pe|]; eauto.
    destruct (Qltb 30 pe); eauto. destruct (Qltb pe 15); eauto.
  - destruct (int_overflows z) eqn:E.
    + now rewrite (int_overflows_truthy z E).
    + destruct (truthy (VInt z)); eauto.
      destruct (Qltb 30 (inject_Z z)); eauto.
      destruct (Qltb (inject_Z z) 15); eauto.
  - destruct (truthy (VFloat q)); eauto.
    destruct (Qltb 30 q); eauto. destruct (Qltb q 15); eauto.
Qed.

(** [analyze_trends] raises exactly when the P/E ratio of the sector
    data overflows, and what it returns otherwise is the ranking of the
    emitted trends, the keyword trend last among them. *)
Lemma all_trends_outcome market_data market :
  if pe_overflows market_data
  then all_trends market_data market = Raise overflow_error
  else exists valuation,
      all_trends market_data market
      = Return (_analyze_price_trends market_data
                  ++ _analyze_sentiment_trends market_data
                  ++ _analyze_economic_trends market_data
                  ++ valuation
                  ++ [_get_market_specific_trend market market_data])
      /\ match find (fun data => has (sector (processed_data data)))
                    market_data with
         | Some data =>
             valuation_rule market (processed_data data) = Return valuation
         | None => valuation = []
         end.
Proof.
  unfold pe_overflows, all_trends, _analyze_sector_trends. cbv zeta.
  destruct (find (fun data => has (sector (processed_data data))) market_data)
    as [data|].
  - pose proof (valuation_rule_outcome market (processed_data data)) as H.
    destruct (get (pe_ratio (processed_data data)) VNone) as [|s|z|q];
      try (destruct H as [l H]; rewrite H; cbn [bind]; exists l;
           split; reflexivity).
    destruct (int_overflows z).
    + now rewrite H.
    + destruct H as [l H]. rewrite H. cbn [bind]. exists l.
      split; reflexivity.
  - cbn [bind]. exists []. split; reflexivity.
Qed.

(** What the emitted list is made of when [all_trends] returns. *)
Lemma all_trends_shape market_data market emitted :
  all_trends market_data market = Return emitted ->
  exists valuation,
    emitted
    = _analyze_price_trends market_data
        ++ _analyze_sentiment_trends market_data
        ++ _analyze_economic_trends market_data
        ++ valuation
        ++ [_get_market_specific_trend market market_data]
    /\ match find (fun data => has (sector (processed_data data)))
                  market_data with
       | Some data =>
           valuation_rule market (processed_data data) = Return valuation
       | None => valuation = []
       end.
Proof.
  intros H. pose proof (all_trends_outcome market_data market) as Ho.
  destruct (pe_overflows market_data).
  - rewrite Ho in H. discriminate H.
  - destruct Ho as (v & Hv & Hf). rewrite Hv in H. inversion H. eauto.
Qed.

Lemma analyze_trends_outcome market_data market region timeframe :
  if pe_overflows market_data
  then analyze_trends market_data market region timeframe
       = Raise overflow_error
  else exists emitted,
      all_trends market_data market = Return emitted
      /\ analyze_trends market_data market region timeframe
         = Return (rank emitted).
Proof.
  pose proof (all_trends_outcome market_data market) as H.
  unfold analyze_trends.
  destruct (pe_overflows market_data).
  - now rewrite H.
  - destruct H as (v & H & _). rewrite H. cbn [bind]. eauto.
Qed.

Lemma analyze_trends_returns market_data market region timeframe out :
  analyze_trends market_data market region timeframe = Return out ->
  exists emitted,
    all_trends market_data market = Return emitted /\ out = rank emitted.
Proof.
  unfold analyze_trends.
  destruct (all_trends market_data market) as [emitted|e]; cbn [bind];
    [|discriminate].
  intros H. inversion H. eauto.
Qed.

(** The exceptions the [try] block of [perform_analysis] can end with. *)
Lemma pipeline_cases manager run market region timeframe :
  (exists out, pipeline manager run market region timeframe = Return out)
  \/ pipeline manager run market region timeframe
     = Raise (Exception (lit "No market data collected"))
  \/ pipeline manager run market region timeframe
     = Raise (Exception (lit "No trends identified"))
  \/ pipeline manager run market region timeframe = Raise overflow_error.
Proof.
  unfold pipeline.
  destruct (nonempty (collect_all_data manager market region timeframe));
    cbn [bind]; auto.
  pose proof (analyze_trends_outcome
                (collect_all_data manager market region timeframe)
                market region timeframe) as H.
  destruct (pe_overflows (collect_all_data manager market region timeframe)).
  - rewrite H. cbn [bind]. auto.
  - destruct H as (emitted & _ & H). rewrite H. cbn [bind].
    destruct (nonempty (rank emitted)); cbn [bind]; eauto.
Qed.
End OrchestratorFacts.

(** C5.  Orchestrator failure path.  For a job whose record is in the
    store when the run comes to its last update: when the collection
    stage yields no data point the run leaves the record with status
    ["failed"], error message ["No market data collected"] and
    processing time [end_time - start_time]; and on every run the record
    ends in status ["completed"] or ["failed"] with that processing
    time. *)
Theorem C5_failure_path :
  forall (rt : PyRuntime) (manager : DataCollectorManager) (run : Run)
         (storage : InMemoryStorage) (analysis_id market : pystr)
         (region : MarketRegion) (timeframe : TimeFrame)
         (r0 : AnalysisResult),
    dict_get analysis_id
             (_results (before_last_update run storage analysis_id))
    = Some r0 ->
    let final :=
      perform_analysis manager run storage analysis_id market region
                       timeframe in
    (collect_all_data manager market region timeframe = [] ->
     exists r,
       dict_get analysis_id (_results final) = Some r
       /\ status r = lit "failed"
       /\ error_message r = Some (lit "No market data collected")
       /\ processing_time r = Some (end_time run - start_time run)
       /\ summary r = summary r0
       /\ completed_at r = completed_at r0)
    /\ (exists r,
           dict_get analysis_id (_results final) = Some r
           /\ (status r = lit "completed" \/ status r = lit "failed")
           /\ processing_time r = Some (end_time run - start_time run)).
Proof.
  intros rt manager run storage analysis_id market region timeframe r0 Hget
         final.
  subst final. unfold perform_analysis. cbv zeta.
  set (storage1 := before_last_update run storage analysis_id) in *.
  split.
  - intros Hnone. unfold pipeline. rewrite Hnone. simpl bind. cbv iota.
    eexists. split.
    + apply (update_analysis_get storage1 (last_update_now run) analysis_id
                                 _ _ Hget).
    + simpl. auto.
  - destruct (pipeline_cases manager run market region timeframe)
      as [[[[md tr] sm] ->]|[-> |[-> | ->]]];
      (eexists; split;
       [ apply (update_analysis_get storage1 (last_update_now run)
                                    analysis_id _ _ Hget)
       | simpl; auto ]).
Qed.

Lemma C5_failure_path_witness :
  let manager :=
    {| collectors := [ raising (lit "a"); raising (lit "b"); raising (lit "c") ] |} in
  let run :=
    {| start_time := 100; end_time := 103 # 1;
       first_update_now := 10%Z; last_update_now := 20%Z;
       meanwhile := fun table => table;
       reply := Raise (Exception (lit "rate limit")); summary_now := 15%Z |} in
  let req := {| market := lit "technology"; region := US;
                timeframe := MONTHLY; api_key := lit "k" |} in
  let storage := snd (create_analysis (init 1000 24) 5%Z (lit "job-0") req) in
  let final :=
    perform_analysis manager run storage (lit "job-0") (lit "technology")
                     US MONTHLY in
  (dict_get (lit "job-0")
            (_results (before_last_update run storage (lit "job-0")))
   = Some (new_result 5%Z (lit "job-0") req)
   /\ collect_all_data manager (lit "technology") US MONTHLY = [])
  /\ exists r,
      dict_get (lit "job-0") (_results final) = Some r
      /\ status r = lit "failed"
      /\ error_message r = Some (lit "No market data collected")
      /\ processing_time r = Some (end_time run - start_time run)
      /\ summary r = None
      /\ completed_at r = None.
Proof.
  intros manager run req storage final.
  assert (Hget : dict_get (lit "job-0")
                   (_results (before_last_update run storage (lit "job-0")))
                 = Some (new_result 5%Z (lit "job-0") req)) by reflexivity.
  assert (Hnone : collect_all_data manager (lit "technology") US MONTHLY = [])
    by reflexivity.
  split; [split; [exact Hget | exact Hnone]|].
  exact (proj1 (C5_failure_path ascii_runtime manager run storage (lit "job-0")
                                (lit "technology") US MONTHLY _ Hget) Hnone).
Defined.

(** ** Trend ranking *)

Lemma Qltb_lt (x y : Q) : Qltb x y = true <-> x < y.
Proof.
  unfold Qltb. rewrite negb_true_iff.
  split.
  - intros H. apply Qnot_le_lt. intros Hle.
    apply Qle_bool_iff in Hle. congruence.
  - intros H. destruct (Qle_bool y x) eqn:E; auto.
    apply Qle_bool_iff in E. exfalso. exact (Qlt_not_le _ _ H E).
Qed.

(** [min(a, b)] is below both arguments and is one of them. *)
Lemma py_min_le_l (a b : Q) : py_min a b <= a.
Proof.
  unfold py_min. destruct (Qltb b a) eqn:E.
  - apply Qltb_lt in E. now apply Qlt_le_weak.
  - apply Qle_refl.
Qed.

Lemma py_min_glb (a b c : Q) : c <= a -> c <= b -> c <= py_min a b.
Proof. unfold py_min. destruct (Qltb b a); auto. Qed.

Lemma confidence_leb_total (a b : TrendData) :
  confidence_leb a b = true \/ confidence_leb b a = true.
Proof.
  unfold confidence_leb. rewrite !Qle_bool_iff.
  destruct (Qlt_le_dec (confidence b) (confidence a)); auto.
  right. now apply Qlt_le_weak.
Qed.

Lemma confidence_leb_trans (a b c : TrendData) :
  confidence_leb a b = true -> confidence_leb b c = true ->
  confidence_leb a c = true.
Proof.
  unfold confidence_leb. rewrite !Qle_bool_iff. apply Qle_trans.
Qed.

Lemma strongly_sorted_after {A : Type} (R : A -> A -> Prop) (p : list A) :
  forall (b : A) (rest : list A),
    StronglySorted R (p ++ b :: rest) -> Forall (R b) rest.
Proof.
  induction p as [|x p IH]; intros b rest H; simpl in H.
  - now inversion H.
  - inversion H; subst. eauto.
Qed.

Lemma strongly_sorted_firstn {A : Type} (R : A -> A -> Prop) (n : nat) :
  forall l : list A, StronglySorted R l -> StronglySorted R (firstn n l).
Proof.
  induction n as [|n IH]; intros l H; simpl; [constructor|].
  destruct l as [|x l]; [constructor|].
  inversion H; subst. constructor; auto.
  rewrite Forall_forall in *. intros y Hy. apply firstn_incl in Hy. auto.
Qed.

Lemma strongly_sorted_weaken {A : Type} (R R' : A -> A -> Prop) (l : list A) :
  (forall a b, R a b -> R' a b) -> StronglySorted R l -> StronglySorted R' l.
Proof.
  intros HR. induction 1; constructor; auto.
  eapply Forall_impl; [|eassumption]. auto.
Qed.

Section RankFacts.
Context {rt : PyRuntime}.
Implicit Types (trends : list TrendData) (t a b : TrendData).

Lemma rank_In t trends :
  In t (rank trends) -> In t trends /\ 3 # 10 <= confidence t.
Proof.
  unfold rank. intros H. apply firstn_incl in H.
  apply sorted_reverse_In in H. apply filter_In in H.
  destruct H as [H1 H2]. split; auto. now apply Qle_bool_iff.
Qed.

Lemma rank_sorted trends :
  StronglySorted (fun a b => confidence b <= confidence a) (rank trends).
Proof.
  unfold rank. apply strongly_sorted_firstn.
  eapply strongly_sorted_weaken;
    [|apply (sorted_reverse_sorted confidence_leb confidence_leb_total
                                   confidence_leb_trans)].
  intros a b H. now apply Qle_bool_iff.
Qed.

Lemma rank_length trends : (length (rank trends) <= 5)%nat.
Proof. unfold rank. apply firstn_le_length. Qed.

Lemma filter_tie_of_passing trends (c : Q) :
  filter (has_confidence c)
         (filter (fun trend => Qle_bool min_confidence_threshold
                                        (confidence trend)) trends)
  = if Qle_bool min_confidence_threshold c
    then filter (has_confidence c) trends
    else [].
Proof.
  induction trends as [|t trends IH]; simpl.
  - now destruct (Qle_bool min_confidence_threshold c).
  - destruct (has_confidence c t) eqn:E.
    + unfold has_confidence in E. apply Qeq_bool_iff in E.
      rewrite (Qleb_comp _ _ (Qeq_refl min_confidence_threshold) _ _ E).
      destruct (Qle_bool min_confidence_threshold c); auto.
      simpl. unfold has_confidence at 1.
      apply Qeq_bool_iff in E. rewrite E. now f_equal.
    + destruct (Qle_bool min_confidence_threshold (confidence t)); auto.
      simpl. now rewrite E.
Qed.

(** Ties keep their emission order. *)
Lemma rank_stable trends (c : Q) :
  exists rest,
    filter (has_confidence c) trends
    = filter (has_confidence c) (rank trends) ++ rest.
Proof.
  unfold rank. cbv zeta.
  set (F := filter (fun trend => Qle_bool min_confidence_threshold
                                          (confidence trend)) trends).
  set (S := sorted_reverse confidence_leb F).
  assert (HS : filter (has_confidence c) S = filter (has_confidence c) F).
  { apply sorted_reverse_filter. unfold has_confidence, confidence_leb.
    intros x y Hx Hy. apply Qeq_bool_iff in Hx.
    destruct (Qeq_bool (confidence y) c) eqn:E; auto.
    apply Qeq_bool_iff in E.
    assert (Hle : confidence y <= confidence x)
      by (rewrite Hx, E; apply Qle_refl).
    apply Qle_bool_iff in Hle. congruence. }
  assert (Hcut : filter (has_confidence c) S
                 = filter (has_confidence c) (firstn max_trends S)
                     ++ filter (has_confidence c) (skipn max_trends S)).
  { rewrite <- filter_app. now rewrite firstn_skipn. }
  subst F. rewrite filter_tie_of_passing in HS.
  destruct (Qle_bool min_confidence_threshold c).
  - exists (filter (has_confidence c) (skipn max_trends S)).
    now rewrite <- Hcut, HS.
  - exists (filter (has_confidence c) trends).
    rewrite HS in Hcut.
    symmetry in Hcut. apply app_eq_nil in Hcut. destruct Hcut as [-> _].
    reflexivity.
Qed.

(** A trend in the output comes after every emitted trend of strictly
    higher confidence. *)
Lemma rank_precedes trends a b :
  In a trends -> In b (rank trends) -> confidence b < confidence a ->
  exists l1 l2 l3, rank trends = l1 ++ a :: l2 ++ b :: l3.
Proof.
  intros Ha Hb Hlt.
  destruct (rank_In _ _ Hb) as [_ Hb3].
  destruct (in_split _ _ Hb) as (p & q & Hout).
  unfold rank in Hout. cbv zeta in Hout.
  set (F := filter _ trends) in *.
  set (S := sorted_reverse confidence_leb F) in *.
  assert (HS : S = p ++ b :: (q ++ skipn max_trends S)).
  { rewrite <- (firstn_skipn max_trends S) at 1. rewrite Hout.
    now rewrite <- app_assoc. }
  assert (Hsorted : StronglySorted (fun x y => confidence_leb y x = true) S)
    by apply (sorted_reverse_sorted confidence_leb confidence_leb_total
                                    confidence_leb_trans).
  rewrite HS in Hsorted. apply strongly_sorted_after in Hsorted.
  assert (HaS : In a S).
  { apply sorted_reverse_In. apply filter_In. split; auto.
    apply Qle_bool_iff. apply Qlt_le_weak.
    eapply Qle_lt_trans; eassumption. }
  rewrite HS in HaS. apply in_app_or in HaS.
  destruct HaS as [HaS|[HaS|HaS]].
  - destruct (in_split _ _ HaS) as (l1 & l2 & ->).
    exists l1, l2, q. unfold rank. cbv zeta. fold F. fold S. rewrite Hout.
    now rewrite <- app_assoc.
  - subst a. exfalso. exact (Qlt_irrefl _ Hlt).
  - rewrite Forall_forall in Hsorted. apply Hsorted in HaS.
    apply Qle_bool_iff in HaS. exfalso. exact (Qlt_not_le _ _ Hlt HaS).
Qed.

Lemma rank_nonempty trends t :
  In t trends -> 3 # 10 <= confidence t -> rank trends <> [].
Proof.
  intros Hin Hc. unfold rank. cbv zeta.
  set (F := filter _ trends).
  assert (HF : In t F).
  { apply filter_In. split; auto. now apply Qle_bool_iff. }
  assert (HS : In t (sorted_reverse confidence_leb F))
    by now apply sorted_reverse_In.
  destruct (sorted_reverse confidence_leb F); [destruct HS|].
  simpl. discriminate.
Qed.
End RankFacts.

(** C6.  Trend ranking.  Whatever the data and the subject, the list
    [analyze_trends] returns holds no trend of confidence below 0.3, is
    in descending order of confidence, keeps the emission order among
    trends of equal confidence (for each confidence value the output
    trends of that value are an initial part of the emitted ones), has
    at most 5 elements and consists of emitted trends.  A trend that is
    in the output stands after every emitted trend of strictly higher
    confidence: with an emitted 0.8 and an emitted 0.5, the 0.8 trend
    precedes the 0.5 trend. *)
Theorem C6_trend_ranking :
  forall (rt : PyRuntime) (market_data : list MarketData) (market : pystr)
         (region : MarketRegion) (timeframe : TimeFrame)
         (out : list TrendData),
    analyze_trends market_data market region timeframe = Return out ->
    exists emitted,
      all_trends market_data market = Return emitted
      /\ Forall (fun t => 3 # 10 <= confidence t) out
      /\ StronglySorted (fun a b => confidence b <= confidence a) out
      /\ (forall c, exists rest,
             filter (has_confidence c) emitted
             = filter (has_confidence c) out ++ rest)
      /\ (length out <= 5)%nat
      /\ (forall t, In t out -> In t emitted)
      /\ (forall a b,
             In a emitted -> In b out -> confidence b < confidence a ->
             exists l1 l2 l3, out = l1 ++ a :: l2 ++ b :: l3)
      /\ (forall a b,
             In a emitted -> In b out ->
             confidence a == 8 # 10 -> confidence b == 5 # 10 ->
             exists l1 l2 l3, out = l1 ++ a :: l2 ++ b :: l3).
Proof.
  intros rt market_data market region timeframe out Hout.
  destruct (analyze_trends_returns market_data market region timeframe out
                                   Hout) as (emitted & Hem & ->).
  exists emitted. split; [exact Hem|].
  split; [|split; [|split; [|split; [|split; [|split]]]]].
  - apply Forall_forall. intros t Ht. now apply rank_In in Ht.
  - apply rank_sorted.
  - intros c. apply rank_stable.
  - apply rank_length.
  - intros t Ht. now apply rank_In in Ht.
  - intros a b. apply rank_precedes.
  - intros a b Ha Hb Ea Eb. apply rank_precedes; auto.
    rewrite Ea, Eb. reflexivity.
Qed.

Lemma Qabs_div10_nonneg (x : Q) : 0 <= Qabs x / 10.
Proof.
  pose proof (Qabs_nonneg x).
  apply Qle_shift_div_l; [reflexivity|]. now rewrite Qmult_0_l.
Qed.

Lemma py_min_compat (a x y : Q) : x == y -> py_min a x == py_min a y.
Proof.
  intros E. unfold py_min, Qltb.
  rewrite (Qleb_comp _ _ (Qeq_refl a) _ _ E).
  destruct (Qle_bool a y); [reflexivity | exact E].
Qed.

Section ClampFacts.
Context {rt : PyRuntime}.

Ltac clamp_with r :=
  exists r; simpl;
  split; [reflexivity|];
  split; [|split; [|split; [discriminate|auto]]].

Lemma price_rules_clamp data t :
  In t (price_rules data) -> within_clamp t /\ follows_closed_form data t.
Proof.
  unfold price_rules.
  destruct (PyStr.eqb (source data) (lit "Alpha Vantage")
            && has (price_trend (processed_data data))); [|intros []].
  intros H. apply in_app_or in H. destruct H as [H|H].
  - destruct (is_str (price_trend (processed_data data)) (lit "up")).
    + destruct H as [<-|[]]. split.
      * clamp_with PriceMomentum.
        -- apply py_min_glb; [discriminate | apply Qabs_div10_nonneg].
        -- apply py_min_le_l.
      * exists PriceMomentum. eexists. simpl.
        split; [reflexivity|]. split; reflexivity.
    + destruct (is_str (price_trend (processed_data data)) (lit "down"));
        [|destruct H].
      destruct H as [<-|[]]. split.
      * clamp_with PriceMomentum.
        -- apply py_min_glb; [discriminate | apply Qabs_div10_nonneg].
        -- apply py_min_le_l.
      * exists PriceMomentum. eexists. simpl.
        split; [reflexivity|]. split; reflexivity.
  - cbv zeta in H.
    destruct (Qltb 20 (get (volatility (processed_data data)) 0)) eqn:E;
      [|destruct H].
    apply Qltb_lt in E. destruct H as [<-|[]]. split.
    + clamp_with Volatility.
      * apply py_min_glb; [discriminate|].
        apply Qle_shift_div_l; [reflexivity|]. lra.
      * apply py_min_le_l.
    + exists Volatility. eexists. simpl.
      split; [reflexivity|]. split; reflexivity.
Qed.
Ltac constant_rule r :=
  clamp_with r; discriminate.

Lemma sentiment_rules_clamp data t :
  In t (sentiment_rules data) -> within_clamp t /\ follows_closed_form data t.
Proof.
  unfold sentiment_rules.
  destruct (PyStr.eqb (source data) (lit "Financial News")
            && has (sentiment_trend (processed_data data))); [|intros []].
  cbv zeta.
  set (avg := get (avg_sentiment (processed_data data)) 0).
  set (volume := get (news_volume (processed_data data)) 0%Z).
  intros H. apply in_app_or in H. destruct H as [H|H].
  - destruct (PyStr.eqb _ (lit "positive") && Qltb (2 # 10) avg) eqn:Epos.
    + apply andb_true_iff in Epos. destruct Epos as [_ Epos].
      apply Qltb_lt in Epos. destruct H as [<-|[]]. split.
      * clamp_with Sentiment.
        -- apply py_min_glb; [discriminate | lra].
        -- apply py_min_le_l.
      * exists Sentiment. eexists. simpl.
        split; [reflexivity|]. split; [reflexivity|].
        fold avg. apply py_min_compat.
        rewrite Qabs_pos by lra. reflexivity.
    + destruct (PyStr.eqb _ (lit "negative") && Qltb avg (- (2 # 10)));
        [|destruct H].
      destruct H as [<-|[]]. split.
      * clamp_with Sentiment.
        -- apply py_min_glb; [discriminate|].
           pose proof (Qabs_nonneg avg). lra.
        -- apply py_min_le_l.
      * exists Sentiment. eexists. simpl.
        split; [reflexivity|]. split; reflexivity.
  - destruct (volume >? 50)%Z eqn:E; [|destruct H].
    apply Z.gtb_lt in E. destruct H as [<-|[]]. split.
    + clamp_with NewsVolume.
      * apply py_min_glb; [discriminate|].
        apply Qle_shift_div_l; [reflexivity|].
        rewrite Qmult_0_l. change 0 with (inject_Z 0).
        rewrite <- Zle_Qle. lia.
      * apply py_min_le_l.
    + exists NewsVolume. eexists. simpl.
      split; [reflexivity|]. split; reflexivity.
Qed.

Lemma economic_rules_clamp data t :
  In t (economic_rules data) -> within_clamp t.
Proof.
  unfold economic_rules.
  destruct (PyStr.eqb (source data) (lit "Economic Indicators"));
    [|intros []].
  cbv zeta. intros H. apply in_app_or in H. destruct H as [H|H].
  - destruct (PyStr.eqb _ (lit "good")).
    + destruct H as [<-|[]]. constant_rule EconomicHealth.
    + destruct (PyStr.eqb _ (lit "moderate")); [|destruct H].
      destruct H as [<-|[]]. constant_rule EconomicHealth.
  - destruct (PyStr.eqb _ (lit "volatile")); [|destruct H].
    destruct H as [<-|[]]. constant_rule MarketConditions.
Qed.

Lemma valuation_rule_clamp market sector_data valuation t :
  valuation_rule market sector_data = Return valuation ->
  In t valuation -> within_clamp t.
Proof.
  unfold valuation_rule. cbv zeta.
  destruct (truthy _); [|intros H; inversion H; intros []].
  destruct (py_float _) as [pe_value| |];
    [|intros H; inversion H; intros []|discriminate].
  destruct (Qltb 30 pe_value).
  - intros H. inversion H. intros [<-|[]]. constant_rule Valuation.
  - destruct (Qltb pe_value 15); [|intros H; inversion H; intros []].
    intros H. inversion H. intros [<-|[]]. constant_rule Valuation.
Qed.

(** The subject-keyword rule returns a trend in every branch, of
    confidence 0.6, 0.7 or 0.8. *)
Lemma market_specific_trend_clamp market market_data :
  within_clamp (_get_market_specific_trend market market_data)
  /\ 6 # 10 <= confidence (_get_market_specific_trend market market_data).
Proof.
  unfold _get_market_specific_trend. cbv zeta.
  repeat match goal with
         | |- context [if ?c then _ else _] => destruct c
         end;
    (split; [constant_rule SubjectKeyword | simpl; discriminate]).
Qed.

Lemma all_trends_clamp market_data market emitted t :
  all_trends market_data market = Return emitted ->
  In t emitted -> within_clamp t.
Proof.
  intros Hem. apply all_trends_shape in Hem.
  destruct Hem as (valuation & -> & Hv).
  unfold _analyze_price_trends, _analyze_sentiment_trends,
    _analyze_economic_trends.
  rewrite !in_app_iff, !in_flat_map.
  intros [(d & _ & H)|[(d & _ & H)|[(d & _ & H)|[H|[<-|[]]]]]].
  - now apply price_rules_clamp in H.
  - now apply sentiment_rules_clamp in H.
  - now apply economic_rules_clamp in H.
  - destruct (find _ market_data); [|subst valuation; destruct H].
    exact (valuation_rule_clamp _ _ _ _ Hv H).
  - apply market_specific_trend_clamp.
Qed.

Lemma market_specific_trend_emitted market market_data emitted :
  all_trends market_data market = Return emitted ->
  In (_get_market_specific_trend market market_data) emitted.
Proof.
  intros Hem. apply all_trends_shape in Hem.
  destruct Hem as (valuation & -> & _).
  rewrite !in_app_iff. right. right. right. right. now left.
Qed.

Lemma analyze_trends_nonempty market_data market region timeframe out :
  analyze_trends market_data market region timeframe = Return out ->
  out <> [].
Proof.
  intros Hout. apply analyze_trends_returns in Hout.
  destruct Hout as (emitted & Hem & ->).
  apply (rank_nonempty emitted
                       (_get_market_specific_trend market market_data)).
  - now apply market_specific_trend_emitted.
  - destruct (market_specific_trend_clamp market market_data) as [_ H].
    eapply Qle_trans; [|exact H]. discriminate.
Qed.
End ClampFacts.

(** C7.  Per-rule confidence clamps.  Every trend a rule of the battery
    emits has a confidence between 0 and the ceiling of that rule, which
    lies in the interval the specification names for it ([0, 0.9] for
    price momentum and sentiment, [0, 0.8] for the others): so for the
    trends of the price, sentiment and economic rules on any data
    point, for what the valuation rule returns, for the keyword trend,
    and hence for every trend of the emitted list.  For the four rules
    that measure a magnitude the confidence is the closed form of the
    rule at that magnitude: [min(0.9, |change| / 10)],
    [min(0.8, volatility / 30)], [min(0.9, |avg_sentiment| * 2)] and
    [min(0.7, news_volume / 100)]. *)
Theorem C7_confidence_clamps :
  forall (rt : PyRuntime) (market_data : list MarketData) (market : pystr),
    (forall emitted t,
        all_trends market_data market = Return emitted ->
        In t emitted -> within_clamp t)
    /\ (forall data t,
           In t (price_rules data) \/ In t (sentiment_rules data)
           \/ In t (economic_rules data) ->
           within_clamp t)
    /\ (forall sector_data valuation t,
           valuation_rule market sector_data = Return valuation ->
           In t valuation -> within_clamp t)
    /\ within_clamp (_get_market_specific_trend market market_data)
    /\ (forall data t,
           In t (price_rules data) \/ In t (sentiment_rules data) ->
           follows_closed_form data t).
Proof.
  intros rt market_data market.
  split; [|split; [|split; [|split]]].
  - intros emitted t. apply all_trends_clamp.
  - intros data t [H|[H|H]].
    + now apply price_rules_clamp in H.
    + now apply sentiment_rules_clamp in H.
    + now apply economic_rules_clamp in H.
  - intros sector_data valuation t. apply valuation_rule_clamp.
  - apply market_specific_trend_clamp.
  - intros data t [H|H].
    + now apply price_rules_clamp in H.
    + now apply sentiment_rules_clamp in H.
Qed.

(** A news item of average sentiment 0.25 and the subject "technology":
    a 0.5 trend is emitted before a 0.8 trend and comes out after it. *)
Lemma C6_trend_ranking_witness :
  let news :=
    {| price_trend := None; price_change_percent := None;
       volatility := None; data_points := None;
       sentiment_trend := Some (lit "positive");
       avg_sentiment := Some (25 # 100);
       news_volume := Some 15%Z;
       top_themes := Some [lit "earnings"];
       economic_health := None; growth_trend := None;
       market_conditions := None; inflation_pressure := None;
       key_risks := None; sector := None; pe_ratio := None;
       market_cap := None |} in
  let data := [ _create_market_data (lit "Financial News") 0%Z news ] in
  let a := @_get_market_specific_trend ascii_runtime (lit "technology") data in
  exists b,
    @all_trends ascii_runtime data (lit "technology") = Return [b; a]
    /\ @analyze_trends ascii_runtime data (lit "technology") US MONTHLY
       = Return [a; b]
    /\ (confidence a == 8 # 10 /\ confidence b == 5 # 10)
    /\ (exists l1 l2 l3, [a; b] = l1 ++ a :: l2 ++ b :: l3).
Proof.
  intros news data a.
  eexists. split; [reflexivity|].
  match goal with
  | |- _ = Return [a; ?b] /\ _ =>
      assert (Hout : @analyze_trends ascii_runtime data (lit "technology")
                                     US MONTHLY = Return [a; b])
        by (vm_compute; reflexivity);
      destruct (C6_trend_ranking ascii_runtime data (lit "technology") US
                                 MONTHLY [a; b] Hout)
        as (emitted & Hem & _ & _ & _ & _ & _ & _ & H);
      assert (He : emitted = [b; a])
        by (assert (Hc : @all_trends ascii_runtime data (lit "technology")
                         = Return [b; a]) by reflexivity;
            rewrite Hc in Hem; inversion Hem; reflexivity);
      assert (Ea : confidence a == 8 # 10) by reflexivity;
      assert (Eb : confidence b == 5 # 10) by reflexivity;
      split; [exact Hout|];
      split; [split; assumption|];
      apply (H a b); [rewrite He; right; left; reflexivity
                     | right; left; reflexivity | exact Ea | exact Eb]
  end.
Defined.

Lemma C7_confidence_clamps_witness :
  let item := @_create_market_data (lit "Financial News") 0%Z
                (@processed_news) in
  let data := [ item ] in
  let keyword :=
    @_get_market_specific_trend ascii_runtime (lit "technology") data in
  exists t emitted,
    @sentiment_rules ascii_runtime item = [t]
    /\ (@all_trends ascii_runtime data (lit "technology") = Return emitted
        /\ In keyword emitted /\ within_clamp keyword)
    /\ (In t (@sentiment_rules ascii_runtime item)
        /\ follows_closed_form item t)
    /\ confidence t == 6 # 10.
Proof.
  intros item data keyword.
  destruct (C7_confidence_clamps ascii_runtime data (lit "technology"))
    as (Hclamp & _ & _ & _ & Hform).
  destruct (@all_trends ascii_runtime data (lit "technology"))
    as [emitted|e] eqn:Hem; [|vm_compute in Hem; discriminate Hem].
  eexists. exists emitted. split; [reflexivity|].
  assert (Hk : In keyword emitted)
    by exact (market_specific_trend_emitted (lit "technology") data emitted
                                            Hem).
  split; [split; [reflexivity|split; [exact Hk|]]|].
  - exact (Hclamp emitted keyword eq_refl Hk).
  - match goal with
    | |- (In ?t _ /\ _) /\ _ =>
        assert (Ht : In t (@sentiment_rules ascii_runtime item))
          by (vm_compute; auto);
        split; [split; [exact Ht | exact (Hform item t (or_intror Ht))]
               | reflexivity]
    end.
Defined.




(** The offline scenario run end to end: the job completes with four
    trends and a summary of 141 words. *)
Example offline_scenario :
  let manager := @offline_manager ascii_runtime 0%Z in
  let run :=
    {| start_time := 100; end_time := 103 # 1;
       first_update_now := 10%Z; last_update_now := 20%Z;
       meanwhile := fun table => table;
       reply := Raise (Exception (lit "rate limit")); summary_now := 15%Z |} in
  let req := {| market := lit "technology"; region := US;
                timeframe := MONTHLY; api_key := lit "k" |} in
  let storage := snd (create_analysis (init 1000 24) 5%Z (lit "job-0") req) in
  let final :=
    @perform_analysis ascii_runtime manager run storage (lit "job-0")
                      (lit "technology") US MONTHLY in
  exists r text,
    fst (get_analysis final 30%Z (lit "job-0")) = Some r
    /\ status r = lit "completed"
    /\ completed_at r = Some 20%Z
    /\ map trend_name (trends r)
       = [ lit "Technology Innovation Drive"; lit "Volatile Market Conditions";
           lit "Positive Market Sentiment"; lit "Mixed Economic Signals" ]
    /\ length (market_data r) = 4%nat
    /\ summary r = Some text
    /\ length (split text) = 141%nat
    /\ error_message r = None.
Proof.
  intros manager run req storage final.
  do 2 eexists. split; [vm_compute; reflexivity|].
  repeat split; reflexivity.
Qed.

(** ** Words and lines *)

Section SplitFacts.
Implicit Types (s cur w tail : pystr) (ws : list pystr).

Lemma nospace_app a b : nospace (a ++ b) = nospace a && nospace b.
Proof. apply forallb_app. Qed.

(** Reading a run of non-space characters extends the current word. *)
Lemma split_from_nospace w :
  forall cur s,
    nospace w = true -> split_from cur (w ++ s) = split_from (cur ++ w) s.
Proof.
  induction w as [|c w IH]; intros cur s H; simpl.
  - now rewrite app_nil_r.
  - simpl in H. apply andb_true_iff in H. destruct H as [Hc Hw].
    apply negb_true_iff in Hc. rewrite Hc.
    rewrite IH by assumption. now rewrite <- app_assoc.
Qed.

(** A space between two texts separates their words. *)
Lemma split_from_app_space a :
  forall cur c b,
    is_space c = true ->
    split_from cur (a ++ c :: b) = split_from cur a ++ split_from [] b.
Proof.
  induction a as [|x a IH]; intros cur c b Hc; simpl.
  - now rewrite Hc.
  - destruct (is_space x).
    + rewrite IH by assumption. now rewrite app_assoc.
    + now apply IH.
Qed.

Lemma split_app_space a c b :
  is_space c = true -> split (a ++ c :: b) = split a ++ split b.
Proof. apply split_from_app_space. Qed.

Lemma split_word w : word w -> split w = [w].
Proof.
  intros [Hne Hw]. unfold split.
  rewrite <- (app_nil_r w) at 1. rewrite split_from_nospace by assumption.
  simpl. destruct w; [congruence | reflexivity].
Qed.

(** Every element of [s.split()] is a word. *)
Lemma split_from_words s :
  forall cur, nospace cur = true -> Forall word (split_from cur s).
Proof.
  induction s as [|c s IH]; intros cur Hcur; simpl.
  - destruct cur; constructor; [|constructor]. split; [discriminate|auto].
  - destruct (is_space c) eqn:Hc.
    + apply Forall_app. split; [|now apply IH].
      destruct cur; constructor; [|constructor]. split; [discriminate|auto].
    + apply IH. rewrite nospace_app, Hcur. simpl. now rewrite Hc.
Qed.

Lemma split_words s : Forall word (split s).
Proof. now apply split_from_words. Qed.

(** Words joined by single spaces, with a space-free tail: splitting
    gives the words back, the tail glued to the last one. *)
Lemma split_join_glue ws tail :
  Forall word ws -> ws <> [] -> nospace tail = true ->
  split (join (lit " ") ws ++ tail) = glue_last tail ws.
Proof.
  intros Hws. induction Hws as [|w ws Hw Hws IH]; intros Hne Ht;
    [congruence|].
  destruct ws as [|w' ws].
  - simpl. apply split_word. destruct Hw as [Hw1 Hw2]. split.
    + destruct w; [congruence | discriminate].
    + now rewrite nospace_app, Hw2, Ht.
  - change (join (lit " ") (w :: w' :: ws))
      with (w ++ lit " " ++ join (lit " ") (w' :: ws)).
    change (glue_last tail (w :: w' :: ws))
      with (w :: glue_last tail (w' :: ws)).
    rewrite <- !app_assoc. change (lit " ") with [32%N]. simpl app at 2.
    rewrite split_app_space by reflexivity.
    rewrite split_word by assumption.
    simpl. f_equal. apply IH; [discriminate | assumption].
Qed.

Lemma glue_last_length tail ws : length (glue_last tail ws) = length ws.
Proof.
  induction ws as [|w [|w' ws] IH]; simpl in *; auto.
Qed.

Lemma split_join ws : Forall word ws -> split (join (lit " ") ws) = ws.
Proof.
  intros Hws. destruct ws as [|w ws]; [reflexivity|].
  rewrite <- (app_nil_r (join _ _)).
  rewrite split_join_glue by (auto; discriminate).
  clear. revert w. induction ws as [|w' ws IH]; intros w; simpl.
  - now rewrite app_nil_r.
  - f_equal. apply IH.
Qed.

(** [split] of a text joined by line feeds: the words of the parts. *)
Lemma split_join_newline parts :
  split (join newline parts) = flat_map split parts.
Proof.
  induction parts as [|p [|q parts] IH].
  - reflexivity.
  - simpl. now rewrite app_nil_r.
  - change (join newline (p :: q :: parts))
      with (p ++ 10%N :: join newline (q :: parts)).
    rewrite split_app_space by reflexivity.
    rewrite IH. reflexivity.
Qed.

Lemma lines_from_app_newline a :
  forall cur b,
    lines_from cur (a ++ 10%N :: b) = lines_from cur a ++ lines_from [] b.
Proof.
  induction a as [|x a IH]; intros cur b; simpl; auto.
  destruct (N.eqb x 10); [now rewrite IH | apply IH].
Qed.

Lemma lines_join_newline parts :
  parts <> [] -> lines (join newline parts) = flat_map lines parts.
Proof.
  induction parts as [|p [|q parts] IH]; intros Hne; [congruence| |].
  - simpl. now rewrite app_nil_r.
  - change (join newline (p :: q :: parts))
      with (p ++ 10%N :: join newline (q :: parts)).
    unfold lines at 1. rewrite lines_from_app_newline.
    fold (lines (join newline (q :: parts))). rewrite IH by discriminate.
    reflexivity.
Qed.

(** A text without line feed is one line. *)
Lemma lines_from_single s :
  forall cur,
    forallb (fun c => negb (N.eqb c 10)) s = true ->
    lines_from cur s = [cur ++ s].
Proof.
  induction s as [|c s IH]; intros cur H; simpl.
  - now rewrite app_nil_r.
  - simpl in H. apply andb_true_iff in H. destruct H as [Hc Hs].
    apply negb_true_iff in Hc. rewrite Hc, IH by assumption.
    now rewrite <- app_assoc.
Qed.

Lemma startswith_app p s : startswith p (p ++ s) = true.
Proof.
  induction p as [|c p IH]; simpl; auto.
  now rewrite N.eqb_refl, IH.
Qed.
End SplitFacts.

(** ** The truncator *)

Lemma Forall_firstn_of {A : Type} (P : A -> Prop) (n : nat) (l : list A) :
  Forall P l -> Forall P (firstn n l).
Proof.
  rewrite !Forall_forall. intros H x Hx. apply H.
  now apply firstn_incl in Hx.
Qed.

Lemma truncated_words (summary : pystr) :
  (word_limit < length (split summary))%nat ->
  split (_truncate_summary summary)
  = glue_last (lit "...") (firstn word_limit (split summary)).
Proof.
  intros Hlong. unfold _truncate_summary. cbv zeta.
  destruct (length (split summary) <=? word_limit)%nat eqn:E.
  - apply Nat.leb_le in E. lia.
  - apply split_join_glue.
    + apply Forall_firstn_of, split_words.
    + destruct (split summary); simpl in *; [lia | discriminate].
    + reflexivity.
Qed.

Lemma truncate_word_count (summary : pystr) :
  (length (split (_truncate_summary summary)) <= word_limit)%nat.
Proof.
  destruct (Nat.le_gt_cases (length (split summary)) word_limit) as [H|H].
  - unfold _truncate_summary. cbv zeta.
    apply Nat.leb_le in H. rewrite H. now apply Nat.leb_le.
  - rewrite truncated_words by assumption.
    rewrite glue_last_length. apply firstn_le_length.
Qed.

(** C8.  Word-count truncation.  A text of more than 300
    whitespace-separated words becomes its first 300 words joined by
    single spaces with ["..."] appended (which reads back as those 300
    words, the dots glued to the last one); any other text is returned
    unchanged.  Both the reply of the text generator and the fallback
    rendering are returned through the truncator, so a summary has at
    most 300 words. *)
Theorem C8_word_count_truncation :
  forall (rt : PyRuntime) (text : pystr) (reply : result pystr)
         (now : datetime) (market_data : list MarketData)
         (trends : list TrendData) (market : pystr) (region : MarketRegion)
         (timeframe : TimeFrame),
    let words := split text in
    let summary :=
      generate_summary reply now market_data trends market region timeframe in
    ((300 < length words)%nat ->
     _truncate_summary text = join (lit " ") (firstn 300 words) ++ lit "..."
     /\ split (join (lit " ") (firstn 300 words)) = firstn 300 words
     /\ split (_truncate_summary text)
        = glue_last (lit "...") (firstn 300 words)
     /\ length (split (_truncate_summary text)) = 300%nat)
    /\ ((length words <= 300)%nat -> _truncate_summary text = text)
    /\ (length (split (_truncate_summary text)) <= 300)%nat
    /\ (forall generated, reply = Return generated ->
                          summary = _truncate_summary generated)
    /\ (forall e, reply = Raise e ->
                  summary
                  = _truncate_summary
                      (full_summary now market_data trends market region
                                    timeframe))
    /\ (length (split summary) <= 300)%nat.
Proof.
  intros rt text reply now market_data trends market region timeframe words
         summary.
  split; [|split; [|split; [|split; [|split]]]].
  - intros Hlong.
    assert (E : _truncate_summary text
                = join (lit " ") (firstn 300 words) ++ lit "...").
    { unfold _truncate_summary. cbv zeta. fold words.
      destruct (length words <=? word_limit)%nat eqn:E; [|reflexivity].
      apply Nat.leb_le in E. unfold word_limit in E. lia. }
    split; [exact E|].
    split; [apply split_join, Forall_firstn_of, split_words|].
    pose proof (truncated_words text Hlong) as Hw. fold words in Hw.
    split; [exact Hw|].
    rewrite Hw, glue_last_length, length_firstn. unfold word_limit. lia.
  - intros Hshort. unfold _truncate_summary. cbv zeta. fold words.
    apply Nat.leb_le in Hshort. unfold word_limit. now rewrite Hshort.
  - apply truncate_word_count.
  - intros generated ->. reflexivity.
  - intros e ->. reflexivity.
  - subst summary. destruct reply; simpl; apply truncate_word_count.
Qed.

Lemma C8_word_count_truncation_witness :
  let long := join (lit " ") (repeat (lit "w") 301) in
  let short := lit "all good" in
  ((300 < length (split long))%nat
   /\ _truncate_summary long
      = join (lit " ") (firstn 300 (split long)) ++ lit "..."
   /\ length (split (_truncate_summary long)) = 300%nat)
  /\ ((length (split short) <= 300)%nat /\ _truncate_summary short = short)
  /\ @generate_summary ascii_runtime (Return long) 0%Z [] [] (lit "energy")
                       EU DAILY
     = _truncate_summary long
  /\ @generate_summary ascii_runtime (Raise (Exception (lit "timeout"))) 0%Z
                       [] [] (lit "energy") EU DAILY
     = _truncate_summary
         (@full_summary ascii_runtime 0%Z [] [] (lit "energy") EU DAILY).
Proof.
  intros long short.
  destruct (C8_word_count_truncation ascii_runtime long (Return long) 0%Z
                                     [] [] (lit "energy") EU DAILY)
    as (Hlong & _ & _ & Hreply & _ & _).
  destruct (C8_word_count_truncation ascii_runtime short
                                     (Raise (Exception (lit "timeout"))) 0%Z
                                     [] [] (lit "energy") EU DAILY)
    as (_ & Hshort & _ & _ & Hfallback & _).
  assert (H1 : (300 < length (split long))%nat)
    by (apply Nat.ltb_lt; vm_compute; reflexivity).
  assert (H2 : (length (split short) <= 300)%nat)
    by (apply Nat.leb_le; vm_compute; reflexivity).
  destruct (Hlong H1) as (E1 & _ & _ & E2).
  split; [split; [exact H1 | split; [exact E1 | exact E2]]|].
  split; [split; [exact H2 | exact (Hshort H2)]|].
  split; [exact (Hreply long eq_refl)|].
  exact (Hfallback (Exception (lit "timeout")) eq_refl).
Defined.

(** ** The fallback rendering and its time stamp *)

Section StampFacts.

Lemma digit_range (n : Z) : (48 <= digit n <= 57)%N.
Proof.
  unfold digit. pose proof (Z.mod_pos_bound n 10 eq_refl). lia.
Qed.

Lemma digit_plain (n : Z) :
  is_space (digit n) = false /\ N.eqb (digit n) 10 = false.
Proof.
  pose proof (digit_range n) as H.
  assert (E : exists k, (k < 10)%nat /\ digit n = (48 + N.of_nat k)%N).
  { exists (N.to_nat (digit n - 48)). split; lia. }
  destruct E as (k & Hk & ->).
  do 10 (destruct k as [|k]; [split; reflexivity|]). lia.
Qed.

(** The stamp is two words, a date and a time, on one line. *)
Lemma strftime_shape (now : datetime) :
  exists date time,
    strftime_ymd_hms now = date ++ 32%N :: time
    /\ word date /\ word time
    /\ forallb (fun c => negb (N.eqb c 10)) (strftime_ymd_hms now) = true.
Proof.
  unfold strftime_ymd_hms.
  destruct (civil_from_days (now / 1000000 / 86400)) as [[y m] d].
  cbv zeta. unfold pad4, pad2.
  change (lit "-") with [45%N]. change (lit ":") with [58%N].
  change (lit " ") with [32%N].
  cbn [app].
  match goal with
  | |- context [[?a; ?b; ?c; ?d; 45%N; ?e; ?f; 45%N; ?g; ?h; 32%N; ?i; ?j;
                 58%N; ?k; ?l; 58%N; ?o; ?p]] =>
      exists [a; b; c; d; 45%N; e; f; 45%N; g; h],
             [i; j; 58%N; k; l; 58%N; o; p]
  end.
  split; [reflexivity|].
  repeat split; try discriminate;
    cbn [nospace forallb];
    repeat match goal with
           | |- context [is_space (digit ?n)] =>
               rewrite (proj1 (digit_plain n))
           | |- context [N.eqb (digit ?n) 10] =>
               rewrite (proj2 (digit_plain n))
           end;
    reflexivity.
Qed.

Lemma footer_words (now : datetime) :
  exists date time,
    split (footer_prefix ++ strftime_ymd_hms now)
    = [lit "Analysis"; lit "completed"; lit "on"; date; time].
Proof.
  destruct (strftime_shape now) as (date & time & E & Hd & Ht & _).
  exists date, time. rewrite E.
  change (footer_prefix ++ date ++ 32%N :: time)
    with (lit "Analysis"
            ++ 32%N :: (lit "completed"
                          ++ 32%N :: (lit "on"
                                        ++ 32%N :: (date ++ 32%N :: time)))).
  rewrite !split_app_space by reflexivity.
  rewrite (split_word _ Hd), (split_word _ Ht).
  reflexivity.
Qed.

Lemma footer_line (now : datetime) :
  lines (footer_prefix ++ strftime_ymd_hms now)
  = [footer_prefix ++ strftime_ymd_hms now].
Proof.
  destruct (strftime_shape now) as (_ & _ & _ & _ & _ & H).
  unfold lines. rewrite lines_from_single; [reflexivity|].
  rewrite forallb_app, H. reflexivity.
Qed.
End StampFacts.

Lemma firstn_app_short {A : Type} (n : nat) (l1 l2 : list A) :
  (n <= length l1)%nat -> firstn n (l1 ++ l2) = firstn n l1.
Proof.
  intros H. rewrite firstn_app.
  replace (n - length l1)%nat with 0%nat by lia.
  simpl. apply app_nil_r.
Qed.

Section FallbackFacts.
Context {rt : PyRuntime}.
Variables (market_data : list MarketData) (trends : list TrendData)
          (market : pystr) (region : MarketRegion) (timeframe : TimeFrame).

Let body := body_parts market_data trends market region timeframe.
Let sources_line :=
  lit "Data sources: " ++ join (lit ", ") (set_iter (map source market_data)).
Let full now :=
  full_summary now market_data trends market region timeframe.
Let keep := fun line : pystr => negb (startswith footer_prefix line).

(** The words of the rendering: those of the body, the five of the
    time-stamp line, those of the sources line. *)
Lemma full_summary_words (now : datetime) :
  exists date time,
    split (full now)
    = (flat_map split body ++ [lit "Analysis"; lit "completed"; lit "on"])
        ++ [date; time] ++ split sources_line.
Proof.
  destruct (footer_words now) as (date & time & E).
  exists date, time.
  unfold full, full_summary, summary_parts, footer_parts.
  rewrite split_join_newline, flat_map_app. fold body. fold sources_line.
  cbn [flat_map]. rewrite E, app_nil_r.
  change (split []) with (@nil pystr).
  rewrite <- !app_assoc. reflexivity.
Qed.

Lemma full_summary_word_count (now : datetime) :
  length (split (full now))
  = (words_before_stamp market_data trends market region timeframe + 2
     + length (split sources_line))%nat.
Proof.
  destruct (full_summary_words now) as (date & time & ->).
  unfold words_before_stamp. fold body.
  rewrite !length_app. simpl. lia.
Qed.

(** The lines of the rendering, the time-stamp line left out. *)
Lemma full_summary_lines (now : datetime) :
  without_timestamp_line (full now)
  = filter keep (flat_map lines (body ++ [[]]))
      ++ filter keep (lines sources_line).
Proof.
  unfold without_timestamp_line, full, full_summary, summary_parts,
    footer_parts.
  fold body. fold sources_line. fold keep.
  rewrite lines_join_newline by (destruct body; discriminate).
  change [[]; footer_prefix ++ strftime_ymd_hms now; sources_line]
    with ([[]] ++ [footer_prefix ++ strftime_ymd_hms now] ++ [sources_line]).
  rewrite app_assoc, !flat_map_app, !filter_app.
  cbn [flat_map]. rewrite footer_line, !app_nil_r.
  cbn [filter app].
  assert (K : keep (footer_prefix ++ strftime_ymd_hms now) = false)
    by (unfold keep; now rewrite startswith_app).
  rewrite K. reflexivity.
Qed.

Lemma fallback_untruncated (now : datetime) :
  (length (split (full now)) <= 300)%nat ->
  _generate_fallback_summary now market_data trends market region timeframe
  = full now.
Proof.
  intros H. unfold _generate_fallback_summary, _truncate_summary.
  fold (full now). cbv zeta.
  apply Nat.leb_le in H. unfold word_limit. now rewrite H.
Qed.

(** With the stamp beyond the 300th word the output does not depend on
    the clock. *)
Lemma fallback_stamp_cut_off (now1 now2 : datetime) :
  (300 <= words_before_stamp market_data trends market region timeframe)%nat ->
  _generate_fallback_summary now1 market_data trends market region timeframe
  = _generate_fallback_summary now2 market_data trends market region
                               timeframe.
Proof.
  intros H. unfold _generate_fallback_summary, _truncate_summary.
  fold (full now1). fold (full now2). cbv zeta.
  pose proof (full_summary_word_count now1) as C1.
  pose proof (full_summary_word_count now2) as C2.
  destruct (full_summary_words now1) as (d1 & t1 & E1).
  destruct (full_summary_words now2) as (d2 & t2 & E2).
  assert (Hlen : (300 <= length (flat_map split body
                                   ++ [lit "Analysis"; lit "completed";
                                       lit "on"]))%nat).
  { unfold words_before_stamp in H. fold body in H.
    rewrite length_app. cbn [length]. lia. }
  destruct (length (split (full now1)) <=? word_limit)%nat eqn:L1;
    [apply Nat.leb_le in L1; unfold word_limit in L1; lia|].
  destruct (length (split (full now2)) <=? word_limit)%nat eqn:L2;
    [apply Nat.leb_le in L2; unfold word_limit in L2; lia|].
  rewrite E1, E2. unfold word_limit.
  rewrite (firstn_app_short 300 _ ([d1; t1] ++ split sources_line) Hlen).
  rewrite (firstn_app_short 300 _ ([d2; t2] ++ split sources_line) Hlen).
  reflexivity.
Qed.
End FallbackFacts.

(** A subject of 272 words, no trend, no data point: the rendering has
    301 words and is cut to one line of 300 words that holds the time
    stamp; one second later the output is another one. *)
Lemma C9_truncated_stamp_differs :
  let market := join (lit " ") (repeat (lit "a") 272) in
  let out1 :=
    @_generate_fallback_summary ascii_runtime 0%Z [] [] market US DAILY in
  let out2 :=
    @_generate_fallback_summary ascii_runtime 1000000%Z [] [] market US DAILY in
  lines out1 = [out1]
  /\ lines out2 = [out2]
  /\ contains (lit "Analysis completed on 1970-01-01 00:00:00 Data...") out1
     = true
  /\ contains (lit "Analysis completed on 1970-01-01 00:00:01 Data...") out2
     = true
  /\ without_timestamp_line out1 <> without_timestamp_line out2.
Proof.
  intros market out1 out2.
  split; [vm_compute; reflexivity|].
  split; [vm_compute; reflexivity|].
  split; [vm_compute; reflexivity|].
  split; [vm_compute; reflexivity|].
  intros H.
  assert (E : PyStr.eqb (concat (without_timestamp_line out1))
                        (concat (without_timestamp_line out2)) = true)
    by (rewrite H; apply pystr_eqb_refl).
  vm_compute in E. discriminate.
Qed.

(** C9 (amended).  Fallback determinism.  For fixed trends, data points,
    subject, region and timeframe, two runs of the fallback renderer
    that differ in the clock reading only render the same number of
    words.  When that number is at most 300, so that nothing is cut,
    the two outputs are identical once the time-stamp footer line is
    left out; when 300 words or more stand before the time stamp, the
    two (truncated) outputs are identical outright. *)
Theorem C9_fallback_determinism :
  forall (rt : PyRuntime) (now1 now2 : datetime)
         (market_data : list MarketData) (trends : list TrendData)
         (market : pystr) (region : MarketRegion) (timeframe : TimeFrame),
    let full now :=
      full_summary now market_data trends market region timeframe in
    let render now :=
      _generate_fallback_summary now market_data trends market region
                                 timeframe in
    length (split (full now1)) = length (split (full now2))
    /\ ((length (split (full now1)) <= 300)%nat ->
        without_timestamp_line (render now1)
        = without_timestamp_line (render now2))
    /\ ((300 <= words_before_stamp market_data trends market region
                                   timeframe)%nat ->
        render now1 = render now2).
Proof.
  intros rt now1 now2 market_data trends market region timeframe full render.
  assert (Hcount : length (split (full now1)) = length (split (full now2))).
  { subst full. cbv beta.
    rewrite (full_summary_word_count market_data trends market region
                                     timeframe now1).
    rewrite (full_summary_word_count market_data trends market region
                                     timeframe now2).
    reflexivity. }
  split; [exact Hcount|]. split.
  - intros H. subst render. cbv beta.
    rewrite (fallback_untruncated market_data trends market region timeframe
                                  now1 H).
    rewrite Hcount in H.
    rewrite (fallback_untruncated market_data trends market region timeframe
                                  now2 H).
    rewrite (full_summary_lines market_data trends market region timeframe
                                now1).
    rewrite (full_summary_lines market_data trends market region timeframe
                                now2).
    reflexivity.
  - intros H. subst render. cbv beta.
    exact (fallback_stamp_cut_off market_data trends market region timeframe
                                  now1 now2 H).
Qed.

(** The offline scenario (141 words, nothing cut), and a subject of 300
    words (the stamp is cut off). *)
Lemma C9_fallback_determinism_witness :
  let data :=
    collect_all_data (@offline_manager ascii_runtime 0%Z) (lit "technology")
                     US MONTHLY in
  let trends :=
    match @analyze_trends ascii_runtime data (lit "technology") US MONTHLY with
    | Return returned => returned
    | Raise _ => []
    end in
  let long_subject := join (lit " ") (repeat (lit "a") 300) in
  ((length (split (@full_summary ascii_runtime 0%Z data trends
                                 (lit "technology") US MONTHLY)) <= 300)%nat
   /\ without_timestamp_line
        (@_generate_fallback_summary ascii_runtime 0%Z data trends
                                     (lit "technology") US MONTHLY)
      = without_timestamp_line
          (@_generate_fallback_summary ascii_runtime 86400000000%Z data trends
                                       (lit "technology") US MONTHLY))
  /\ ((300 <= @words_before_stamp ascii_runtime [] [] long_subject US DAILY)%nat
      /\ @_generate_fallback_summary ascii_runtime 0%Z [] [] long_subject
                                     US DAILY
         = @_generate_fallback_summary ascii_runtime 86400000000%Z [] []
                                       long_subject US DAILY).
Proof.
  intros data trends long_subject.
  destruct (C9_fallback_determinism ascii_runtime 0%Z 86400000000%Z data trends
                                    (lit "technology") US MONTHLY)
    as (_ & Hshort & _).
  destruct (C9_fallback_determinism ascii_runtime 0%Z 86400000000%Z [] []
                                    long_subject US DAILY)
    as (_ & _ & Hcut).
  assert (H1 : (length (split (@full_summary ascii_runtime 0%Z data trends
                                             (lit "technology") US MONTHLY))
                <= 300)%nat)
    by (apply Nat.leb_le; vm_compute; reflexivity).
  assert (H2 : (300 <= @words_before_stamp ascii_runtime [] [] long_subject
                                           US DAILY)%nat)
    by (apply Nat.leb_le; vm_compute; reflexivity).
  split; [split; [exact H1 | exact (Hshort H1)]
         | split; [exact H2 | exact (Hcut H2)]].
Defined.

(* ================================================================== *)
(** * Part III: further properties of the code                         *)
(* ================================================================== *)

(** ** The job store: frames, order, expiry *)

Section MoreDictFacts.
Context {V : Type}.
Implicit Types (d : dict V) (k : pystr) (v : V).

Lemma dict_get_del_other k k' d :
  k' <> k -> dict_get k' (dict_del k d) = dict_get k' d.
Proof.
  intros Hne. induction d as [|[k0 v0] d IH]; simpl; auto.
  destruct (PyStr.eqb k k0) eqn:E.
  - apply pystr_eqb_eq in E. subst k0.
    apply pystr_eqb_neq in Hne. now rewrite Hne.
  - simpl. destruct (PyStr.eqb k' k0); auto.
Qed.

Lemma dict_set_keys k v d :
  dict_contains k d = true -> map fst (dict_set k v d) = map fst d.
Proof.
  unfold dict_contains.
  induction d as [|[k0 v0] d IH]; simpl; [discriminate|].
  destruct (PyStr.eqb k k0); simpl; auto.
  intros H. now rewrite IH.
Qed.

Lemma dict_set_length k v d : (length (dict_set k v d) <= S (length d))%nat.
Proof.
  induction d as [|[k0 v0] d IH]; simpl; auto.
  destruct (PyStr.eqb k k0); simpl; lia.
Qed.

Lemma dict_del_length k d :
  length (dict_del k d)
  = (length d - (if dict_contains k d then 1 else 0))%nat.
Proof.
  unfold dict_contains.
  induction d as [|[k0 v0] d IH]; simpl; auto.
  destruct (PyStr.eqb k k0); simpl; [lia|].
  rewrite IH. destruct (dict_get k d) eqn:E; [|lia].
  destruct d; [discriminate | simpl; lia].
Qed.

Lemma In_dict_get k v d :
  keys_distinct d = true -> In (k, v) d -> dict_get k d = Some v.
Proof.
  induction d as [|[k0 v0] d IH]; simpl; [intros _ []|].
  rewrite andb_true_iff, negb_true_iff, dict_contains_false_get.
  intros [Hfresh Hd] [H|H].
  - inversion H; subst. now rewrite pystr_eqb_refl.
  - destruct (PyStr.eqb k k0) eqn:E; auto.
    apply pystr_eqb_eq in E. subst k0.
    exfalso. exact (dict_get_none_notin _ _ Hfresh _ H).
Qed.

Lemma dict_get_In_key k v d : dict_get k d = Some v -> In (k, v) d.
Proof.
  induction d as [|[k0 v0] d IH]; simpl; [discriminate|].
  destruct (PyStr.eqb k k0) eqn:E; auto.
  apply pystr_eqb_eq in E. intros H. inversion H. subst. now left.
Qed.

Lemma filter_keys_distinct (p : pystr * V -> bool) d :
  keys_distinct d = true -> keys_distinct (filter p d) = true.
Proof.
  induction d as [|[k0 v0] d IH]; simpl; auto.
  rewrite andb_true_iff, negb_true_iff, dict_contains_false_get.
  intros [Hfresh Hd].
  destruct (p (k0, v0)); simpl; auto.
  rewrite andb_true_iff, negb_true_iff, dict_contains_false_get.
  split; auto.
  destruct (dict_get k0 (filter p d)) eqn:E; auto.
  apply dict_get_In_key, filter_In in E. destruct E as [E _].
  exfalso. exact (dict_get_none_notin _ _ Hfresh _ E).
Qed.

(** Looking a key up in a filtered dictionary. *)
Lemma dict_get_filter (p : pystr * V -> bool) k d :
  keys_distinct d = true ->
  dict_get k (filter p d)
  = match dict_get k d with
    | Some v => if p (k, v) then Some v else None
    | None => None
    end.
Proof.
  intros Hd.
  destruct (dict_get k d) as [v|] eqn:E.
  - apply dict_get_In_key in E.
    destruct (p (k, v)) eqn:Hp.
    + apply In_dict_get; [now apply filter_keys_distinct|].
      apply filter_In. auto.
    + destruct (dict_get k (filter p d)) as [v'|] eqn:E'; auto.
      apply dict_get_In_key, filter_In in E'. destruct E' as [E1 E2].
      pose proof (In_dict_get _ _ _ Hd E1) as H1.
      pose proof (In_dict_get _ _ _ Hd E) as H2.
      assert (v' = v) by congruence. subst v'. congruence.
  - destruct (dict_get k (filter p d)) as [v'|] eqn:E'; auto.
    apply dict_get_In_key, filter_In in E'. destruct E' as [E1 _].
    exfalso. exact (dict_get_none_notin _ _ E _ E1).
Qed.
End MoreDictFacts.

Lemma slice_to_all {A : Type} (n : Z) (l : list A) :
  (Z.of_nat (length l) <= n)%Z -> slice_to n l = l.
Proof.
  intros H. unfold slice_to.
  destruct (n <? 0)%Z eqn:E; [apply Z.ltb_lt in E; lia|].
  apply firstn_all2. lia.
Qed.

Lemma slice_to_sorted {A : Type} (R : A -> A -> Prop) (n : Z) (l : list A) :
  StronglySorted R l -> StronglySorted R (slice_to n l).
Proof.
  intros H. unfold slice_to.
  destruct (n <? 0)%Z; now apply strongly_sorted_firstn.
Qed.

Lemma created_leb_total (a b : AnalysisResult) :
  (created_at a <=? created_at b)%Z = true
  \/ (created_at b <=? created_at a)%Z = true.
Proof. rewrite !Z.leb_le. lia. Qed.

Lemma created_leb_trans (a b c : AnalysisResult) :
  (created_at a <=? created_at b)%Z = true ->
  (created_at b <=? created_at c)%Z = true ->
  (created_at a <=? created_at c)%Z = true.
Proof. rewrite !Z.leb_le. lia. Qed.

(** X1.  [list_analyses] returns the unexpired records, newest first,
    and leaves exactly them in the table: the output is in descending
    order of [created_at], holds stored unexpired records only, has
    [min(limit, number of unexpired records)] elements for a limit that
    is not negative, and is a rearrangement of all of them when the
    limit is at least their number. *)
Theorem list_analyses_newest_first :
  forall (s : InMemoryStorage) (now : datetime) (limit : Z),
    keys_distinct (_results s) = true ->
    let live := filter (unexpired s now) (_results s) in
    let out := fst (list_analyses s now limit) in
    _results (snd (list_analyses s now limit)) = live
    /\ StronglySorted (fun a b => (created_at b <= created_at a)%Z) out
    /\ (forall r, In r out -> In r (map snd live))
    /\ ((0 <= limit)%Z ->
        length out = Nat.min (Z.to_nat limit) (length live))
    /\ ((Z.of_nat (length live) <= limit)%Z ->
        Permutation out (map snd live)).
Proof.
  intros s now limit Hd live out.
  assert (Hc : _results (_cleanup_old_results s now) = live)
    by now apply cleanup_results.
  subst out. unfold list_analyses. cbn [fst snd]. rewrite Hc.
  unfold dict_values.
  set (sorted :=
         sorted_reverse (fun a b => (created_at a <=? created_at b)%Z)
                        (map snd live)).
  assert (Hperm : Permutation sorted (map snd live))
    by apply sorted_reverse_perm.
  assert (Hlen : length sorted = length live).
  { rewrite (Permutation_length Hperm). apply length_map. }
  split; [reflexivity|]. split; [|split; [|split]].
  - apply slice_to_sorted.
    eapply strongly_sorted_weaken;
      [|apply (sorted_reverse_sorted _ created_leb_total created_leb_trans)].
    intros a b H. now apply Z.leb_le.
  - intros r Hr. apply slice_to_incl in Hr.
    now apply (Permutation_in _ Hperm).
  - intros Hl. unfold slice_to.
    destruct (limit <? 0)%Z eqn:E; [apply Z.ltb_lt in E; lia|].
    now rewrite length_firstn, Hlen.
  - intros Hl. rewrite slice_to_all by lia. exact Hperm.
Qed.

Lemma list_analyses_newest_first_witness :
  let req := {| market := lit "energy"; region := EU;
                timeframe := DAILY; api_key := lit "k" |} in
  let s := create_many (init 1000 1)
             [ (0%Z, lit "job-0", req); (3600000001%Z, lit "job-1", req);
               (3600000002%Z, lit "job-2", req) ] in
  let now := 3600000003%Z in
  keys_distinct (_results s) = true
  /\ map id (fst (list_analyses s now 10%Z)) = [lit "job-2"; lit "job-1"]
  /\ StronglySorted (fun a b => (created_at b <= created_at a)%Z)
                    (fst (list_analyses s now 10%Z))
  /\ map fst (_results (snd (list_analyses s now 10%Z)))
     = [lit "job-1"; lit "job-2"].
Proof.
  intros req s now.
  assert (Hd : keys_distinct (_results s) = true) by reflexivity.
  destruct (list_analyses_newest_first s now 10%Z Hd) as (_ & Hs & _).
  split; [exact Hd|]. split; [reflexivity|].
  split; [exact Hs | reflexivity].
Defined.

(** X2.  [get_analysis] touches the one id it is asked for: every other
    binding is as before, the table is unchanged unless the record was
    found expired, what it returns is the stored, unexpired record, and
    asking again gives the same answer. *)
Theorem get_analysis_touches_one_id :
  forall (s : InMemoryStorage) (now : datetime) (k : pystr),
    keys_distinct (_results s) = true ->
    let answer := fst (get_analysis s now k) in
    let after := snd (get_analysis s now k) in
    (forall k', k' <> k ->
                dict_get k' (_results after) = dict_get k' (_results s))
    /\ (forall r, answer = Some r ->
                  dict_get k (_results s) = Some r
                  /\ _is_expired s now r = false
                  /\ after = s)
    /\ (dict_get k (_results s) = None -> answer = None /\ after = s)
    /\ (answer = None -> dict_get k (_results after) = None)
    /\ fst (get_analysis after now k) = answer.
Proof.
  intros s now k Hd answer after. subst answer after.
  unfold get_analysis.
  destruct (dict_get k (_results s)) as [r|] eqn:E.
  - destruct (_is_expired s now r) eqn:X; cbn [fst snd].
    + split; [|split; [|split; [|split]]].
      * intros k' Hne. now apply dict_get_del_other.
      * intros r' H. discriminate H.
      * intros H. discriminate H.
      * intros _. now apply dict_get_del_same.
      * cbn [_results with_results]. now rewrite dict_get_del_same.
    + split; [|split; [|split; [|split]]].
      * reflexivity.
      * intros r' H. inversion H. subst r'. auto.
      * intros H. discriminate H.
      * intros H. discriminate H.
      * rewrite E, X. reflexivity.
  - cbn [fst snd]. split; [|split; [|split; [|split]]].
    + reflexivity.
    + intros r' H. discriminate H.
    + auto.
    + auto.
    + now rewrite E.
Qed.

Lemma get_analysis_touches_one_id_witness :
  let req := {| market := lit "energy"; region := EU;
                timeframe := DAILY; api_key := lit "k" |} in
  let s := create_many (init 1000 1)
             [ (0%Z, lit "job-0", req); (3600000001%Z, lit "job-1", req) ] in
  let now := 3600000003%Z in
  keys_distinct (_results s) = true
  /\ fst (get_analysis s now (lit "job-0")) = None
  /\ dict_get (lit "job-1") (_results (snd (get_analysis s now (lit "job-0"))))
     = dict_get (lit "job-1") (_results s)
  /\ dict_get (lit "job-0") (_results (snd (get_analysis s now (lit "job-0"))))
     = None.
Proof.
  intros req s now.
  assert (Hd : keys_distinct (_results s) = true) by reflexivity.
  destruct (get_analysis_touches_one_id s now (lit "job-0") Hd)
    as (Hother & _ & _ & Hgone & _).
  split; [exact Hd|]. split; [reflexivity|].
  split; [apply Hother; discriminate | apply Hgone; reflexivity].
Defined.

(** X3.  [delete_analysis] reports whether the id was stored and removes
    exactly that binding: afterwards the id can be neither fetched,
    updated nor deleted a second time, every other binding is as before,
    and the table is one shorter if and only if the id was stored.
    Expiry plays no part: an expired record is deleted, and reported as
    deleted, like any other. *)
Theorem delete_analysis_removes_one_id :
  forall (s : InMemoryStorage) (k : pystr),
    keys_distinct (_results s) = true ->
    let after := snd (delete_analysis s k) in
    fst (delete_analysis s k) = dict_contains k (_results s)
    /\ dict_get k (_results after) = None
    /\ (forall now, get_analysis after now k = (None, after))
    /\ (forall now u, update_analysis after now k u = (false, after))
    /\ delete_analysis after k = (false, after)
    /\ (forall k', k' <> k ->
                   dict_get k' (_results after) = dict_get k' (_results s))
    /\ length (_results after)
       = (length (_results s)
          - (if dict_contains k (_results s) then 1 else 0))%nat.
Proof.
  intros s k Hd after.
  assert (Hgone : dict_get k (_results after) = None).
  { subst after. unfold delete_analysis.
    destruct (dict_contains k (_results s)) eqn:E; cbn [snd].
    - cbn [_results with_results]. now apply dict_get_del_same.
    - now apply dict_contains_false_get. }
  split; [|split; [exact Hgone|split; [|split; [|split; [|split]]]]].
  - unfold delete_analysis. now destruct (dict_contains k (_results s)).
  - intros now. unfold get_analysis. now rewrite Hgone.
  - intros now u. unfold update_analysis. now rewrite Hgone.
  - unfold delete_analysis at 1.
    apply dict_contains_false_get in Hgone. now rewrite Hgone.
  - intros k' Hne. subst after. unfold delete_analysis.
    destruct (dict_contains k (_results s)); cbn [snd]; auto.
    cbn [_results with_results]. now apply dict_get_del_other.
  - subst after. unfold delete_analysis.
    destruct (dict_contains k (_results s)) eqn:E; cbn [snd].
    + cbn [_results with_results]. rewrite dict_del_length. now rewrite E.
    + lia.
Qed.

Lemma delete_analysis_removes_one_id_witness :
  let req := {| market := lit "energy"; region := EU;
                timeframe := DAILY; api_key := lit "k" |} in
  let s := create_many (init 1000 1)
             [ (0%Z, lit "job-0", req); (1%Z, lit "job-1", req) ] in
  keys_distinct (_results s) = true
  /\ fst (delete_analysis s (lit "job-0")) = true
  /\ delete_analysis (snd (delete_analysis s (lit "job-0"))) (lit "job-0")
     = (false, snd (delete_analysis s (lit "job-0")))
  /\ length (_results (snd (delete_analysis s (lit "job-0")))) = 1%nat.
Proof.
  intros req s.
  assert (Hd : keys_distinct (_results s) = true) by reflexivity.
  destruct (delete_analysis_removes_one_id s (lit "job-0") Hd)
    as (Hfst & _ & _ & _ & Hagain & _ & Hlen).
  split; [exact Hd|]. split; [rewrite Hfst; reflexivity|].
  split; [exact Hagain | rewrite Hlen; reflexivity].
Defined.

(** X4.  [update_analysis] reports whether the id was stored and
    rewrites that one binding in place: the keys and their order are as
    before, every other binding is untouched, the settings are kept, and
    an unknown id leaves the store as it was. *)
Theorem update_analysis_frame :
  forall (s : InMemoryStorage) (now : datetime) (k : pystr) (u : Updates),
    let after := snd (update_analysis s now k u) in
    fst (update_analysis s now k u) = dict_contains k (_results s)
    /\ map fst (_results after) = map fst (_results s)
    /\ (forall k', k' <> k ->
                   dict_get k' (_results after) = dict_get k' (_results s))
    /\ max_results after = max_results s
    /\ ttl_hours after = ttl_hours s
    /\ (dict_contains k (_results s) = false -> after = s).
Proof.
  intros s now k u after. subst after.
  unfold update_analysis, dict_contains.
  destruct (dict_get k (_results s)) as [r|] eqn:E; cbn [fst snd].
  - cbn [_results with_results max_results ttl_hours].
    split; [reflexivity|]. split.
    { apply dict_set_keys. unfold dict_contains. now rewrite E. }
    split; [intros k' Hne; now apply dict_get_set_other|].
    split; [reflexivity|]. split; [reflexivity|]. intros H. discriminate H.
  - repeat split; auto.
Qed.

(** X5.  The completion stamp follows the [status] keyword of the call
    and nothing else. An update of a stored id always succeeds, whatever
    the record's status was; a call with [status="completed"] sets
    [completed_at] to the clock of that call, overriding both an earlier
    stamp and a [completed_at] keyword of the same call; any other call
    leaves [completed_at] as the keywords set it, so marking a completed
    record as failed keeps its completion time. *)
Theorem update_analysis_completion_stamp :
  forall (s : InMemoryStorage) (now : datetime) (k : pystr) (u : Updates)
         (r0 : AnalysisResult),
    dict_get k (_results s) = Some r0 ->
    exists r,
      update_analysis s now k u
      = (true, with_results s (dict_set k r (_results s)))
      /\ dict_get k (_results (snd (update_analysis s now k u))) = Some r
      /\ status r = get (u_status u) (status r0)
      /\ created_at r = get (u_created_at u) (created_at r0)
      /\ (u_status u = Some (lit "completed") -> completed_at r = Some now)
      /\ (u_status u <> Some (lit "completed") ->
          completed_at r = get (u_completed_at u) (completed_at r0)).
Proof.
  intros s now k u r0 H.
  unfold update_analysis. rewrite H. cbv zeta. cbn [snd].
  cbn [_results with_results].
  unfold is_str.
  destruct (u_status u) as [st|] eqn:Est.
  - destruct (PyStr.eqb st (lit "completed")) eqn:E.
    + apply pystr_eqb_eq in E. subst st.
      eexists. split; [reflexivity|].
      split; [apply dict_get_set_same|].
      cbn. rewrite Est. cbn.
      repeat split; auto; intros Hne; now elim Hne.
    + eexists. split; [reflexivity|].
      split; [apply dict_get_set_same|].
      cbn. rewrite Est. cbn. repeat split; auto.
      all: intros Hc; inversion Hc; subst st.
      all: now rewrite pystr_eqb_refl in E.
  - eexists. split; [reflexivity|].
    split; [apply dict_get_set_same|].
    cbn. rewrite Est. cbn.
    repeat split; auto; intros Hc; discriminate Hc.
Qed.

Lemma update_analysis_completion_stamp_witness :
  let req := {| market := lit "energy"; region := EU;
                timeframe := DAILY; api_key := lit "k" |} in
  let s0 := snd (create_analysis (init 1000 24) 0%Z (lit "job-0") req) in
  let done :=
    {| u_id := None; u_request := None; u_status := Some (lit "completed");
       u_created_at := None; u_completed_at := None; u_market_data := None;
       u_trends := None; u_summary := None; u_processing_time := None;
       u_error_message := None; u_other := [] |} in
  let fail :=
    {| u_id := None; u_request := None; u_status := Some (lit "failed");
       u_created_at := None; u_completed_at := None; u_market_data := None;
       u_trends := None; u_summary := None; u_processing_time := None;
       u_error_message := None; u_other := [] |} in
  let s1 := snd (update_analysis s0 5%Z (lit "job-0") done) in
  exists r1 r,
    dict_get (lit "job-0") (_results s1) = Some r1
    /\ dict_get (lit "job-0")
                (_results (snd (update_analysis s1 9%Z (lit "job-0") fail)))
       = Some r
    /\ status r = lit "failed"
    /\ completed_at r = Some 5%Z.
Proof.
  intros req s0 done fail s1.
  assert (H1 : dict_get (lit "job-0") (_results s1)
               = Some (stamp_completed 5%Z
                         (set_fields done (new_result 0%Z (lit "job-0") req))))
    by reflexivity.
  destruct (update_analysis_completion_stamp s1 9%Z (lit "job-0") fail _ H1)
    as (r & _ & Hget & Hst & _ & _ & Hkeep).
  exists (stamp_completed 5%Z
            (set_fields done (new_result 0%Z (lit "job-0") req))), r.
  split; [exact H1|]. split; [exact Hget|].
  split; [rewrite Hst; reflexivity|].
  rewrite Hkeep by discriminate. reflexivity.
Defined.


(** X7.  [create_analysis] returns the generated id, binds it to a fresh
    record in state "processing", and loses no live record: every
    unexpired record stored under another id is still stored afterwards,
    no binding under another id is invented or altered, and the table
    grows by at most one entry. A record stored under the generated id
    itself is overwritten. *)
Theorem create_analysis_keeps_live_records :
  forall (s : InMemoryStorage) (now : datetime) (uuid : pystr)
         (req : AnalysisRequest),
    keys_distinct (_results s) = true ->
    let after := snd (create_analysis s now uuid req) in
    fst (create_analysis s now uuid req) = uuid
    /\ dict_get uuid (_results after) = Some (new_result now uuid req)
    /\ (forall k r, k <> uuid ->
                    dict_get k (_results s) = Some r ->
                    _is_expired s now r = false ->
                    dict_get k (_results after) = Some r)
    /\ (forall k r, k <> uuid ->
                    dict_get k (_results after) = Some r ->
                    dict_get k (_results s) = Some r)
    /\ (length (_results after) <= S (length (_results s)))%nat.
Proof.
  intros s now uuid req Hd after. subst after.
  unfold create_analysis. cbv zeta. cbn [fst snd].
  destruct (Z.of_nat (length (_results s)) >=? max_results s)%Z.
  - cbn [_results with_results].
    rewrite (cleanup_results s now Hd).
    split; [reflexivity|]. split; [apply dict_get_set_same|].
    split; [|split].
    + intros k r Hne Hk Hlive.
      rewrite dict_get_set_other by assumption.
      rewrite dict_get_filter by assumption.
      rewrite Hk. cbn [snd]. now rewrite Hlive.
    + intros k r Hne. rewrite dict_get_set_other by assumption.
      rewrite dict_get_filter by assumption.
      destruct (dict_get k (_results s)) as [r'|]; [|discriminate].
      cbn [snd]. destruct (_is_expired s now r'); [discriminate|auto].
    + etransitivity; [apply dict_set_length|].
      apply le_n_S, filter_length_le.
  - cbn [_results with_results].
    split; [reflexivity|]. split; [apply dict_get_set_same|].
    split; [|split].
    + intros k r Hne Hk _. now rewrite dict_get_set_other.
    + intros k r Hne. now rewrite dict_get_set_other.
    + apply dict_set_length.
Qed.

Lemma create_analysis_keeps_live_records_witness :
  let req := {| market := lit "energy"; region := EU;
                timeframe := DAILY; api_key := lit "k" |} in
  let s := create_many (init 2 1)
             [ (0%Z, lit "job-0", req); (3600000001%Z, lit "job-1", req) ] in
  let now := 3600000002%Z in
  keys_distinct (_results s) = true
  /\ dict_get (lit "job-1")
              (_results (snd (create_analysis s now (lit "job-2") req)))
     = Some (new_result 3600000001%Z (lit "job-1") req)
  /\ dict_get (lit "job-0")
              (_results (snd (create_analysis s now (lit "job-2") req)))
     = None.
Proof.
  intros req s now.
  assert (Hd : keys_distinct (_results s) = true) by reflexivity.
  destruct (create_analysis_keeps_live_records s now (lit "job-2") req Hd)
    as (_ & _ & Hkeep & _ & _).
  split; [exact Hd|]. split; [|reflexivity].
  apply Hkeep; [discriminate | reflexivity | reflexivity].
Defined.

Lemma ids_match_filter (p : pystr * AnalysisResult -> bool) s :
  ids_match_keys s = true ->
  ids_match_keys (with_results s (filter p (_results s))) = true.
Proof.
  unfold ids_match_keys. cbn [_results with_results].
  rewrite !forallb_forall. intros H kv Hin.
  apply filter_In in Hin. now apply H.
Qed.

Lemma ids_match_del k s :
  ids_match_keys s = true ->
  ids_match_keys (with_results s (dict_del k (_results s))) = true.
Proof.
  unfold ids_match_keys. cbn [_results with_results].
  induction (_results s) as [|[k0 v0] d IH]; simpl; auto.
  rewrite andb_true_iff. intros [H1 H2].
  destruct (PyStr.eqb k k0); simpl; auto.
  now rewrite H1, IH.
Qed.

Lemma ids_match_set k r s :
  id r = k ->
  ids_match_keys s = true ->
  ids_match_keys (with_results s (dict_set k r (_results s))) = true.
Proof.
  unfold ids_match_keys. cbn [_results with_results]. intros Hid.
  induction (_results s) as [|[k0 v0] d IH]; simpl.
  - intros _. rewrite Hid, pystr_eqb_refl. reflexivity.
  - rewrite andb_true_iff. intros [H1 H2].
    destruct (PyStr.eqb k k0) eqn:E; simpl.
    + rewrite H2, andb_true_r. apply pystr_eqb_eq in E. subst k0.
      rewrite Hid. apply pystr_eqb_refl.
    + now rewrite H1, IH.
Qed.

(** X8.  The table maps every id to a record carrying that id, and the
    code keeps it so: the invariant holds for a new store and survives
    [create_analysis], [get_analysis], [delete_analysis],
    [list_analyses], and every [update_analysis] that passes no [id]
    keyword. The update is the one place where it can break. *)
Theorem ids_match_keys_invariant :
  forall (s : InMemoryStorage) (now : datetime) (k : pystr),
    keys_distinct (_results s) = true ->
    ids_match_keys s = true ->
    (forall req, ids_match_keys (snd (create_analysis s now k req)) = true)
    /\ ids_match_keys (snd (get_analysis s now k)) = true
    /\ ids_match_keys (snd (delete_analysis s k)) = true
    /\ (forall limit, ids_match_keys (snd (list_analyses s now limit)) = true)
    /\ (forall u, u_id u = None ->
                  ids_match_keys (snd (update_analysis s now k u)) = true).
Proof.
  intros s now k Hd Hi.
  assert (Hclean : ids_match_keys (_cleanup_old_results s now) = true).
  { pose proof (ids_match_filter (unexpired s now) s Hi) as H.
    unfold ids_match_keys in *. cbn [_results with_results] in H.
    now rewrite (cleanup_results s now Hd). }
  split; [|split; [|split; [|split]]].
  - intros req. unfold create_analysis. cbv zeta. cbn [snd].
    destruct (Z.of_nat (length (_results s)) >=? max_results s)%Z.
    + apply (ids_match_set k (new_result now k req)
                           (_cleanup_old_results s now)); auto.
    + apply (ids_match_set k (new_result now k req) s); auto.
  - unfold get_analysis.
    destruct (dict_get k (_results s)) as [r|]; auto.
    destruct (_is_expired s now r); cbn [snd]; auto.
    now apply ids_match_del.
  - unfold delete_analysis.
    destruct (dict_contains k (_results s)); cbn [snd]; auto.
    now apply ids_match_del.
  - intros limit. exact Hclean.
  - intros u Hu. unfold update_analysis.
    destruct (dict_get k (_results s)) as [r|] eqn:E; auto.
    cbv zeta. cbn [snd]. apply ids_match_set; auto.
    assert (Hr : id r = k).
    { apply dict_get_In_key in E. unfold ids_match_keys in Hi.
      rewrite forallb_forall in Hi. apply Hi in E. cbn [fst snd] in E.
      apply pystr_eqb_eq in E. auto. }
    destruct (is_str (u_status u) (lit "completed")); cbn [id stamp_completed];
      unfold set_fields; cbn [id]; rewrite Hu; exact Hr.
Qed.

Lemma ids_match_keys_invariant_witness :
  let req := {| market := lit "energy"; region := EU;
                timeframe := DAILY; api_key := lit "k" |} in
  let s := create_many (init 1000 24)
             [ (0%Z, lit "job-0", req); (1%Z, lit "job-1", req) ] in
  keys_distinct (_results s) = true
  /\ ids_match_keys s = true
  /\ ids_match_keys (snd (create_analysis s 2%Z (lit "job-1") req)) = true
  /\ ids_match_keys (snd (update_analysis s 2%Z (lit "job-1") no_updates))
     = true.
Proof.
  intros req s.
  assert (Hd : keys_distinct (_results s) = true) by reflexivity.
  assert (Hi : ids_match_keys s = true) by reflexivity.
  destruct (ids_match_keys_invariant s 2%Z (lit "job-1") Hd Hi)
    as (Hc & _ & _ & _ & Hu).
  split; [exact Hd|]. split; [exact Hi|].
  split; [apply Hc | apply Hu; reflexivity].
Defined.

(** X9.  Listing and fetching agree: every record that [list_analyses]
    returns can be fetched from the store it leaves behind, at the same
    clock reading, under the record's own [id], and the fetch returns
    that very record. *)
Theorem listed_records_can_be_fetched :
  forall (s : InMemoryStorage) (now : datetime) (limit : Z)
         (r : AnalysisResult),
    keys_distinct (_results s) = true ->
    ids_match_keys s = true ->
    In r (fst (list_analyses s now limit)) ->
    get_analysis (snd (list_analyses s now limit)) now (id r)
    = (Some r, snd (list_analyses s now limit)).
Proof.
  intros s now limit r Hd Hi Hin.
  unfold list_analyses in *. cbn [fst snd] in *.
  apply slice_to_incl, sorted_reverse_In in Hin.
  unfold dict_values in Hin. apply in_map_iff in Hin.
  destruct Hin as ([k r'] & Hr & Hin). cbn [snd] in Hr. subst r'.
  pose proof Hin as Hin'.
  rewrite (cleanup_results s now Hd) in Hin'.
  apply filter_In in Hin'. destruct Hin' as [Hs Hlive].
  cbn [snd] in Hlive. apply negb_true_iff in Hlive.
  assert (Hk : k = id r).
  { unfold ids_match_keys in Hi. rewrite forallb_forall in Hi.
    apply Hi in Hs. now apply pystr_eqb_eq in Hs. }
  subst k.
  assert (Hd' : keys_distinct (_results (_cleanup_old_results s now)) = true).
  { rewrite (cleanup_results s now Hd). now apply filter_keys_distinct. }
  unfold get_analysis.
  rewrite (In_dict_get _ _ _ Hd' Hin).
  assert (X : _is_expired (_cleanup_old_results s now) now r
              = _is_expired s now r) by reflexivity.
  now rewrite X, Hlive.
Qed.

Lemma listed_records_can_be_fetched_witness :
  let req := {| market := lit "energy"; region := EU;
                timeframe := DAILY; api_key := lit "k" |} in
  let s := create_many (init 1000 1)
             [ (0%Z, lit "job-0", req); (3600000001%Z, lit "job-1", req) ] in
  let now := 3600000003%Z in
  let r := new_result 3600000001%Z (lit "job-1") req in
  In r (fst (list_analyses s now 10%Z))
  /\ fst (get_analysis (snd (list_analyses s now 10%Z)) now (lit "job-1"))
     = Some r.
Proof.
  intros req s now r.
  assert (Hd : keys_distinct (_results s) = true) by reflexivity.
  assert (Hi : ids_match_keys s = true) by reflexivity.
  assert (Hin : In r (fst (list_analyses s now 10%Z))) by (left; reflexivity).
  split; [exact Hin|].
  change (lit "job-1") with (id r).
  now rewrite (listed_records_can_be_fetched s now 10%Z r Hd Hi Hin).
Defined.

(** ** The collectors *)

Lemma split_from_all_space (cur s : pystr) :
  forallb is_space s = true -> split_from cur s = flush cur.
Proof.
  revert cur. induction s as [|c s IH]; intros cur; simpl; auto.
  rewrite andb_true_iff. intros [Hc Hs]. rewrite Hc.
  rewrite (IH [] Hs). simpl. apply app_nil_r.
Qed.

Lemma split_from_nil (cur s : pystr) :
  split_from cur s = [] -> cur = [] /\ forallb is_space s = true.
Proof.
  revert cur. induction s as [|c s IH]; intros cur; simpl.
  - destruct cur; [auto | discriminate].
  - destruct (is_space c) eqn:Hc.
    + intros H. apply app_eq_nil in H. destruct H as [H1 H2].
      apply IH in H2. destruct H2 as [_ H2]. rewrite H2.
      destruct cur; [auto | discriminate].
    + intros H. apply IH in H. destruct H as [H _].
      destruct cur; discriminate.
Qed.

(** A text has no word exactly when all its characters are spaces. *)
Lemma split_nil_iff (s : pystr) :
  split s = [] <-> forallb is_space s = true.
Proof.
  unfold split. split.
  - intros H. now apply split_from_nil in H.
  - intros H. now rewrite split_from_all_space.
Qed.

Lemma lstrip_nil_iff (s : pystr) :
  lstrip s = [] <-> forallb is_space s = true.
Proof.
  induction s as [|c s IH]; simpl; [tauto|].
  destruct (is_space c); simpl; [exact IH|].
  split; discriminate.
Qed.

Lemma lstrip_all_space (s : pystr) :
  forallb is_space (lstrip s) = forallb is_space s.
Proof.
  induction s as [|c s IH]; simpl; auto.
  destruct (is_space c) eqn:Hc; simpl; auto.
  now rewrite Hc.
Qed.

Lemma forallb_rev {A : Type} (p : A -> bool) (l : list A) :
  forallb p (rev l) = forallb p l.
Proof.
  destruct (forallb p l) eqn:E.
  - rewrite forallb_forall in *. intros x Hx. apply E. now apply in_rev.
  - destruct (forallb p (rev l)) eqn:E'; auto.
    rewrite forallb_forall in E'.
    assert (H : forallb p l = true).
    { apply forallb_forall. intros x Hx. apply E'. now apply in_rev in Hx. }
    congruence.
Qed.

Lemma strip_nil_iff (s : pystr) :
  strip s = [] <-> forallb is_space s = true.
Proof.
  unfold strip, rstrip.
  rewrite <- (lstrip_all_space s), <- (forallb_rev is_space (lstrip s)).
  rewrite <- lstrip_nil_iff.
  split; intros H.
  - apply (f_equal (@rev N)) in H. now rewrite rev_involutive in H.
  - now rewrite H.
Qed.

Section SentimentFacts.
Context {rt : PyRuntime}.

Lemma keyword_balance (text_lower : pystr) :
  (- 9 <= Z.of_nat (length (filter (fun w => contains w text_lower)
                                   positive_words))
          - Z.of_nat (length (filter (fun w => contains w text_lower)
                                     negative_words))
   <= 9)%Z.
Proof.
  pose proof (filter_length_le (fun w => contains w text_lower)
                               positive_words) as Hp.
  pose proof (filter_length_le (fun w => contains w text_lower)
                               negative_words) as Hn.
  change (length positive_words) with 9%nat in Hp.
  change (length negative_words) with 9%nat in Hn.
  lia.
Qed.

Lemma analyze_sentiment_range (text : pystr) :
  - (9) <= _analyze_sentiment text <= 9.
Proof.
  unfold _analyze_sentiment. cbv zeta.
  pose proof (keyword_balance (str_lower text)) as Hd.
  set (d := (_ - _)%Z) in *.
  destruct (length (split text) =? 0)%nat eqn:E.
  - split; discriminate.
  - apply Nat.eqb_neq in E.
    assert (Hpos : 0 < inject_Z (Z.of_nat (length (split text)))).
    { change 0 with (inject_Z 0). rewrite <- Zlt_Qlt. lia. }
    split.
    + apply Qle_shift_div_l; [exact Hpos|].
      change (- (9)) with (inject_Z (-9)).
      rewrite <- inject_Z_mult, <- Zle_Qle. nia.
    + apply Qle_shift_div_r; [exact Hpos|].
      change 9 with (inject_Z 9).
      rewrite <- inject_Z_mult, <- Zle_Qle. nia.
Qed.
End SentimentFacts.


Lemma fold_plus_bounds (l : list Q) (a : Q) :
  Forall (fun x => - (9) <= x <= 9) l ->
  a - inject_Z (Z.of_nat (length l)) * 9
  <= fold_left Qplus l a
  <= a + inject_Z (Z.of_nat (length l)) * 9.
Proof.
  revert a. induction l as [|x l IH]; intros a H.
  - cbn [fold_left length Z.of_nat]. change (inject_Z 0) with 0.
    split; lra.
  - inversion H as [|x' l' Hx Hl]; subst.
    cbn [fold_left length].
    destruct (IH (a + x) Hl) as [H1 H2].
    rewrite Nat2Z.inj_succ. unfold Z.succ. rewrite inject_Z_plus.
    change (inject_Z 1) with 1.
    split; lra.
Qed.

Lemma average_bounds (scores : list Q) :
  Forall (fun x => - (9) <= x <= 9) scores ->
  - (9)
  <= (if nonempty scores
      then py_sum scores / inject_Z (Z.of_nat (length scores))
      else 0)
  <= 9.
Proof.
  intros H. destruct scores as [|x l] eqn:E; [split; discriminate|].
  rewrite <- E in *. cbn [nonempty]. replace (nonempty scores) with true
    by (subst; reflexivity).
  assert (Hpos : 0 < inject_Z (Z.of_nat (length scores))).
  { change 0 with (inject_Z 0). rewrite <- Zlt_Qlt. subst. simpl. lia. }
  destruct (fold_plus_bounds scores 0 H) as [H1 H2].
  unfold py_sum. split.
  - apply Qle_shift_div_l; [exact Hpos|]. lra.
  - apply Qle_shift_div_r; [exact Hpos|]. lra.
Qed.

Section ThemeFacts.
Context {V : Type}.
Implicit Types (d : dict V).

Lemma keys_distinct_NoDup d :
  keys_distinct d = true -> NoDup (map fst d).
Proof.
  induction d as [|[k v] d IH]; simpl; [constructor|].
  rewrite andb_true_iff, negb_true_iff, dict_contains_false_get.
  intros [Hfresh Hd]. constructor; auto.
  intros Hin. apply in_map_iff in Hin. destruct Hin as ([k' v'] & Hk & Hin).
  simpl in Hk. subst k'. exact (dict_get_none_notin _ _ Hfresh _ Hin).
Qed.

Lemma dict_set_key_in k v d k' :
  In k' (map fst (dict_set k v d)) -> k' = k \/ In k' (map fst d).
Proof.
  induction d as [|[k0 v0] d IH]; simpl.
  - intros [H|[]]; auto.
  - destruct (PyStr.eqb k k0) eqn:E; simpl.
    + apply pystr_eqb_eq in E. subst k0. tauto.
    + intros [H|H]; auto. apply IH in H. tauto.
Qed.

Lemma dict_set_keeps_keys k v d k' :
  In k' (map fst d) -> In k' (map fst (dict_set k v d)).
Proof.
  induction d as [|[k0 v0] d IH]; simpl; [intros []|].
  destruct (PyStr.eqb k k0) eqn:E; simpl.
  - apply pystr_eqb_eq in E. subst k0. tauto.
  - intros [H|H]; auto.
Qed.

Lemma dict_set_has_key k v d : In k (map fst (dict_set k v d)).
Proof.
  induction d as [|[k0 v0] d IH]; simpl; auto.
  destruct (PyStr.eqb k k0) eqn:E; simpl; auto.
  apply pystr_eqb_eq in E. subst k0. auto.
Qed.
End ThemeFacts.

Lemma NoDup_firstn {A : Type} (n : nat) (l : list A) :
  NoDup l -> NoDup (firstn n l).
Proof.
  revert n. induction l as [|x l IH]; intros [|n] H; simpl;
    try constructor.
  - inversion H; subst. intros Hin. now apply firstn_incl in Hin.
  - inversion H; subst. now apply IH.
Qed.

Section NewsFacts.
Context {rt : PyRuntime}.

Lemma count_themes_from (key_themes : list pystr) (d0 : dict Z) :
  let counted :=
    fold_left
      (fun theme_counts theme =>
         dict_set theme (get (dict_get theme theme_counts) 0 + 1)%Z
                  theme_counts)
      key_themes d0 in
  (keys_distinct d0 = true -> keys_distinct counted = true)
  /\ (forall t, In t (map fst counted)
                <-> In t (map fst d0) \/ In t key_themes).
Proof.
  revert d0. induction key_themes as [|k ks IH]; intros d0; cbn [fold_left].
  - split; auto. intros t. simpl. tauto.
  - cbv zeta in IH.
    destruct (IH (dict_set k (get (dict_get k d0) 0 + 1)%Z d0)) as [H1 H2].
    split.
    + intros Hd. apply H1. now apply dict_set_distinct.
    + intros t. rewrite H2. simpl. split.
      * intros [H|H]; auto. apply dict_set_key_in in H.
        destruct H as [->|H]; auto.
      * intros [H|[->|H]]; auto.
        -- left. now apply dict_set_keeps_keys.
        -- left. apply dict_set_has_key.
Qed.

Lemma extracted_theme_is_named (text t : pystr) :
  In t (_extract_themes text) -> In t (map fst theme_keywords).
Proof.
  unfold _extract_themes. intros H. apply in_map_iff in H.
  destruct H as (e & <- & H). apply filter_In in H.
  apply in_map. tauto.
Qed.

End NewsFacts.

(** X11.  [_process_news_data] on the articles of a reply: one data
    point of source "Financial News" whose volume is the number of
    articles, whose average sentiment lies between -9 and 9, and whose
    themes are exactly the themes some article mentions, each once.
    There are five theme names, so the cut to the five most frequent
    themes never drops one. Without articles the average is 0 and there
    are no themes. *)
Theorem process_news_data_statistics :
  forall (rt : PyRuntime) (now : datetime) (articles : list Article)
         (market : pystr),
    exists pd avg themes,
      _process_news_data now articles market
      = [ {| source := lit "Financial News"; data_type := lit "market_data";
             timestamp := now; processed_data := pd |} ]
      /\ news_volume pd = Some (Z.of_nat (length articles))
      /\ avg_sentiment pd = Some avg
      /\ top_themes pd = Some themes
      /\ - (9) <= avg <= 9
      /\ (articles = [] -> avg = 0 /\ themes = [])
      /\ NoDup themes
      /\ (length themes <= 5)%nat
      /\ (forall t,
             In t themes
             <-> exists a, In a articles
                           /\ In t (_extract_themes (article_text a))).
Proof.
  intros rt now articles market.
  unfold _process_news_data, news_processed, _create_market_data. cbv zeta.
  set (key_themes := flat_map _ articles).
  set (counts := count_themes key_themes).
  set (sorted := sorted_reverse _ counts).
  destruct (count_themes_from key_themes []) as [Hd Hk].
  cbv zeta in Hd, Hk. fold (count_themes key_themes) in Hd, Hk.
  fold counts in Hd, Hk. specialize (Hd eq_refl).
  assert (Hperm : Permutation (map fst sorted) (map fst counts)).
  { apply Permutation_map. apply sorted_reverse_perm. }
  assert (Hnd : NoDup (map fst sorted)).
  { apply (Permutation_NoDup (Permutation_sym Hperm)).
    now apply keys_distinct_NoDup. }
  assert (Hnamed : incl (map fst sorted) (map fst theme_keywords)).
  { intros t Ht. apply (Permutation_in _ Hperm) in Ht. apply Hk in Ht.
    destruct Ht as [[]|Ht]. subst key_themes. apply in_flat_map in Ht.
    destruct Ht as (a & _ & Ht). now apply extracted_theme_is_named in Ht. }
  assert (Hlen : (length sorted <= 5)%nat).
  { rewrite <- (length_map fst sorted).
    apply (NoDup_incl_length Hnd Hnamed). }
  assert (Hall : firstn 5 sorted = sorted) by now apply firstn_all2.
  eexists. eexists. eexists.
  split; [reflexivity|]. cbn [news_volume avg_sentiment top_themes].
  split; [reflexivity|]. split; [reflexivity|]. split; [reflexivity|].
  rewrite Hall.
  split; [|split; [|split; [|split]]].
  - apply average_bounds. apply Forall_forall. intros x Hx.
    apply in_map_iff in Hx. destruct Hx as (a & <- & _).
    apply analyze_sentiment_range.
  - intros ->. split; reflexivity.
  - exact Hnd.
  - now rewrite length_map.
  - intros t. split.
    + intros Ht. apply (Permutation_in _ Hperm) in Ht. apply Hk in Ht.
      destruct Ht as [[]|Ht]. subst key_themes.
      now apply in_flat_map in Ht.
    + intros Ht. apply (Permutation_in _ (Permutation_sym Hperm)).
      apply Hk. right. subst key_themes. now apply in_flat_map.
Qed.

Lemma Qltb_ge (x y : Q) : Qltb x y = false <-> y <= x.
Proof.
  unfold Qltb. rewrite negb_false_iff. apply Qle_bool_iff.
Qed.

Ltac order_facts :=
  repeat match goal with
         | H : Qltb _ _ = true |- _ => apply Qltb_lt in H
         | H : Qltb _ _ = false |- _ => apply Qltb_ge in H
         end.

(** X12.  The news collector and the sentiment rule together. The
    collector labels an average above 0.1 "positive" and one below -0.1
    "negative"; the rule asks for the label and for an average beyond
    0.2. On collected news the label test adds nothing: a sentiment
    trend is emitted exactly when the average is beyond 0.2 in either
    direction, so news labelled "positive" with an average of at most
    0.2 yield none; and the volume trend is emitted exactly when there
    are more than 50 articles. *)
Theorem collected_news_sentiment_trends :
  forall (rt : PyRuntime) (now : datetime) (articles : list Article)
         (market : pystr) (data : MarketData),
    In data (_process_news_data now articles market) ->
    let avg := get (avg_sentiment (processed_data data)) 0 in
    map trend_name (sentiment_rules data)
    = (if Qltb (2 # 10) avg then [lit "Positive Market Sentiment"]
       else if Qltb avg (- (2 # 10)) then [lit "Negative Market Sentiment"]
            else [])
      ++ (if (50 <? length articles)%nat then [lit "High News Volume"]
          else []).
Proof.
  intros rt now articles market data [<-|[]] avg. subst avg.
  unfold _process_news_data, _create_market_data, news_processed. cbv zeta.
  set (average := if nonempty _ then _ else 0).
  set (themes := map fst _).
  unfold sentiment_rules.
  cbn [source processed_data sentiment_trend avg_sentiment news_volume
       top_themes has get].
  rewrite pystr_eqb_refl. cbn [andb]. cbv zeta.
  rewrite map_app. f_equal.
  - destruct (Qltb (2 # 10) average) eqn:E2;
      destruct (Qltb (1 # 10) average) eqn:E1;
      destruct (Qltb average (- (1 # 10))) eqn:E3;
      destruct (Qltb average (- (2 # 10))) eqn:E4;
      try reflexivity; exfalso; order_facts; lra.
  - destruct (Nat.ltb_spec 50 (length articles)) as [H|H].
    + replace (Z.of_nat (length articles) >? 50)%Z with true; [reflexivity|].
      symmetry. rewrite Z.gtb_ltb. apply Z.ltb_lt. lia.
    + replace (Z.of_nat (length articles) >? 50)%Z with false; [reflexivity|].
      symmetry. rewrite Z.gtb_ltb. apply Z.ltb_ge. lia.
Qed.

Lemma collected_news_sentiment_trends_witness :
  let article :=
    {| art_title := lit "Strong growth"; art_description := lit "profit up" |} in
  let data :=
    @_create_market_data (lit "Financial News") 0%Z
      (@news_processed AsciiRuntime.ascii_runtime [article]) in
  In data (@_process_news_data AsciiRuntime.ascii_runtime 0%Z [article]
                               (lit "energy"))
  /\ map trend_name (@sentiment_rules AsciiRuntime.ascii_runtime data)
     = [lit "Positive Market Sentiment"].
Proof.
  intros article data.
  assert (Hin : In data (@_process_news_data AsciiRuntime.ascii_runtime 0%Z
                                             [article] (lit "energy")))
    by (left; reflexivity).
  split; [exact Hin|].
  rewrite (collected_news_sentiment_trends AsciiRuntime.ascii_runtime 0%Z
             [article] (lit "energy") data Hin).
  reflexivity.
Defined.

(** ** The time series statistics *)

Lemma returns_from_none (previous : Q) (rest : list Q) :
  returns_from previous rest = None
  <-> existsb is_zero (removelast (previous :: rest)) = true.
Proof.
  revert previous. induction rest as [|p rest IH]; intros previous.
  - simpl. split; discriminate.
  - change (removelast (previous :: p :: rest))
      with (previous :: removelast (p :: rest)).
    cbn [returns_from existsb]. unfold is_zero at 1.
    destruct (Qeq_bool previous 0); [simpl; tauto|].
    rewrite orb_false_l, <- IH.
    destruct (returns_from p rest); split; congruence.
Qed.

(** X13.  [_get_timeseries_data] gives no data point exactly when the
    reply holds no price or holds a price equal to zero: the first
    lookup fails on an empty list, and a zero among the prices is a
    divisor either of the overall change (the last price) or of a return
    (any other price). A single price that is not zero gives a data
    point. *)
Theorem timeseries_dropped_iff :
  forall (std : list Q -> Q) (prices : list Q),
    timeseries_processed std prices = None
    <-> prices = [] \/ existsb is_zero prices = true.
Proof.
  intros std [|first rest].
  - simpl. split; auto.
  - unfold timeseries_processed. cbv zeta.
    set (prices := first :: rest).
    assert (Hsplit : prices = removelast prices ++ [last prices first])
      by (apply app_removelast_last; discriminate).
    assert (Hex : existsb is_zero prices
                  = existsb is_zero (removelast prices)
                    || Qeq_bool (last prices first) 0).
    { rewrite Hsplit at 1. rewrite existsb_app. simpl.
      now rewrite orb_false_r. }
    rewrite Hex.
    destruct (Qeq_bool (last prices first) 0) eqn:Ez.
    + rewrite orb_true_r. split; auto.
    + rewrite orb_false_r. unfold _calculate_volatility.
      destruct rest as [|p rest].
      * simpl. split; [discriminate|]. intros [H|H]; discriminate.
      * change (length prices <? 2)%nat with false. cbv iota.
        subst prices. cbv iota.
        pose proof (returns_from_none first (p :: rest)) as Hr.
        destruct (returns_from first (p :: rest)).
        -- split; [discriminate|]. intros [H|H]; [discriminate|].
           apply Hr in H. discriminate.
        -- split; auto. intros _. right. now apply Hr.
Qed.

(** X14.  What [_get_timeseries_data] computes when it gives a data
    point: the change is [(first - last) / last * 100] with a last price
    that is not zero, the point count is the number of prices, and the
    label is "up" exactly when the first price of the reply exceeds the
    last and "down" otherwise, a flat series included. For a positive
    last price the label agrees with the sign of the change: "up"
    exactly when the change is positive. One price alone gives "down", a
    change of zero and a volatility of zero. *)
Theorem timeseries_direction :
  forall (std : list Q -> Q) (prices : list Q) (pd : ProcessedData),
    timeseries_processed std prices = Some pd ->
    exists first final change,
      hd_error prices = Some first
      /\ final = last prices first
      /\ ~ final == 0
      /\ price_change_percent pd = Some change
      /\ change = (first - final) / final * 100
      /\ data_points pd = Some (Z.of_nat (length prices))
      /\ (price_trend pd = Some (lit "up") <-> final < first)
      /\ (price_trend pd = Some (lit "down") <-> first <= final)
      /\ (0 < final -> (price_trend pd = Some (lit "up") <-> 0 < change))
      /\ (length prices = 1%nat ->
          price_trend pd = Some (lit "down")
          /\ change == 0
          /\ volatility pd = Some 0).
Proof.
  intros std [|first rest] pd; [discriminate|].
  unfold timeseries_processed. cbv zeta.
  set (prices := first :: rest).
  set (final := last prices first).
  destruct (Qeq_bool final 0) eqn:Ez; [discriminate|].
  destruct (_calculate_volatility std prices) as [vol|] eqn:Ev;
    [|discriminate].
  intros H. inversion H; subst pd; clear H.
  exists first, final, ((first - final) / final * 100).
  cbn [price_change_percent data_points price_trend volatility].
  assert (Hnz : ~ final == 0).
  { intros Hf. apply Qeq_bool_iff in Hf. congruence. }
  assert (Hup : (if Qltb final first then lit "up" else lit "down") = lit "up"
                <-> final < first).
  { destruct (Qltb final first) eqn:E; order_facts.
    - tauto.
    - split; [discriminate|]. intros Hlt. exfalso.
      exact (Qlt_not_le _ _ Hlt E). }
  assert (Hdown :
            (if Qltb final first then lit "up" else lit "down") = lit "down"
            <-> first <= final).
  { destruct (Qltb final first) eqn:E; order_facts.
    - split; [discriminate|]. intros Hle. exfalso.
      exact (Qlt_not_le _ _ E Hle).
    - tauto. }
  split; [reflexivity|]. split; [reflexivity|]. split; [exact Hnz|].
  split; [reflexivity|]. split; [reflexivity|]. split; [reflexivity|].
  split; [|split; [|split]].
  - split; intros H.
    + apply Hup. congruence.
    + f_equal. now apply Hup.
  - split; intros H.
    + apply Hdown. congruence.
    + f_equal. now apply Hdown.
  - intros Hpos. split; intros H.
    + assert (Hlt : final < first) by (apply Hup; congruence).
      assert (Hq : 0 < (first - final) / final).
      { apply Qlt_shift_div_l; [exact Hpos|]. lra. }
      lra.
    + f_equal. apply Hup.
      destruct (Qlt_le_dec final first) as [Hlt|Hle]; auto.
      exfalso.
      assert (Hq : (first - final) / final <= 0).
      { apply Qle_shift_div_r; [exact Hpos|]. lra. }
      lra.
  - intros Hlen. destruct rest; [|discriminate].
    subst final prices. cbn [last] in *.
    split; [|split].
    + f_equal. apply Hdown. apply Qle_refl.
    + assert (E0 : first - first == 0) by ring.
      rewrite E0. unfold Qdiv. rewrite Qmult_0_l. reflexivity.
    + unfold _calculate_volatility in Ev. cbn in Ev. congruence.
Qed.

Lemma timeseries_direction_witness :
  let std := fun _ : list Q => 1 # 100 in
  let prices := [ 152 # 1; 151 # 1; 150 # 1 ] in
  exists pd,
    timeseries_processed std prices = Some pd
    /\ price_trend pd = Some (lit "up")
    /\ data_points pd = Some 3%Z.
Proof.
  intros std prices.
  destruct (timeseries_processed std prices) as [pd|] eqn:E;
    [|discriminate E].
  destruct (timeseries_direction std prices pd E)
    as (first & final & change & Hfirst & Hfinal & _ & _ & _ & Hn & Hup & _).
  exists pd. split; [reflexivity|]. split; [|exact Hn].
  apply Hup. subst final. inversion Hfirst. reflexivity.
Defined.

(** ** The registered collectors *)

Section RegisteredFacts.
Context {rt : PyRuntime}.

Lemma alpha_vantage_returns key up now market region timeframe :
  exists data,
    alpha_vantage_collect_data key up now market region timeframe
    = Returned data
    /\ (length data <= 2)%nat
    /\ Forall (fun d => source d = lit "Alpha Vantage") data.
Proof.
  unfold alpha_vantage_collect_data, alpha_vantage_mock.
  destruct (no_key key).
  { eexists. split; [reflexivity|]. split; [simpl; lia|].
    repeat constructor. }
  destruct (client_raises up).
  { eexists. split; [reflexivity|]. split; [simpl; lia|].
    repeat constructor. }
  cbv zeta. eexists. split; [reflexivity|].
  destruct (overview_reply up) as [reply|];
    (destruct (closes_reply up) as [prices|];
     [destruct (timeseries_processed (series_std up) prices)|]);
    cbn [option_map option_list app length];
    (split; [lia | repeat constructor]).
Qed.

Lemma news_returns key up now market region timeframe :
  exists news,
    news_collect_data key up now market region timeframe = Returned [news]
    /\ source news = lit "Financial News".
Proof.
  unfold news_collect_data, news_mock, _process_news_data.
  destruct (no_key key); [eexists; split; reflexivity|].
  destruct (news_reply up) as [|[|] articles];
    eexists; split; reflexivity.
Qed.
End RegisteredFacts.

Lemma registered_collection_nonempty (rt : PyRuntime)
      (settings : Config.Settings) (up : Upstream) (now : datetime)
      (market : pystr) (region : MarketRegion) (timeframe : TimeFrame) :
  collect_all_data (registered_manager settings up now) market region timeframe
  <> []
  /\ (2 <= length (collect_all_data (registered_manager settings up now)
                                    market region timeframe) <= 4)%nat.
Proof.
  destruct (alpha_vantage_returns (Config.alpha_vantage_api_key settings)
                                  up now market region timeframe)
    as (prices & Ha & Hlen & _).
  destruct (news_returns (Config.news_api_key settings)
                         up now market region timeframe)
    as (news & Hn & _).
  unfold collect_all_data, gather, registered_manager. cbn [collectors map].
  rewrite Ha, Hn. unfold economic_collect_data, economic_indicators, flatten.
  cbn [fold_left app]. rewrite <- !app_assoc.
  split.
  - intros H. apply app_eq_nil in H. destruct H as [_ H]. discriminate H.
  - rewrite length_app. cbn [length app]. lia.
Qed.

(** X15.  The three collectors that [DataCollectorManager] registers
    never raise, whatever the network does: each one falls back to its
    fixed data or returns what it has. So [collect_all_data] of that
    manager is never empty: it holds at most two Alpha Vantage points,
    then exactly one news point, then exactly one economic point, two to
    four points in all, in that order. Without the two API keys the
    result is that of the fixed data alone, whatever the network holds. *)
Theorem registered_collectors_always_deliver :
  forall (rt : PyRuntime) (settings : Config.Settings) (up : Upstream)
         (now : datetime) (market : pystr) (region : MarketRegion)
         (timeframe : TimeFrame),
    let manager := registered_manager settings up now in
    (exists prices news economy,
        gather manager market region timeframe
        = [Returned prices; Returned [news]; Returned [economy]]
        /\ collect_all_data manager market region timeframe
           = prices ++ [news; economy]
        /\ (length prices <= 2)%nat
        /\ Forall (fun d => source d = lit "Alpha Vantage") prices
        /\ source news = lit "Financial News"
        /\ source economy = lit "Economic Indicators")
    /\ (2 <= length (collect_all_data manager market region timeframe) <= 4)%nat
    /\ (no_key (Config.alpha_vantage_api_key settings) = true ->
        no_key (Config.news_api_key settings) = true ->
        gather manager market region timeframe
        = gather (offline_manager now) market region timeframe).
Proof.
  intros rt settings up now market region timeframe manager.
  destruct (alpha_vantage_returns (Config.alpha_vantage_api_key settings)
                                  up now market region timeframe)
    as (prices & Ha & Hlen & Hsrc).
  destruct (news_returns (Config.news_api_key settings)
                         up now market region timeframe)
    as (news & Hn & Hns).
  assert (Hg : gather manager market region timeframe
               = [Returned prices; Returned [news];
                  Returned [_create_market_data (lit "Economic Indicators")
                                                now processed_economic]]).
  { subst manager. unfold gather, registered_manager. cbn [collectors map].
    now rewrite Ha, Hn. }
  assert (Hc : collect_all_data manager market region timeframe
               = prices ++ [news;
                            _create_market_data (lit "Economic Indicators")
                                                now processed_economic]).
  { unfold collect_all_data. rewrite Hg. unfold flatten.
    cbn [fold_left app]. now rewrite <- !app_assoc. }
  split; [|split].
  - exists prices, news,
      (_create_market_data (lit "Economic Indicators") now processed_economic).
    repeat split; auto.
  - rewrite Hc, length_app. cbn [length]. lia.
  - intros Hk1 Hk2. subst manager.
    unfold gather, registered_manager, offline_manager. cbn [collectors map].
    unfold alpha_vantage_collect_data, news_collect_data.
    now rewrite Hk1, Hk2.
Qed.

(** With the registered collectors the sector data is the Alpha
    Vantage overview, received or fixed; the fixed one carries the P/E
    ratio "25.5". *)
Lemma registered_pe_overflows (rt : PyRuntime) (settings : Config.Settings)
      (up : Upstream) (now : datetime) (market : pystr)
      (region : MarketRegion) (timeframe : TimeFrame) :
  pe_overflows (collect_all_data (registered_manager settings up now)
                                 market region timeframe)
  = live_pe_overflows settings up.
Proof.
  unfold live_pe_overflows, collect_all_data, gather, registered_manager.
  cbn [collectors map].
  unfold alpha_vantage_collect_data, news_collect_data, economic_collect_data,
    alpha_vantage_mock, news_mock, economic_indicators, _process_news_data.
  destruct (no_key (Config.alpha_vantage_api_key settings));
    [destruct (no_key (Config.news_api_key settings));
     [|destruct (news_reply up) as [|[|] articles]]; reflexivity|].
  destruct (client_raises up);
    [destruct (no_key (Config.news_api_key settings));
     [|destruct (news_reply up) as [|[|] articles]]; reflexivity|].
  cbv zeta. cbn [negb andb].
  destruct (overview_reply up) as [[[cap pe] sec]|];
    (destruct (closes_reply up) as [prices|];
     [destruct (timeseries_processed (series_std up) prices) as [series|]
        eqn:Es|]);
    (destruct (no_key (Config.news_api_key settings));
     [|destruct (news_reply up) as [|[|] articles]]);
    try (destruct pe; reflexivity);
    try reflexivity;
    unfold timeseries_processed in Es;
    (destruct prices as [|first rest]; [discriminate Es|]);
    cbv zeta in Es;
    (destruct (Qeq_bool (last (first :: rest) first) 0); [discriminate Es|]);
    (destruct (_calculate_volatility (series_std up) (first :: rest));
     [|discriminate Es]);
    inversion Es; reflexivity.
Qed.

(** What a background run over the registered collectors leaves in the
    record of its job. *)
Lemma registered_run_record :
  forall (rt : PyRuntime) (settings : Config.Settings) (up : Upstream)
         (now : datetime) (run : Run) (storage : InMemoryStorage)
         (analysis_id market : pystr) (region : MarketRegion)
         (timeframe : TimeFrame) (r0 : AnalysisResult),
    dict_get analysis_id
             (_results (before_last_update run storage analysis_id))
    = Some r0 ->
    let manager := registered_manager settings up now in
    let collected := collect_all_data manager market region timeframe in
    exists r,
      dict_get analysis_id
               (_results (perform_analysis manager run storage analysis_id
                                           market region timeframe))
      = Some r
      /\ processing_time r = Some (end_time run - start_time run)
      /\ created_at r = created_at r0
      /\ request r = request r0
      /\ id r = id r0
      /\ (2 <= length collected <= 4)%nat
      /\ (live_pe_overflows settings up = false ->
          exists found,
            analyze_trends collected market region timeframe = Return found
            /\ status r = lit "completed"
            /\ completed_at r = Some (last_update_now run)
            /\ market_data r = collected
            /\ trends r = found
            /\ (1 <= length found <= 5)%nat
            /\ summary r
               = Some (generate_summary (reply run) (summary_now run)
                                        collected found market region
                                        timeframe)
            /\ error_message r = error_message r0)
      /\ (live_pe_overflows settings up = true ->
          analyze_trends collected market region timeframe
          = Raise overflow_error
          /\ status r = lit "failed"
          /\ error_message r
             = Some (lit "int too large to convert to float")
          /\ completed_at r = completed_at r0
          /\ market_data r = market_data r0
          /\ trends r = trends r0
          /\ summary r = summary r0).
Proof.
  intros rt settings up now run storage analysis_id market region timeframe
         r0 Hget manager collected.
  destruct (registered_collection_nonempty rt settings up now market
              region timeframe) as [Hne Hlen].
  fold manager in Hne, Hlen. fold collected in Hne, Hlen.
  pose proof (registered_pe_overflows rt settings up now market region
                                      timeframe) as Hlive.
  fold manager in Hlive. fold collected in Hlive.
  pose proof (analyze_trends_outcome collected market region timeframe)
    as Hout.
  rewrite Hlive in Hout.
  unfold perform_analysis, pipeline. cbv zeta. fold manager. fold collected.
  clearbody collected. clear Hlive.
  rewrite (nonempty_of_not_nil Hne). cbn [bind].
  destruct (live_pe_overflows settings up).
  - rewrite Hout. cbn [bind].
    eexists. split.
    { apply (update_analysis_get _ (last_update_now run) analysis_id _ _
                                 Hget). }
    cbn. repeat split; auto; try lia; try discriminate.
  - destruct Hout as (emitted & Hem & Hout).
    pose proof (analyze_trends_nonempty _ _ _ _ _ Hout) as Htr.
    pose proof (rank_length emitted) as Htl.
    rewrite Hout. cbn [bind].
    remember (rank emitted) as found eqn:Ef.
    rewrite (nonempty_of_not_nil Htr). cbn [bind].
    remember (generate_summary (reply run) (summary_now run) collected found
                               market region timeframe) as text eqn:Et.
    eexists. split.
    { apply (update_analysis_get _ (last_update_now run) analysis_id _ _
                                 Hget). }
    cbn. repeat split; auto; try lia; try discriminate.
    intros _. exists found. repeat split; auto; try lia; try congruence.
    destruct found; [congruence | simpl; lia].
Qed.

(** X16.  A background run over the registered collectors completes
    unless the derivation raises, which happens in one case only: the
    Alpha Vantage collector has a key and a working client and the
    overview it receives carries an integer P/E ratio too large for
    [float].  For a job whose record is in the store at the last update
    the record ends, in that case, with status "failed", the error
    message "int too large to convert to float" and its previous data,
    trends, summary and completion time; in every other case with
    status "completed", the completion time of that update, the two to
    four collected data points, the one to five trends of
    [analyze_trends] on them, the summary of [generate_summary] and its
    previous error message.  The processing time is recorded in both
    cases. *)
Theorem registered_run_outcome :
  forall (rt : PyRuntime) (settings : Config.Settings) (up : Upstream)
         (now : datetime) (run : Run) (storage : InMemoryStorage)
         (analysis_id market : pystr) (region : MarketRegion)
         (timeframe : TimeFrame) (r0 : AnalysisResult),
    dict_get analysis_id
             (_results (before_last_update run storage analysis_id))
    = Some r0 ->
    let manager := registered_manager settings up now in
    let collected := collect_all_data manager market region timeframe in
    exists r,
      dict_get analysis_id
               (_results (perform_analysis manager run storage analysis_id
                                           market region timeframe))
      = Some r
      /\ processing_time r = Some (end_time run - start_time run)
      /\ (2 <= length collected <= 4)%nat
      /\ (live_pe_overflows settings up = false ->
          exists found,
            analyze_trends collected market region timeframe = Return found
            /\ status r = lit "completed"
            /\ completed_at r = Some (last_update_now run)
            /\ market_data r = collected
            /\ trends r = found
            /\ (1 <= length found <= 5)%nat
            /\ summary r
               = Some (generate_summary (reply run) (summary_now run)
                                        collected found market region
                                        timeframe)
            /\ error_message r = error_message r0)
      /\ (live_pe_overflows settings up = true ->
          analyze_trends collected market region timeframe
          = Raise overflow_error
          /\ status r = lit "failed"
          /\ error_message r
             = Some (lit "int too large to convert to float")
          /\ completed_at r = completed_at r0
          /\ market_data r = market_data r0
          /\ trends r = trends r0
          /\ summary r = summary r0).
Proof.
  intros rt settings up now run storage analysis_id market region timeframe
         r0 Hget manager collected.
  destruct (registered_run_record rt settings up now run storage analysis_id
              market region timeframe r0 Hget)
    as (r & H1 & H2 & _ & _ & _ & H3 & H4 & H5).
  exists r. split; [exact H1|]. split; [exact H2|]. split; [exact H3|].
  split; [exact H4 | exact H5].
Qed.

Lemma registered_run_outcome_witness :
  let settings :=
    {| Config.api_key := lit "k";
       Config.alpha_vantage_api_key := Some (lit "a");
       Config.news_api_key := Some (lit "n") |} in
  let up (pe : pyval) :=
    {| client_raises := false;
       overview_reply := Some (VStr (lit "1B"), pe, VStr (lit "Energy"));
       closes_reply := Some [ 152 # 1; 0; 150 # 1 ];
       series_std := fun _ => 1 # 100;
       news_reply := NewsRaised |} in
  let run :=
    {| start_time := 100; end_time := 103 # 1;
       first_update_now := 10%Z; last_update_now := 20%Z;
       meanwhile := fun table => table;
       reply := Raise (Exception (lit "rate limit")); summary_now := 15%Z |} in
  let req := {| market := lit "energy"; region := EU;
                timeframe := DAILY; api_key := lit "k" |} in
  let storage := snd (create_analysis (init 1000 24) 5%Z (lit "job-0") req) in
  let final (pe : pyval) :=
    @perform_analysis AsciiRuntime.ascii_runtime
      (registered_manager settings (up pe) 7%Z) run storage
      (lit "job-0") (lit "energy") EU DAILY in
  dict_get (lit "job-0")
           (_results (before_last_update run storage (lit "job-0")))
  = Some (new_result 5%Z (lit "job-0") req)
  /\ (exists r,
         dict_get (lit "job-0") (_results (final (VInt 12))) = Some r
         /\ status r = lit "completed"
         /\ map trend_name (trends r)
            = [ lit "Volatile Market Conditions";
                lit "Energy Transition Impact";
                lit "Positive Market Sentiment";
                lit "Mixed Economic Signals";
                lit "Undervalued Sector Opportunity" ])
  /\ (exists r,
         dict_get (lit "job-0") (_results (final (VInt (10 ^ 400)))) = Some r
         /\ status r = lit "failed"
         /\ error_message r = Some (lit "int too large to convert to float")).
Proof.
  intros settings up run req storage final.
  assert (Hget : dict_get (lit "job-0")
                   (_results (before_last_update run storage (lit "job-0")))
                 = Some (new_result 5%Z (lit "job-0") req)) by reflexivity.
  split; [exact Hget|]. split.
  - destruct (registered_run_outcome AsciiRuntime.ascii_runtime settings
                (up (VInt 12)) 7%Z run storage (lit "job-0") (lit "energy")
                EU DAILY _ Hget)
      as (r & Hr & _ & _ & Hok & _).
    destruct (Hok eq_refl) as (found & Hfound & Hst & _ & _ & Htr & _).
    exists r. split; [exact Hr|]. split; [exact Hst|].
    rewrite Htr.
    assert (Hc : @analyze_trends AsciiRuntime.ascii_runtime
                   (collect_all_data (registered_manager settings
                                        (up (VInt 12)) 7%Z)
                                     (lit "energy") EU DAILY)
                   (lit "energy") EU DAILY
                 = Return found) by exact Hfound.
    vm_compute in Hc. inversion Hc. reflexivity.
  - destruct (registered_run_outcome AsciiRuntime.ascii_runtime settings
                (up (VInt (10 ^ 400))) 7%Z run storage (lit "job-0")
                (lit "energy") EU DAILY _ Hget)
      as (r & Hr & _ & _ & _ & Hfail).
    assert (Hlive : live_pe_overflows settings (up (VInt (10 ^ 400))) = true)
      by (vm_compute; reflexivity).
    destruct (Hfail Hlive) as (_ & Hst & Herr & _).
    exists r. split; [exact Hr|]. split; [exact Hst | exact Herr].
Defined.

(** ** The trends *)

Section TrendShapeFacts.
Context {rt : PyRuntime}.

Ltac emitted_cases :=
  repeat match goal with
         | |- context [if ?c then _ else _] => destruct c
         | |- context [match ?c with Some _ => _ | None => _ end] =>
             destruct c
         end.

Ltac one_of_them :=
  intros H; simpl in H;
  repeat match goal with
         | H : _ \/ _ |- _ => destruct H as [H|H]
         | H : False |- _ => destruct H
         end;
  subst; (split; [reflexivity | simpl; lia]).

Lemma price_rules_well_formed data t :
  In t (price_rules data) -> well_formed t.
Proof. unfold price_rules. cbv zeta. emitted_cases; one_of_them. Qed.

Lemma sentiment_rules_well_formed data t :
  In t (sentiment_rules data) -> well_formed t.
Proof. unfold sentiment_rules. cbv zeta. emitted_cases; one_of_them. Qed.

Lemma economic_rules_well_formed data t :
  In t (economic_rules data) -> well_formed t.
Proof. unfold economic_rules. cbv zeta. emitted_cases; one_of_them. Qed.

Lemma valuation_rule_well_formed market sector_data valuation t :
  valuation_rule market sector_data = Return valuation ->
  In t valuation -> well_formed t.
Proof.
  unfold valuation_rule. cbv zeta.
  destruct (truthy _); [|intros H; inversion H; intros []].
  destruct (py_float _) as [pe_value| |];
    [|intros H; inversion H; intros []|discriminate].
  destruct (Qltb 30 pe_value).
  - intros H. inversion H. intros [<-|[]]. split; [reflexivity|simpl; lia].
  - destruct (Qltb pe_value 15); [|intros H; inversion H; intros []].
    intros H. inversion H. intros [<-|[]]. split; [reflexivity|simpl; lia].
Qed.

Lemma market_specific_trend_well_formed market market_data :
  well_formed (_get_market_specific_trend market market_data).
Proof.
  unfold _get_market_specific_trend. cbv zeta.
  emitted_cases; (split; [reflexivity | simpl; lia]).
Qed.

Lemma all_trends_well_formed market_data market emitted t :
  all_trends market_data market = Return emitted ->
  In t emitted -> well_formed t.
Proof.
  intros Hem. apply all_trends_shape in Hem.
  destruct Hem as (valuation & -> & Hv).
  unfold _analyze_price_trends, _analyze_sentiment_trends,
    _analyze_economic_trends.
  rewrite !in_app_iff, !in_flat_map.
  intros [(d & _ & H)|[(d & _ & H)|[(d & _ & H)|[H|[<-|[]]]]]].
  - now apply price_rules_well_formed in H.
  - now apply sentiment_rules_well_formed in H.
  - now apply economic_rules_well_formed in H.
  - destruct (find _ market_data); [|subst valuation; destruct H].
    exact (valuation_rule_well_formed _ _ _ _ Hv H).
  - apply market_specific_trend_well_formed.
Qed.
End TrendShapeFacts.

Lemma impact_groups_partition (trends : list TrendData) :
  Forall well_formed trends ->
  (length (filter (has_impact (lit "positive")) trends)
   + length (filter (has_impact (lit "negative")) trends)
   + length (filter (has_impact (lit "neutral")) trends)
   = length trends)%nat.
Proof.
  induction 1 as [|t trends [Hi _] _ IH]; [reflexivity|].
  cbn [filter].
  assert (Hcases :
            (has_impact (lit "positive") t = true
             /\ has_impact (lit "negative") t = false
             /\ has_impact (lit "neutral") t = false)
            \/ (has_impact (lit "positive") t = false
                /\ has_impact (lit "negative") t = true
                /\ has_impact (lit "neutral") t = false)
            \/ (has_impact (lit "positive") t = false
                /\ has_impact (lit "negative") t = false
                /\ has_impact (lit "neutral") t = true)).
  { unfold has_impact. unfold is_impact, member in Hi. cbn [existsb] in Hi.
    destruct (PyStr.eqb (impact t) (lit "positive")) eqn:E1.
    - apply pystr_eqb_eq in E1. rewrite E1. left. repeat split.
    - destruct (PyStr.eqb (impact t) (lit "negative")) eqn:E2.
      + apply pystr_eqb_eq in E2. rewrite E2. right. left. repeat split.
      + destruct (PyStr.eqb (impact t) (lit "neutral"));
          [right; right; repeat split | discriminate Hi]. }
  destruct Hcases as [(H1 & H2 & H3)|[(H1 & H2 & H3)|(H1 & H2 & H3)]];
    rewrite H1, H2, H3; cbn [length]; revert IH;
    generalize (length (filter (has_impact (lit "positive")) trends)) as a;
    generalize (length (filter (has_impact (lit "negative")) trends)) as b;
    generalize (length (filter (has_impact (lit "neutral")) trends)) as c;
    generalize (length trends) as n; clear; intros; lia.
Qed.

(** X17.  Every trend a rule builds carries one of the three impact
    values and two or three supporting facts: the trends of the price,
    sentiment and economic rules on any data point, what the valuation
    rule returns, the keyword trend, and so every trend of the emitted
    list and every trend [analyze_trends] returns.  Hence the three
    groups the fallback summary forms by impact account for every
    returned trend: their sizes add up to the number of trends. *)
Theorem emitted_trends_well_formed :
  forall (rt : PyRuntime) (market_data : list MarketData) (market : pystr)
         (region : MarketRegion) (timeframe : TimeFrame),
    (forall data t,
        In t (price_rules data) \/ In t (sentiment_rules data)
        \/ In t (economic_rules data) ->
        well_formed t)
    /\ (forall sector_data valuation t,
           valuation_rule market sector_data = Return valuation ->
           In t valuation -> well_formed t)
    /\ well_formed (_get_market_specific_trend market market_data)
    /\ (forall emitted,
           all_trends market_data market = Return emitted ->
           Forall well_formed emitted)
    /\ (forall out,
           analyze_trends market_data market region timeframe = Return out ->
           Forall well_formed out
           /\ (length (filter (has_impact (lit "positive")) out)
               + length (filter (has_impact (lit "negative")) out)
               + length (filter (has_impact (lit "neutral")) out)
               = length out)%nat).
Proof.
  intros rt market_data market region timeframe.
  split; [|split; [|split; [|split]]].
  - intros data t [H|[H|H]].
    + now apply price_rules_well_formed in H.
    + now apply sentiment_rules_well_formed in H.
    + now apply economic_rules_well_formed in H.
  - intros sector_data valuation t. apply valuation_rule_well_formed.
  - apply market_specific_trend_well_formed.
  - intros emitted Hem. apply Forall_forall. intros t.
    exact (all_trends_well_formed _ _ _ t Hem).
  - intros out Hout.
    destruct (analyze_trends_returns _ _ _ _ _ Hout) as (emitted & Hem & ->).
    assert (Hwf : Forall well_formed (rank emitted)).
    { apply Forall_forall. intros t Ht. apply rank_In in Ht.
      destruct Ht as [Ht _]. exact (all_trends_well_formed _ _ _ _ Hem Ht). }
    split; [exact Hwf|]. now apply impact_groups_partition.
Qed.

Lemma strongly_sorted_across {A : Type} (R : A -> A -> Prop)
      (l1 l2 : list A) (a b : A) :
  StronglySorted R (l1 ++ l2) -> In a l1 -> In b l2 -> R a b.
Proof.
  intros Hs Ha Hb. apply in_split in Ha. destruct Ha as (p & q & ->).
  rewrite <- app_assoc in Hs. cbn [app] in Hs.
  apply strongly_sorted_after in Hs.
  rewrite Forall_forall in Hs. apply Hs. apply in_or_app. now right.
Qed.

(** X18.  What the ranking drops.  The list [analyze_trends] returns
    has as many trends as pass the 0.3 threshold, up to five.  When at
    most five pass, the output is a rearrangement of exactly those.  A
    passing trend is left out only when five others are returned, each
    of a confidence at least as high. *)
Theorem ranking_drops_only_the_weakest :
  forall (rt : PyRuntime) (market_data : list MarketData) (market : pystr)
         (region : MarketRegion) (timeframe : TimeFrame)
         (out : list TrendData),
    analyze_trends market_data market region timeframe = Return out ->
    exists emitted,
      all_trends market_data market = Return emitted
      /\ let passing :=
           filter (fun trend => Qle_bool min_confidence_threshold
                                         (confidence trend))
                  emitted in
         length out = Nat.min 5 (length passing)
         /\ ((length passing <= 5)%nat -> Permutation out passing)
         /\ (forall t,
                In t passing -> ~ In t out ->
                length out = 5%nat
                /\ Forall (fun kept => confidence t <= confidence kept) out).
Proof.
  intros rt market_data market region timeframe out Hout.
  destruct (analyze_trends_returns _ _ _ _ _ Hout) as (emitted & Hem & ->).
  exists emitted. split; [exact Hem|]. intros passing.
  unfold rank. cbv zeta. fold passing.
  set (sorted := sorted_reverse confidence_leb passing).
  assert (Hperm : Permutation sorted passing) by apply sorted_reverse_perm.
  assert (Hlen : length sorted = length passing)
    by apply (Permutation_length Hperm).
  assert (Hsorted : StronglySorted (fun a b => confidence b <= confidence a)
                                   sorted).
  { eapply strongly_sorted_weaken;
      [|apply (sorted_reverse_sorted confidence_leb confidence_leb_total
                                     confidence_leb_trans)].
    intros a b H. now apply Qle_bool_iff. }
  unfold max_trends.
  split; [|split].
  - now rewrite length_firstn, Hlen.
  - intros H. rewrite firstn_all2 by lia. exact Hperm.
  - intros t Ht Hnot.
    apply (Permutation_in _ (Permutation_sym Hperm)) in Ht.
    rewrite <- (firstn_skipn 5 sorted) in Ht, Hsorted.
    apply in_app_or in Ht. destruct Ht as [Ht|Ht]; [contradiction|].
    assert (Hmore : (5 < length sorted)%nat).
    { destruct (le_lt_dec (length sorted) 5) as [Hle|Hlt]; auto.
      rewrite (skipn_all2 sorted Hle) in Ht. destruct Ht. }
    split.
    + rewrite length_firstn. lia.
    + apply Forall_forall. intros kept Hk.
      exact (strongly_sorted_across _ _ _ kept t Hsorted Hk Ht).
Qed.

Lemma ranking_drops_only_the_weakest_witness :
  let data :=
    collect_all_data (@offline_manager ascii_runtime 0%Z) (lit "technology")
                     US MONTHLY in
  exists out emitted,
    @analyze_trends ascii_runtime data (lit "technology") US MONTHLY
    = Return out
    /\ @all_trends ascii_runtime data (lit "technology") = Return emitted
    /\ length emitted = 5%nat
    /\ length out = 4%nat.
Proof.
  intros data.
  destruct (@analyze_trends ascii_runtime data (lit "technology") US MONTHLY)
    as [out|e] eqn:Hout; [|vm_compute in Hout; discriminate Hout].
  destruct (ranking_drops_only_the_weakest ascii_runtime data
              (lit "technology") US MONTHLY out Hout)
    as (emitted & Hem & Hlen & _).
  exists out, emitted. split; [reflexivity|]. split; [exact Hem|].
  assert (He : length emitted = 5%nat).
  { vm_compute in Hem. inversion Hem. reflexivity. }
  split; [exact He|].
  rewrite Hlen. vm_compute in Hem. inversion Hem. reflexivity.
Defined.

Section TrendCountFacts.
Context {rt : PyRuntime}.







End TrendCountFacts.


(** X20.  The two scoring helpers of the analyzer. With a data quality
    between 0 and 1, [_calculate_trend_confidence] stays between 0 and
    0.9; it is [0.2 * n * quality] for up to four supporting facts and
    [0.9 * quality] from five on, so it does not fall when a fact is
    added. [_get_trend_impact] answers one of the three impact values,
    and "positive" only for a magnitude above zero. *)
Theorem trend_scoring_helpers :
  forall (supporting_data : list pystr) (data_quality : Q)
         (trend_type : pystr) (magnitude : Q),
    0 <= data_quality -> data_quality <= 1 ->
    let n := inject_Z (Z.of_nat (length supporting_data)) in
    0 <= _calculate_trend_confidence supporting_data data_quality <= 9 # 10
    /\ ((length supporting_data <= 4)%nat ->
        _calculate_trend_confidence supporting_data data_quality
        == n * (2 # 10) * data_quality)
    /\ ((5 <= length supporting_data)%nat ->
        _calculate_trend_confidence supporting_data data_quality
        == (9 # 10) * data_quality)
    /\ (forall fact,
           _calculate_trend_confidence supporting_data data_quality
           <= _calculate_trend_confidence (fact :: supporting_data)
                                          data_quality)
    /\ is_impact (_get_trend_impact trend_type magnitude) = true
    /\ (_get_trend_impact trend_type magnitude = lit "positive" ->
        0 < magnitude).
Proof.
  intros supporting_data data_quality trend_type magnitude Hq0 Hq1 n.
  assert (Hn : 0 <= n).
  { subst n. change 0 with (inject_Z 0). rewrite <- Zle_Qle. lia. }
  assert (Hmin : forall m : Q,
             0 <= m ->
             0 <= py_min (9 # 10) (m * (2 # 10)) <= 9 # 10).
  { intros m Hm. split; [|apply py_min_le_l].
    apply py_min_glb; [discriminate | lra]. }
  unfold _calculate_trend_confidence. cbv zeta. fold n.
  split; [|split; [|split; [|split; [|split]]]].
  - destruct (Hmin n Hn) as [H1 H2].
    set (base := py_min (9 # 10) (n * (2 # 10))) in *. split; nra.
  - intros Hlen. unfold py_min.
    assert (Hle : n <= 4).
    { subst n. change 4 with (inject_Z 4). rewrite <- Zle_Qle. lia. }
    destruct (Qltb (n * (2 # 10)) (9 # 10)) eqn:E; order_facts;
      [reflexivity | exfalso; lra].
  - intros Hlen. unfold py_min.
    assert (Hge : 5 <= n).
    { subst n. change 5 with (inject_Z 5). rewrite <- Zle_Qle. lia. }
    destruct (Qltb (n * (2 # 10)) (9 # 10)) eqn:E; order_facts;
      [exfalso; lra | reflexivity].
  - intros fact. cbn [length]. rewrite Nat2Z.inj_succ. unfold Z.succ.
    rewrite inject_Z_plus. fold n. change (inject_Z 1) with 1.
    apply Qmult_le_compat_r; [|exact Hq0].
    unfold py_min.
    destruct (Qltb (n * (2 # 10)) (9 # 10)) eqn:E1;
      destruct (Qltb ((n + 1) * (2 # 10)) (9 # 10)) eqn:E2;
      order_facts; lra.
  - unfold _get_trend_impact.
    repeat match goal with
           | |- context [if ?c then _ else _] => destruct c
           end; reflexivity.
  - unfold _get_trend_impact.
    destruct (member trend_type _).
    + destruct (Qltb 0 magnitude) eqn:E; [order_facts; auto | discriminate].
    + destruct (member trend_type _); discriminate.
Qed.

Lemma trend_scoring_helpers_witness :
  _calculate_trend_confidence [lit "a"; lit "b"; lit "c"] (1 # 2) == 3 # 10
  /\ _calculate_trend_confidence
       [lit "a"; lit "b"; lit "c"; lit "d"; lit "e"; lit "f"] (1 # 2)
     == 45 # 100.
Proof.
  assert (H0 : 0 <= 1 # 2) by discriminate.
  assert (H1 : 1 # 2 <= 1) by discriminate.
  split.
  - destruct (trend_scoring_helpers [lit "a"; lit "b"; lit "c"] (1 # 2)
                                    (lit "volatility") 0 H0 H1)
      as (_ & Hfew & _).
    rewrite Hfew by (simpl; lia). reflexivity.
  - destruct (trend_scoring_helpers
                [lit "a"; lit "b"; lit "c"; lit "d"; lit "e"; lit "f"]
                (1 # 2) (lit "volatility") 0 H0 H1)
      as (_ & _ & Hmany & _).
    rewrite Hmany by (simpl; lia). reflexivity.
Defined.

(** ** The truncation *)

Lemma word_no_newline (w : pystr) :
  nospace w = true -> forallb (fun c => negb (N.eqb c 10)) w = true.
Proof.
  unfold nospace. rewrite !forallb_forall. intros H c Hc.
  specialize (H c Hc). destruct (N.eqb c 10) eqn:E; auto.
  apply N.eqb_eq in E. subst c. discriminate H.
Qed.

Lemma join_no_newline (ws : list pystr) :
  Forall word ws ->
  forallb (fun c => negb (N.eqb c 10)) (join (lit " ") ws) = true.
Proof.
  induction 1 as [|w ws [_ Hw] Hws IH]; [reflexivity|].
  cbn [join]. destruct ws as [|w' ws'].
  - now apply word_no_newline.
  - rewrite !forallb_app, (word_no_newline w Hw), IH. reflexivity.
Qed.

(** X21.  [_truncate_summary] reads the words of a text and nothing else
    once it cuts. Truncating twice is truncating once, so every summary
    [generate_summary] returns is left unchanged by the truncation. A
    text that was cut is a single line (every line break of the original
    is gone), and two texts with the same words, however laid out, are
    cut to the same text. *)
Theorem truncation_reads_words_only :
  forall (rt : PyRuntime) (a b : pystr) (reply : result pystr)
         (now : datetime) (market_data : list MarketData)
         (trends : list TrendData) (market : pystr) (region : MarketRegion)
         (timeframe : TimeFrame),
    let summary :=
      generate_summary reply now market_data trends market region timeframe in
    _truncate_summary (_truncate_summary a) = _truncate_summary a
    /\ _truncate_summary summary = summary
    /\ ((300 < length (split a))%nat ->
        lines (_truncate_summary a) = [_truncate_summary a])
    /\ ((300 < length (split a))%nat -> split a = split b ->
        _truncate_summary a = _truncate_summary b).
Proof.
  intros rt a b reply now market_data trends market region timeframe summary.
  assert (Hidem : forall s,
             _truncate_summary (_truncate_summary s) = _truncate_summary s).
  { intros s. pose proof (truncate_word_count s) as H.
    unfold _truncate_summary at 1. cbv zeta.
    apply Nat.leb_le in H. now rewrite H. }
  split; [apply Hidem|]. split; [|split].
  - subst summary. unfold generate_summary, _generate_fallback_summary.
    destruct reply; apply Hidem.
  - intros Hlong. unfold _truncate_summary. cbv zeta.
    destruct (length (split a) <=? word_limit)%nat eqn:E.
    { apply Nat.leb_le in E. unfold word_limit in E. lia. }
    unfold lines. rewrite lines_from_single; [reflexivity|].
    rewrite forallb_app, join_no_newline; [reflexivity|].
    apply Forall_firstn_of, split_words.
  - intros Hlong Hsame. unfold _truncate_summary. cbv zeta.
    rewrite <- Hsame.
    destruct (length (split a) <=? word_limit)%nat eqn:E; [|reflexivity].
    apply Nat.leb_le in E. unfold word_limit in E. lia.
Qed.

(** ** The request handlers *)

Lemma verify_api_key_iff (settings : Config.Settings) (key : pystr) :
  Api.verify_api_key settings key = true <-> key = Config.api_key settings.
Proof. unfold Api.verify_api_key. apply pystr_eqb_eq. Qed.

Lemma authenticate_ok (settings : Config.Settings) (key : pystr) :
  key = Config.api_key settings ->
  Api.authenticate_request settings key = Api.Ok true.
Proof.
  intros H. unfold Api.authenticate_request.
  apply verify_api_key_iff in H. now rewrite H.
Qed.

Lemma authenticate_rejects (settings : Config.Settings) (key : pystr) :
  key <> Config.api_key settings ->
  Api.authenticate_request settings key
  = Api.HTTPException 401%Z (lit "Invalid API key").
Proof.
  intros H. unfold Api.authenticate_request.
  destruct (Api.verify_api_key settings key) eqn:E; auto.
  apply verify_api_key_iff in E. contradiction.
Qed.

Lemma strip_blank_iff (s : pystr) :
  PyStr.eqb (strip s) [] = true <-> forallb is_space s = true.
Proof. rewrite pystr_eqb_eq. apply strip_nil_iff. Qed.

Lemma create_analysis_settings s now uuid req :
  ttl_hours (snd (create_analysis s now uuid req)) = ttl_hours s
  /\ max_results (snd (create_analysis s now uuid req)) = max_results s.
Proof.
  unfold create_analysis. cbv zeta. cbn [snd].
  destruct (Z.of_nat (length (_results s)) >=? max_results s)%Z;
    split; reflexivity.
Qed.

Lemma update_analysis_settings s now k u :
  ttl_hours (snd (update_analysis s now k u)) = ttl_hours s.
Proof.
  unfold update_analysis. destruct (dict_get k (_results s)); reflexivity.
Qed.

Lemma create_then_get s now uuid req (later : datetime) :
  let created := snd (create_analysis s now uuid req) in
  dict_get uuid (_results created) = Some (new_result now uuid req)
  /\ ((later <= now + timedelta_hours (ttl_hours s))%Z ->
      get_analysis created later uuid
      = (Some (new_result now uuid req), created))
  /\ ((now + timedelta_hours (ttl_hours s) < later)%Z ->
      fst (get_analysis created later uuid) = None).
Proof.
  intros created.
  assert (Hget : dict_get uuid (_results created)
                 = Some (new_result now uuid req)).
  { subst created. unfold create_analysis. cbv zeta. cbn [snd].
    cbn [_results with_results]. apply dict_get_set_same. }
  destruct (create_analysis_settings s now uuid req) as [Httl _].
  fold created in Httl.
  split; [exact Hget|]. split; intros Hlater.
  - unfold get_analysis. rewrite Hget. unfold _is_expired. cbv zeta.
    rewrite Httl. cbn [created_at new_result].
    replace (later >? now + timedelta_hours (ttl_hours s))%Z with false;
      [reflexivity|].
    symmetry. rewrite Z.gtb_ltb. apply Z.ltb_ge. lia.
  - unfold get_analysis. rewrite Hget. unfold _is_expired. cbv zeta.
    rewrite Httl. cbn [created_at new_result].
    replace (later >? now + timedelta_hours (ttl_hours s))%Z with true;
      [reflexivity|].
    symmetry. rewrite Z.gtb_ltb. apply Z.ltb_lt. lia.
Qed.

(** X22.  A request with a wrong API key gets status 401 "Invalid API
    key" from each of the four handlers and changes nothing: no record
    is created, no task is scheduled, nothing is deleted, and not even
    an expired record is evicted. *)
Theorem unauthorised_requests_change_nothing :
  forall (settings : Config.Settings) (storage : InMemoryStorage)
         (now : datetime) (uuid analysis_id key market : pystr)
         (region : MarketRegion) (timeframe : TimeFrame) (limit : Z),
    key <> Config.api_key settings ->
    let denied {A : Type} : Api.response A :=
      Api.HTTPException 401%Z (lit "Invalid API key") in
    Api.analyze_market settings storage now uuid
      {| Models.market := market; region := region; timeframe := timeframe;
         Models.api_key := key |}
    = (denied, storage, None)
    /\ Api.get_results settings storage now analysis_id key
       = (denied, storage)
    /\ Api.list_recent_analyses settings storage now key limit
       = (denied, storage)
    /\ Api.delete_analysis settings storage analysis_id key
       = (denied, storage).
Proof.
  intros settings storage now uuid analysis_id key market region timeframe
         limit Hkey denied.
  pose proof (authenticate_rejects settings key Hkey) as Hauth.
  unfold Api.analyze_market, Api.get_results, Api.list_recent_analyses,
    Api.delete_analysis.
  cbn [Models.api_key]. rewrite Hauth. repeat split.
Qed.

Lemma unauthorised_requests_change_nothing_witness :
  let req := {| Models.market := lit "energy"; region := EU;
                timeframe := DAILY; Models.api_key := lit "guess" |} in
  let storage := snd (create_analysis (init 1000 1) 0%Z (lit "job-0") req) in
  lit "guess" <> Config.api_key Config.defaults
  /\ Api.get_results Config.defaults storage 3600000001%Z (lit "job-0")
                     (lit "guess")
     = (Api.HTTPException 401%Z (lit "Invalid API key"), storage)
  /\ Api.delete_analysis Config.defaults storage (lit "job-0") (lit "guess")
     = (Api.HTTPException 401%Z (lit "Invalid API key"), storage).
Proof.
  intros req storage.
  assert (Hkey : lit "guess" <> Config.api_key Config.defaults)
    by discriminate.
  destruct (unauthorised_requests_change_nothing Config.defaults storage
              3600000001%Z (lit "id") (lit "job-0") (lit "guess")
              (lit "energy") EU DAILY 10%Z Hkey)
    as (_ & Hget & _ & Hdel).
  split; [exact Hkey|]. split; [exact Hget | exact Hdel].
Defined.

(** X23.  [analyze_market] with the right key: the request is refused
    with status 400 "Market parameter cannot be empty" exactly when the
    market has no word (it is empty or all white space), and then the
    store is untouched and no task is scheduled; otherwise a record is
    created under the generated id, the reply carries that id with
    status "processing", and one task is scheduled with the id, market,
    region and timeframe of the request. *)
Theorem analyze_market_validation :
  forall (settings : Config.Settings) (storage : InMemoryStorage)
         (now : datetime) (uuid : pystr) (request : AnalysisRequest),
    Models.api_key request = Config.api_key settings ->
    (split (market request) = [] <-> forallb is_space (market request) = true)
    /\ (forallb is_space (market request) = true ->
        Api.analyze_market settings storage now uuid request
        = (Api.HTTPException 400%Z (lit "Market parameter cannot be empty"),
           storage, None))
    /\ (forallb is_space (market request) = false ->
        Api.analyze_market settings storage now uuid request
        = (Api.Ok {| Api.started_analysis_id := uuid;
                     Api.started_status := lit "processing";
                     Api.started_message := lit "Analysis started successfully";
                     Api.started_estimated_completion := lit "30-60 seconds" |},
           snd (create_analysis storage now uuid request),
           Some {| Api.task_analysis_id := uuid;
                   Api.task_market := market request;
                   Api.task_region := region request;
                   Api.task_timeframe := timeframe request |})).
Proof.
  intros settings storage now uuid request Hkey.
  pose proof (authenticate_ok settings _ Hkey) as Hauth.
  split; [apply split_nil_iff|].
  unfold Api.analyze_market. rewrite Hauth.
  split; intros Hm.
  - apply strip_blank_iff in Hm. now rewrite Hm.
  - destruct (PyStr.eqb (strip (market request)) []) eqn:E.
    + apply strip_blank_iff in E. congruence.
    + reflexivity.
Qed.

Lemma analyze_market_validation_witness :
  let blank := {| Models.market := [32%N; 9%N; 10%N]; region := US;
                  timeframe := WEEKLY;
                  Models.api_key := lit "crewinsight-mvp-2024" |} in
  Models.api_key blank = Config.api_key Config.defaults
  /\ Api.analyze_market Config.defaults (init 1000 24) 0%Z (lit "job-0") blank
     = (Api.HTTPException 400%Z (lit "Market parameter cannot be empty"),
        init 1000 24, None).
Proof.
  intros blank.
  assert (Hkey : Models.api_key blank = Config.api_key Config.defaults)
    by reflexivity.
  destruct (analyze_market_validation Config.defaults (init 1000 24) 0%Z
              (lit "job-0") blank Hkey) as (_ & Hblank & _).
  split; [exact Hkey|]. apply Hblank. reflexivity.
Defined.

(** X24.  Submitting and polling. After an accepted [analyze_market] the
    id of the reply can be polled with [get_results]: up to [ttl_hours]
    after the submission the poll answers the new record, in status
    "processing", carrying the request as submitted, and leaves the
    store as it is; later than that it answers status 404 "Analysis not
    found or expired". *)
Theorem submit_then_poll :
  forall (settings : Config.Settings) (storage : InMemoryStorage)
         (now later : datetime) (uuid : pystr) (request : AnalysisRequest),
    Models.api_key request = Config.api_key settings ->
    forallb is_space (market request) = false ->
    let submitted := Api.analyze_market settings storage now uuid request in
    let stored := snd (fst submitted) in
    let deadline := (now + timedelta_hours (ttl_hours storage))%Z in
    (exists started task,
        submitted = (Api.Ok started, stored, Some task)
        /\ Api.started_analysis_id started = uuid
        /\ Api.task_analysis_id task = uuid)
    /\ ((later <= deadline)%Z ->
        Api.get_results settings stored later uuid (Models.api_key request)
        = (Api.Ok (new_result now uuid request), stored))
    /\ ((deadline < later)%Z ->
        fst (Api.get_results settings stored later uuid
                             (Models.api_key request))
        = Api.HTTPException 404%Z (lit "Analysis not found or expired")).
Proof.
  intros settings storage now later uuid request Hkey Hm submitted stored
         deadline.
  pose proof (authenticate_ok settings _ Hkey) as Hauth.
  assert (Hsub : submitted
                 = (Api.Ok {| Api.started_analysis_id := uuid;
                              Api.started_status := lit "processing";
                              Api.started_message :=
                                lit "Analysis started successfully";
                              Api.started_estimated_completion :=
                                lit "30-60 seconds" |},
                    snd (create_analysis storage now uuid request),
                    Some {| Api.task_analysis_id := uuid;
                            Api.task_market := market request;
                            Api.task_region := region request;
                            Api.task_timeframe := timeframe request |})).
  { subst submitted. unfold Api.analyze_market. rewrite Hauth.
    destruct (PyStr.eqb (strip (market request)) []) eqn:E; [|reflexivity].
    apply strip_blank_iff in E. congruence. }
  assert (Hstored : stored = snd (create_analysis storage now uuid request)).
  { subst stored. now rewrite Hsub. }
  destruct (create_then_get storage now uuid request later)
    as (_ & Hlive & Hdead).
  cbv zeta in Hlive, Hdead. rewrite <- Hstored in Hlive, Hdead.
  split; [|split].
  - eexists. eexists. rewrite Hsub, <- Hstored.
    split; [reflexivity|]. split; reflexivity.
  - intros Hl. unfold Api.get_results. rewrite Hauth.
    now rewrite (Hlive Hl).
  - intros Hl. unfold Api.get_results. rewrite Hauth.
    specialize (Hdead Hl).
    destruct (get_analysis stored later uuid) as [[r|] s']; [discriminate|].
    reflexivity.
Qed.

Lemma submit_then_poll_witness :
  let req := {| Models.market := lit "energy"; region := EU;
                timeframe := DAILY;
                Models.api_key := lit "crewinsight-mvp-2024" |} in
  let stored :=
    snd (fst (Api.analyze_market Config.defaults (init 1000 24) 0%Z
                                 (lit "job-0") req)) in
  (Models.api_key req = Config.api_key Config.defaults
   /\ forallb is_space (market req) = false)
  /\ Api.get_results Config.defaults stored 86400000000%Z (lit "job-0")
                     (lit "crewinsight-mvp-2024")
     = (Api.Ok (new_result 0%Z (lit "job-0") req), stored)
  /\ fst (Api.get_results Config.defaults stored 86400000001%Z (lit "job-0")
                          (lit "crewinsight-mvp-2024"))
     = Api.HTTPException 404%Z (lit "Analysis not found or expired").
Proof.
  intros req stored.
  assert (Hkey : Models.api_key req = Config.api_key Config.defaults)
    by reflexivity.
  assert (Hm : forallb is_space (market req) = false) by reflexivity.
  split; [split; [exact Hkey | exact Hm]|].
  split.
  - destruct (submit_then_poll Config.defaults (init 1000 24) 0%Z
                86400000000%Z (lit "job-0") req Hkey Hm) as (_ & Hlive & _).
    apply Hlive. vm_compute. discriminate.
  - destruct (submit_then_poll Config.defaults (init 1000 24) 0%Z
                86400000001%Z (lit "job-0") req Hkey Hm) as (_ & _ & Hdead).
    apply Hdead. vm_compute. reflexivity.
Defined.

(** X25.  Deleting and not finding. With the right key,
    [delete_analysis] answers "Analysis deleted successfully" when the
    id is stored, expired or not, and status 404 "Analysis not found"
    otherwise. After a delete the id is gone for good: [get_results]
    answers 404 at every clock reading and a second delete answers 404.
    Likewise a 404 from [get_results] is final: after it, the same id is
    not found at any clock reading, an earlier one included. *)
Theorem deleted_and_expired_ids_stay_gone :
  forall (settings : Config.Settings) (storage : InMemoryStorage)
         (now t : datetime) (analysis_id key : pystr),
    key = Config.api_key settings ->
    keys_distinct (_results storage) = true ->
    let gone {A : Type} (detail : pystr) : Api.response A :=
      Api.HTTPException 404%Z detail in
    let after_delete :=
      snd (Api.delete_analysis settings storage analysis_id key) in
    let after_get :=
      snd (Api.get_results settings storage now analysis_id key) in
    fst (Api.delete_analysis settings storage analysis_id key)
    = (if dict_contains analysis_id (_results storage)
       then Api.Ok (lit "Analysis deleted successfully")
       else gone (lit "Analysis not found"))
    /\ Api.get_results settings after_delete t analysis_id key
       = (gone (lit "Analysis not found or expired"), after_delete)
    /\ Api.delete_analysis settings after_delete analysis_id key
       = (gone (lit "Analysis not found"), after_delete)
    /\ (fst (Api.get_results settings storage now analysis_id key)
        = gone (lit "Analysis not found or expired") ->
        Api.get_results settings after_get t analysis_id key
        = (gone (lit "Analysis not found or expired"), after_get)).
Proof.
  intros settings storage now t analysis_id key Hkey Hd gone after_delete
         after_get.
  pose proof (authenticate_ok settings _ Hkey) as Hauth.
  assert (Hdel : after_delete = snd (delete_analysis storage analysis_id)).
  { subst after_delete. unfold Api.delete_analysis. rewrite Hauth.
    now destruct (delete_analysis storage analysis_id) as [[|] s']. }
  assert (Hgone : dict_get analysis_id (_results after_delete) = None).
  { rewrite Hdel. unfold delete_analysis.
    destruct (dict_contains analysis_id (_results storage)) eqn:E; cbn [snd].
    - cbn [_results with_results]. now apply dict_get_del_same.
    - now apply dict_contains_false_get. }
  split; [|split; [|split]].
  - unfold Api.delete_analysis. rewrite Hauth. unfold delete_analysis.
    now destruct (dict_contains analysis_id (_results storage)).
  - unfold Api.get_results. rewrite Hauth. unfold get_analysis.
    now rewrite Hgone.
  - unfold Api.delete_analysis. rewrite Hauth. unfold delete_analysis.
    apply dict_contains_false_get in Hgone. now rewrite Hgone.
  - intros H404.
    assert (Hget : after_get = snd (get_analysis storage now analysis_id)
                   /\ fst (get_analysis storage now analysis_id) = None).
    { subst after_get. unfold Api.get_results in *. rewrite Hauth in *.
      destruct (get_analysis storage now analysis_id) as [[r|] s'];
        [discriminate H404 | split; reflexivity]. }
    destruct Hget as [Hafter Hnone].
    assert (Hmiss : dict_get analysis_id (_results after_get) = None).
    { rewrite Hafter. unfold get_analysis in *.
      destruct (dict_get analysis_id (_results storage)) as [r|] eqn:E.
      - destruct (_is_expired storage now r); [|discriminate Hnone].
        cbn [snd _results with_results]. now apply dict_get_del_same.
      - exact E. }
    unfold Api.get_results. rewrite Hauth. unfold get_analysis.
    now rewrite Hmiss.
Qed.

Lemma deleted_and_expired_ids_stay_gone_witness :
  let req := {| Models.market := lit "energy"; region := EU;
                timeframe := DAILY;
                Models.api_key := lit "crewinsight-mvp-2024" |} in
  let key := lit "crewinsight-mvp-2024" in
  let storage := snd (create_analysis (init 1000 1) 0%Z (lit "job-0") req) in
  let after_get :=
    snd (Api.get_results Config.defaults storage 3600000001%Z (lit "job-0")
                         key) in
  (key = Config.api_key Config.defaults
   /\ keys_distinct (_results storage) = true)
  /\ fst (Api.delete_analysis Config.defaults storage (lit "job-0") key)
     = Api.Ok (lit "Analysis deleted successfully")
  /\ Api.get_results Config.defaults after_get 0%Z (lit "job-0") key
     = (Api.HTTPException 404%Z (lit "Analysis not found or expired"),
        after_get).
Proof.
  intros req key storage after_get.
  assert (Hkey : key = Config.api_key Config.defaults) by reflexivity.
  assert (Hd : keys_distinct (_results storage) = true) by reflexivity.
  destruct (deleted_and_expired_ids_stay_gone Config.defaults storage
              3600000001%Z 0%Z (lit "job-0") key Hkey Hd)
    as (Hdel & _ & _ & Hfinal).
  split; [split; [exact Hkey | exact Hd]|].
  split; [rewrite Hdel; reflexivity|].
  apply Hfinal. reflexivity.
Defined.

Lemma analyze_market_accepted (settings : Config.Settings)
      (storage : InMemoryStorage) (now : datetime) (uuid : pystr)
      (request : AnalysisRequest) :
  Models.api_key request = Config.api_key settings ->
  forallb is_space (market request) = false ->
  Api.analyze_market settings storage now uuid request
  = (Api.Ok {| Api.started_analysis_id := uuid;
               Api.started_status := lit "processing";
               Api.started_message := lit "Analysis started successfully";
               Api.started_estimated_completion := lit "30-60 seconds" |},
     snd (create_analysis storage now uuid request),
     Some {| Api.task_analysis_id := uuid;
             Api.task_market := market request;
             Api.task_region := region request;
             Api.task_timeframe := timeframe request |}).
Proof.
  intros Hkey Hm. unfold Api.analyze_market.
  rewrite (authenticate_ok settings _ Hkey).
  destruct (PyStr.eqb (strip (market request)) []) eqn:E; [|reflexivity].
  apply strip_blank_iff in E. congruence.
Qed.

Lemma perform_analysis_settings {rt : PyRuntime} manager run storage
      analysis_id market region timeframe :
  ttl_hours (perform_analysis manager run storage analysis_id market region
                              timeframe)
  = ttl_hours (before_last_update run storage analysis_id).
Proof.
  unfold perform_analysis. cbv zeta.
  destruct (pipeline manager run market region timeframe) as [[[md tr] sm]|e];
    apply update_analysis_settings.
Qed.

(** X26.  From submission to result.  A request accepted by
    [analyze_market], its background task run over the registered
    collectors with no other request in between, and a poll no later
    than [ttl_hours] after the submission: the poll answers the record
    of the job under the id of the reply, with the request as submitted,
    the creation time of the submission and the processing time of the
    run.  The record is in status "completed", with the completion time
    of the run's last update, data points, trends and a summary, in
    every case but one: when the Alpha Vantage collector has a key and a
    working client and receives an overview whose P/E ratio is an
    integer too large for [float], the record is in status "failed"
    with the error message "int too large to convert to float" and no
    data, trends or summary.  No other outcome of the network or of the
    text generator makes such a job end as "failed". *)
Theorem submit_run_poll :
  forall (rt : PyRuntime) (settings : Config.Settings) (up : Upstream)
         (collected_at : datetime) (run : Run) (storage : InMemoryStorage)
         (now later : datetime) (uuid : pystr) (request : AnalysisRequest),
    Models.api_key request = Config.api_key settings ->
    forallb is_space (market request) = false ->
    (forall table, meanwhile run table = table) ->
    (later <= now + timedelta_hours (ttl_hours storage))%Z ->
    let submitted := Api.analyze_market settings storage now uuid request in
    let stored := snd (fst submitted) in
    exists task r,
      snd submitted = Some task
      /\ Api.get_results
           settings
           (Api.run_task (registered_manager settings up collected_at) run
                         stored task)
           later uuid (Models.api_key request)
         = (Api.Ok r,
            Api.run_task (registered_manager settings up collected_at) run
                         stored task)
      /\ id r = uuid
      /\ Models.request r = request
      /\ created_at r = now
      /\ processing_time r = Some (end_time run - start_time run)
      /\ (live_pe_overflows settings up = false ->
          status r = lit "completed"
          /\ completed_at r = Some (last_update_now run)
          /\ (2 <= length (market_data r) <= 4)%nat
          /\ (1 <= length (trends r) <= 5)%nat
          /\ summary r <> None
          /\ error_message r = None)
      /\ (live_pe_overflows settings up = true ->
          status r = lit "failed"
          /\ error_message r
             = Some (lit "int too large to convert to float")
          /\ completed_at r = None
          /\ market_data r = []
          /\ trends r = []
          /\ summary r = None).
Proof.
  intros rt settings up collected_at run storage now later uuid request
         Hkey Hm Hmean Hlater submitted stored.
  pose proof (analyze_market_accepted settings storage now uuid request
                                      Hkey Hm) as Hsub.
  fold submitted in Hsub.
  assert (Hstored : stored = snd (create_analysis storage now uuid request)).
  { subst stored. now rewrite Hsub. }
  destruct (create_then_get storage now uuid request later) as (Hnew & _ & _).
  cbv zeta in Hnew. rewrite <- Hstored in Hnew.
  destruct (create_analysis_settings storage now uuid request) as [Httl _].
  rewrite <- Hstored in Httl.
  assert (Hbefore : before_last_update run stored uuid
                    = snd (update_analysis stored (first_update_now run) uuid
                                           processing_update)).
  { unfold before_last_update. apply Hmean. }
  assert (Hget : dict_get uuid (_results (before_last_update run stored uuid))
                 = Some (set_fields processing_update
                                    (new_result now uuid request))).
  { rewrite Hbefore.
    now rewrite (update_analysis_get stored (first_update_now run) uuid
                                     processing_update _ Hnew). }
  destruct (registered_run_record rt settings up collected_at run stored uuid
              (market request) (region request) (timeframe request) _ Hget)
    as (r & Hr & Hpt & Hcr & Hreq & Hid & Hlen & Hok & Hfail).
  eexists. exists r. rewrite Hsub. cbn [snd].
  split; [reflexivity|].
  unfold Api.run_task.
  cbn [Api.task_analysis_id Api.task_market Api.task_region
       Api.task_timeframe].
  set (finished := perform_analysis _ run stored uuid (market request)
                                    (region request) (timeframe request)) in *.
  assert (Hfttl : ttl_hours finished = ttl_hours storage).
  { subst finished. rewrite perform_analysis_settings, Hbefore.
    now rewrite update_analysis_settings. }
  split.
  { unfold Api.get_results. rewrite (authenticate_ok settings _ Hkey).
    unfold get_analysis. rewrite Hr. unfold _is_expired. cbv zeta.
    rewrite Hfttl, Hcr. cbn [created_at set_fields new_result get
                              processing_update u_created_at].
    replace (later >? now + timedelta_hours (ttl_hours storage))%Z
      with false; [reflexivity|].
    symmetry. rewrite Z.gtb_ltb. apply Z.ltb_ge. lia. }
  split; [rewrite Hid; reflexivity|].
  split; [rewrite Hreq; reflexivity|].
  split; [rewrite Hcr; reflexivity|].
  split; [exact Hpt|]. split.
  - intros Hno.
    destruct (Hok Hno) as (found & _ & Hst & Hdone & Hmd & Htr & Htrl & Hsum
                           & Herr).
    split; [exact Hst|]. split; [exact Hdone|].
    split; [rewrite Hmd; exact Hlen|]. split; [rewrite Htr; exact Htrl|].
    split; [rewrite Hsum; discriminate | rewrite Herr; reflexivity].
  - intros Hyes.
    destruct (Hfail Hyes) as (_ & Hst & Herr & Hdone & Hmd & Htr & Hsum).
    split; [exact Hst|]. split; [exact Herr|].
    split; [rewrite Hdone; reflexivity|].
    split; [rewrite Hmd; reflexivity|].
    split; [rewrite Htr; reflexivity | rewrite Hsum; reflexivity].
Qed.

Lemma submit_run_poll_witness :
  let up (pe : pyval) :=
    {| client_raises := false;
       overview_reply := Some (VStr (lit "1B"), pe, VStr (lit "Energy"));
       closes_reply := None;
       series_std := fun _ => 0;
       news_reply := NewsReplied false [] |} in
  let settings :=
    {| Config.api_key := lit "k";
       Config.alpha_vantage_api_key := Some (lit "a");
       Config.news_api_key := Some (lit "n") |} in
  let run :=
    {| start_time := 100; end_time := 103 # 1;
       first_update_now := 10%Z; last_update_now := 20%Z;
       meanwhile := fun table => table;
       reply := Raise (Exception (lit "rate limit")); summary_now := 15%Z |} in
  let req := {| Models.market := lit "energy"; region := EU;
                timeframe := DAILY; Models.api_key := lit "k" |} in
  let submitted :=
    Api.analyze_market settings (init 1000 24) 5%Z (lit "job-0") req in
  let polled (pe : pyval) (task : Api.Task) :=
    fst (Api.get_results
           settings
           (@Api.run_task AsciiRuntime.ascii_runtime
              (registered_manager settings (up pe) 12%Z) run
              (snd (fst submitted)) task)
           30%Z (lit "job-0") (lit "k")) in
  exists task completed failed,
    snd submitted = Some task
    /\ (polled (VStr (lit "25.5")) task = Api.Ok completed
        /\ status completed = lit "completed"
        /\ completed_at completed = Some 20%Z)
    /\ (polled (VInt (10 ^ 400)) task = Api.Ok failed
        /\ status failed = lit "failed"
        /\ error_message failed
           = Some (lit "int too large to convert to float")).
Proof.
  intros up settings run req submitted polled.
  assert (Hkey : Models.api_key req = Config.api_key settings) by reflexivity.
  assert (Hm : forallb is_space (market req) = false) by reflexivity.
  assert (Hmean : forall table, meanwhile run table = table)
    by (intros table; reflexivity).
  assert (Hlater : (30 <= 5 + timedelta_hours (ttl_hours (init 1000 24)))%Z)
    by (vm_compute; discriminate).
  destruct (submit_run_poll AsciiRuntime.ascii_runtime settings
              (up (VStr (lit "25.5"))) 12%Z run (init 1000 24) 5%Z 30%Z
              (lit "job-0") req Hkey Hm Hmean Hlater)
    as (task & r1 & Htask & Hpoll1 & _ & _ & _ & _ & Hok & _).
  destruct (submit_run_poll AsciiRuntime.ascii_runtime settings
              (up (VInt (10 ^ 400))) 12%Z run (init 1000 24) 5%Z 30%Z
              (lit "job-0") req Hkey Hm Hmean Hlater)
    as (task2 & r2 & Htask2 & Hpoll2 & _ & _ & _ & _ & _ & Hfail).
  assert (Etask : task2 = task).
  { fold submitted in Htask, Htask2. rewrite Htask in Htask2.
    now inversion Htask2. }
  subst task2.
  destruct (Hok eq_refl) as (Hst1 & Hdone1 & _).
  assert (Hlive : live_pe_overflows settings (up (VInt (10 ^ 400))) = true)
    by (vm_compute; reflexivity).
  destruct (Hfail Hlive) as (Hst2 & Herr2 & _).
  exists task, r1, r2. split; [exact Htask|]. split.
  - split; [exact (f_equal fst Hpoll1)|]. split; [exact Hst1 | exact Hdone1].
  - split; [exact (f_equal fst Hpoll2)|]. split; [exact Hst2 | exact Herr2].
Defined.
